(** * Telegram supervision bot: account ledger, catalog and message router

    A shallow embedding of [src/bot.py]: the [DatabaseManager] methods as
    functions on a record of tables, the chat handlers as computations in a
    small state-and-exception monad over the bot's world (tables, per-user
    [context.user_data], transport trace), and the properties of the
    specification stated over them.

    Conventions of the embedding.
    - Python [int] is [Z]. An SQLite INTEGER column is [Z] too, holding
      values of the signed 64-bit range ([sqlite_int]): where the program
      binds a number it read from a user, the OverflowError of a number
      outside the range is modelled; a sum or difference computed by SQLite
      that leaves the range becomes a REAL, which the columns here cannot
      hold, and statements about stored integers are made within the range.
      Row ids are taken within it.
    - Python [float] and SQLite REAL are binary64 values ([PrimFloat.float]),
      with Python's own [+], [*], [<], [>] and [abs]. SQLite stores a NaN as
      NULL, which the columns here cannot hold: statements about a stored
      REAL are made for values that are numbers.
    - A call of the transport made by a handler returns normally; only the
      deliveries of a broadcast can fail.
    - A table with an INTEGER PRIMARY KEY given by the caller is a [gmap]
      from the key to the row; an AUTOINCREMENT table that the program only
      appends to is a list, the next id being its length plus one.
    - CURRENT_TIMESTAMP is the [now] the operation receives (seconds).
    - Each [with self.get_connection()] block commits on exit: an operation
      is a function from tables to tables, and a block that returns before
      its first write leaves the tables as they were. *)

From Stdlib Require Import ZArith Ascii String List.
From Stdlib Require Import Floats.PrimFloat Floats.SpecFloat Floats.FloatOps.
From Stdlib Require Floats.FloatAxioms Numbers.Cyclic.Int63.Uint63.
From stdpp Require Import gmap strings list pretty sorting.

Local Open Scope string_scope.
Local Open Scope list_scope.
Local Open Scope Z_scope.

(** ** Tables *)

Record User := mkUser {
  u_username : string;
  u_first_name : string;
  u_last_name : string;
  u_language_code : string;
  u_join_date : Z;
  u_last_activity : Z;
  u_is_banned : bool;
  u_is_premium : bool;
  u_balance : float;
  u_points : Z;
  u_referral_code : string;
  u_referred_by : option Z;
  u_message_count : Z;
  u_phone_number : option string
}.

Record Admin := mkAdmin {
  a_added_by : Z;
  a_added_date : Z;
  a_level : Z
}.

Record Product := mkProduct {
  p_name : string;
  p_description : string;
  p_price : float;
  p_stock : Z;
  p_category : string;
  p_image_url : option string;
  p_is_active : bool;
  p_created_at : Z
}.

Record Order := mkOrder {
  o_order_id : Z;
  o_user_id : Z;
  o_product_id : Z;
  o_quantity : Z;
  o_total_price : float;
  o_status : string;
  o_created_at : Z
}.

Record Ticket := mkTicket {
  t_ticket_id : Z;
  t_user_id : Z;
  t_subject : string;
  t_message : string;
  t_status : string;
  t_created_at : Z;
  t_resolved_at : option Z
}.

Record Transaction := mkTransaction {
  tr_trans_id : Z;
  tr_user_id : Z;
  tr_type : string;
  tr_amount : float;
  tr_description : string;
  tr_created_at : Z
}.

Record Database := mkDatabase {
  users : gmap Z User;
  admins : gmap Z Admin;
  settings : gmap string string;
  products : gmap Z Product;
  orders : list Order;
  tickets : list Ticket;
  transactions : list Transaction
}.

Definition set_users (f : gmap Z User → gmap Z User) (d : Database) : Database :=
  mkDatabase (f (users d)) (admins d) (settings d) (products d)
             (orders d) (tickets d) (transactions d).

Definition set_admins (f : gmap Z Admin → gmap Z Admin) (d : Database) : Database :=
  mkDatabase (users d) (f (admins d)) (settings d) (products d)
             (orders d) (tickets d) (transactions d).

Definition set_products (f : gmap Z Product → gmap Z Product) (d : Database) : Database :=
  mkDatabase (users d) (admins d) (settings d) (f (products d))
             (orders d) (tickets d) (transactions d).

Definition set_orders (f : list Order → list Order) (d : Database) : Database :=
  mkDatabase (users d) (admins d) (settings d) (products d)
             (f (orders d)) (tickets d) (transactions d).

Definition set_tickets (f : list Ticket → list Ticket) (d : Database) : Database :=
  mkDatabase (users d) (admins d) (settings d) (products d)
             (orders d) (f (tickets d)) (transactions d).

Definition set_transactions (f : list Transaction → list Transaction) (d : Database) : Database :=
  mkDatabase (users d) (admins d) (settings d) (products d)
             (orders d) (tickets d) (f (transactions d)).

(** Column updates of the [users] table. *)

Definition with_points (f : Z → Z) (u : User) : User :=
  mkUser (u_username u) (u_first_name u) (u_last_name u) (u_language_code u)
         (u_join_date u) (u_last_activity u) (u_is_banned u) (u_is_premium u)
         (u_balance u) (f (u_points u)) (u_referral_code u) (u_referred_by u)
         (u_message_count u) (u_phone_number u).

Definition with_balance (b : float) (u : User) : User :=
  mkUser (u_username u) (u_first_name u) (u_last_name u) (u_language_code u)
         (u_join_date u) (u_last_activity u) (u_is_banned u) (u_is_premium u)
         b (u_points u) (u_referral_code u) (u_referred_by u)
         (u_message_count u) (u_phone_number u).

Definition with_banned (b : bool) (u : User) : User :=
  mkUser (u_username u) (u_first_name u) (u_last_name u) (u_language_code u)
         (u_join_date u) (u_last_activity u) b (u_is_premium u)
         (u_balance u) (u_points u) (u_referral_code u) (u_referred_by u)
         (u_message_count u) (u_phone_number u).

(** [SET last_activity = CURRENT_TIMESTAMP, message_count = message_count + 1] *)
Definition with_activity (now : Z) (u : User) : User :=
  mkUser (u_username u) (u_first_name u) (u_last_name u) (u_language_code u)
         (u_join_date u) now (u_is_banned u) (u_is_premium u)
         (u_balance u) (u_points u) (u_referral_code u) (u_referred_by u)
         (u_message_count u + 1) (u_phone_number u).

(** [SET last_activity = CURRENT_TIMESTAMP, username = ?, first_name = ?,
    last_name = ?] *)
Definition with_names (now : Z) (username first_name last_name : string)
    (u : User) : User :=
  mkUser username first_name last_name (u_language_code u)
         (u_join_date u) now (u_is_banned u) (u_is_premium u)
         (u_balance u) (u_points u) (u_referral_code u) (u_referred_by u)
         (u_message_count u) (u_phone_number u).

Definition with_stock (f : Z → Z) (p : Product) : Product :=
  mkProduct (p_name p) (p_description p) (p_price p) (f (p_stock p))
            (p_category p) (p_image_url p) (p_is_active p) (p_created_at p).

(** ** Python and SQLite primitives the methods rely on *)

Inductive Exn :=
  | NameError (name : string)
  | TypeError
  | ValueError
  | OverflowError.

Inductive Res (A : Type) :=
  | Ok (a : A)
  | Raise (e : Exn).
Arguments Ok {A} a.
Arguments Raise {A} e.

(** [float(n)] for an [int]: the nearest binary64 value, ties to even;
    OverflowError when that is not finite. *)
Definition float_of_int (n : Z) : Res float :=
  let f := SF2Prim (binary_normalize prec emax n 0 false) in
  if PrimFloat.is_infinity f then Raise OverflowError else Ok f.

(** [x * n] for a [float] and an [int]. *)
Definition float_mul_int (x : float) (n : Z) : Res float :=
  match float_of_int n with
  | Ok f => Ok (PrimFloat.mul x f)
  | Raise e => Raise e
  end.

(** What SQLite holds and binds as an INTEGER: a signed 64-bit value.
    Binding a Python [int] outside this range raises OverflowError before
    the statement runs. *)
Definition sqlite_int (n : Z) : bool :=
  (-9223372036854775808 <=? n) && (n <=? 9223372036854775807).

(** [ORDER BY key DESC]. The order among rows with equal keys is SQLite's
    choice and is not modelled: what is proved of a listing holds for every
    order of its ties. *)
Definition order_by_desc {A} (key : A → Z) (rows : list A) : list A :=
  @merge_sort A (λ x y, key y ≤ key x) (λ x y, decide (key y ≤ key x)) rows.

(** [LIMIT limit OFFSET offset] *)
Definition limit_offset {A} (limit offset : nat) (rows : list A) : list A :=
  take limit (drop offset rows).

(** The id an AUTOINCREMENT table gives to its next row. *)
Definition next_id {A} (table : list A) : Z := Z.of_nat (length table) + 1.

(** [string.ascii_uppercase + string.digits] *)
Definition referral_alphabet : string := "ABCDEFGHIJKLMNOPQRSTUVWXYZ0123456789".

(** What [random.choices(alphabet, k=6)] can return, joined. *)
Definition is_suffix_choice (s : string) : bool :=
  (String.length s =? 6)%nat
  && forallb (λ c, existsb (Ascii.eqb c) (list_ascii_of_string referral_alphabet))
             (list_ascii_of_string s).

(** ** [class DatabaseManager] *)

Module DatabaseManager.

(** [f"REF{user_id}{suffix}"], [suffix] being the six characters drawn by
    [random.choices]. *)
Definition generate_referral_code (user_id : Z) (suffix : string) : string :=
  "REF" +:+ pretty user_id +:+ suffix.

(** The INSERT of [add_user] raises IntegrityError when the primary key or
    the UNIQUE referral code is already in the table. *)
Definition insert_conflicts (user_id : Z) (referral_code : string)
    (d : Database) : bool :=
  bool_decide (is_Some (users d !! user_id))
  || existsb (λ r, String.eqb (u_referral_code r.2) referral_code)
             (map_to_list (users d)).

Definition add_user (now : Z) (suffix : string) (user_id : Z)
    (username first_name last_name language_code : string)
    (phone : option string) (d : Database) : Database * bool :=
  let referral_code := generate_referral_code user_id suffix in
  if insert_conflicts user_id referral_code d then
    (set_users (alter (with_names now username first_name last_name) user_id) d,
     false)
  else
    (set_users
       (insert user_id
          (mkUser username first_name last_name language_code now now
                  false false 0%float 0 referral_code None 0 phone)) d,
     true).

Definition get_user (user_id : Z) (d : Database) : option User :=
  users d !! user_id.

Definition update_user_activity (now : Z) (user_id : Z) (d : Database)
    : Database :=
  set_users (alter (with_activity now) user_id) d.

Definition get_all_users (limit offset : nat) (d : Database)
    : list (Z * User) :=
  limit_offset limit offset
    (order_by_desc (λ r, u_join_date r.2) (map_to_list (users d))).

Definition get_users_count (d : Database) : nat := size (users d).

Definition ban_user (user_id : Z) (ban : bool) (d : Database) : Database :=
  set_users (alter (with_banned ban) user_id) d.

Definition is_admin (user_id : Z) (d : Database) : bool :=
  bool_decide (is_Some (admins d !! user_id)).

(** [INSERT OR REPLACE INTO admins (admin_id, added_by, level)] *)
Definition add_admin (now : Z) (admin_id added_by level : Z) (d : Database)
    : Database :=
  set_admins (insert admin_id (mkAdmin added_by now level)) d.

Definition remove_admin (admin_id : Z) (d : Database) : Database :=
  set_admins (delete admin_id) d.

Definition get_setting (key : string) (d : Database) : string :=
  default "" (settings d !! key).

(** The WHERE clause [get_products] builds; [category] is [None] for
    Python's [None], and an empty string adds no condition either. *)
Definition product_selected (category : option string) (active_only : bool)
    (p : Product) : bool :=
  (negb active_only || p_is_active p)
  && match category with
     | Some c => String.eqb c "" || String.eqb (p_category p) c
     | None => true
     end.

Definition get_products (category : option string) (active_only : bool)
    (d : Database) : list (Z * Product) :=
  order_by_desc (λ r, p_created_at r.2)
    (List.filter (λ r, product_selected category active_only r.2)
                 (map_to_list (products d))).

Definition get_product (product_id : Z) (d : Database) : option Product :=
  products d !! product_id.

(** Returns [-1] when the product is missing or short of stock, before any
    write; [price * quantity] raises OverflowError when [quantity] has no
    finite [float], and so does the INSERT when [quantity] is no SQLite
    integer; in both cases nothing is written. [stock - ?] is exact here:
    SQLite turns a difference that leaves the 64-bit range into a REAL,
    which [p_stock] cannot hold, so what is proved of the stock is stated
    for differences within the range. *)
Definition create_order (now : Z) (user_id product_id quantity : Z)
    (d : Database) : Database * Res Z :=
  match get_product product_id d with
  | None => (d, Ok (-1))
  | Some product =>
      if p_stock product <? quantity then (d, Ok (-1))
      else
        match float_mul_int (p_price product) quantity with
        | Raise e => (d, Raise e)
        | Ok total_price =>
            if negb (sqlite_int quantity) then (d, Raise OverflowError)
            else
            let order_id := next_id (orders d) in
            let d1 :=
              set_orders
                (λ os, os ++ [mkOrder order_id user_id product_id quantity
                                    total_price "pending" now]) d in
            let d2 :=
              set_products
                (alter (with_stock (λ stock, stock - quantity)) product_id)
                d1 in
            (d2, Ok order_id)
        end
  end.

(** The sum is kept as the binary64 value Python computes. SQLite stores a
    NaN as NULL, which [u_balance] cannot hold, so what is proved of a
    stored balance is stated for sums that are numbers. *)
Definition update_balance (now : Z) (user_id : Z) (amount : float)
    (d : Database) : Database * bool :=
  match users d !! user_id with
  | None => (d, false)
  | Some current =>
      let new_balance := PrimFloat.add (u_balance current) amount in
      if PrimFloat.ltb new_balance 0%float then (d, false)
      else
        let d1 := set_users (alter (with_balance new_balance) user_id) d in
        let d2 :=
          set_transactions
            (λ ts, ts ++ [mkTransaction (next_id ts) user_id
                            (if PrimFloat.ltb 0%float amount
                             then "credit" else "debit")
                            (PrimFloat.abs amount) "Balance update" now])
            d1 in
        (d2, true)
  end.

(** [UPDATE users SET points = points + ? WHERE user_id = ?]. The sum is
    exact here: binding [points] raises OverflowError when it is no SQLite
    integer, and SQLite turns a sum that leaves the 64-bit range into a
    REAL, which [u_points] cannot hold; the callers that pass a number read
    from the user check the first, and what is proved of stored points is
    stated for deltas and sums within the range. *)
Definition add_points (user_id : Z) (points : Z) (d : Database) : Database :=
  set_users (alter (with_points (λ p, p + points)) user_id) d.

Definition create_ticket (now : Z) (user_id : Z) (subject message : string)
    (d : Database) : Database * Z :=
  let ticket_id := next_id (tickets d) in
  (set_tickets
     (λ ts, ts ++ [mkTicket ticket_id user_id subject message "open" now
                             None])
     d,
   ticket_id).

Definition get_user_tickets (user_id : Z) (d : Database) : list Ticket :=
  order_by_desc t_created_at
    (filter (λ t, t_user_id t = user_id) (tickets d)).

Definition get_transactions (user_id : Z) (limit : nat) (d : Database)
    : list Transaction :=
  limit_offset limit 0
    (order_by_desc tr_created_at
       (filter (λ t, tr_user_id t = user_id) (transactions d))).

End DatabaseManager.

(** ** The chat side: payloads, transport trace, world *)

(** The reply keyboards of the section KEYBOARD LAYOUTS, and the inline
    button rows the handlers attach. *)
Inductive Keyboard :=
  | NoKeyboard
  | MainMenuKeyboard (admin : bool)
  | AdminKeyboard
  | ShopKeyboard
  | GamesKeyboard
  | WalletKeyboard
  | SettingsKeyboard
  | SupportKeyboard
  | CancelKeyboard
  | ProfileButtons
  | ShareLinkButton (referral_code : string)
  | AddToCartButton (product_id : Z)
  | TriviaButtons (question : nat).

Inductive Rank := Diamond | Gold | Silver | Bronze.

(** One constructor per message template of the handlers, carrying the
    values the template interpolates. *)
Inductive Payload :=
  | MsgBanned
  | MsgNotUnderstood
  | MsgLoadError
  | MsgProfile (user_id : Z) (user : User) (rank : Rank)
  | MsgShop
  | MsgWallet (user : User) (recent : list Transaction)
  | MsgGames
  | MsgNews
  | MsgReferral (user : User) (bonus : Z) (referral_count : nat)
  | MsgSettings
  | MsgSupport
  | MsgHelp
  | MsgMainMenu
  | MsgRolling (emoji : string)
  | MsgDiceResult (value points : Z)
  | MsgDartResult (value points : Z)
  | MsgSlotsResult (points : Z)
  | MsgTrivia (question : nat)
  | MsgLeaderboard (top : list (string * Z))
  | MsgDailyReward (points : Z)
  | MsgNoProducts
  | MsgProduct (product_id : Z) (product : Product)
  | MsgNoPermission
  | MsgAdminWelcome
  | MsgStats (total_users today_users total_orders open_tickets : nat)
  | MsgBroadcastPrompt
  | MsgUserManagement
  | MsgBotSettings (maintenance : bool)
  | MsgProductManagement
  | MsgTicketManagement
  | MsgAddAdminPrompt
  | MsgRemoveAdminPrompt
  | MsgPromoted (new_admin : Z)
  | MsgInvalidId
  | MsgTicketCreated (ticket_id : Z)
  | MsgSending
  | MsgSentTo (sent : Z)
  | MsgBroadcast (text : string)
  | MsgCancelled
  | MsgTicketPrompt
  | MsgNoTickets
  | MsgTicketList (tickets : list Ticket).

(** The calls made on the transport, in order. A [send_message] that raises
    is recorded with [delivered = false]. *)
Inductive Outbound :=
  | ReplyText (chat : Z) (payload : Payload) (keyboard : Keyboard)
  | SendMessage (chat : Z) (payload : Payload) (delivered : bool)
  | SendDice (chat : Z) (emoji : string)
  | DeleteMessage (chat : Z)
  | EditText (chat : Z) (payload : Payload).

Record World := mkWorld {
  db : Database;
  user_data : gmap Z (gmap string bool);
  outbox : list Outbound
}.

(** What one inbound event receives from outside the program. *)
Record Env := mkEnv {
  now : Z;                 (* CURRENT_TIMESTAMP *)
  dice_value : Z;          (* [dice_msg.dice.value] *)
  daily_points : Z;        (* [random.randint(10, 100)] *)
  trivia_question : nat;   (* the index [random.choice(questions)] picks *)
  delivers : Z → bool      (* [send_message] to that chat returns normally *)
}.

(** ** Handler computations: state, trace and exceptions *)

Definition M (A : Type) : Type := World → World * Res A.

#[local] Instance M_ret : MRet M := λ A a w, (w, Ok a).

#[local] Instance M_bind : MBind M := λ A B k m w,
  match m w with
  | (w', Ok a) => k a w'
  | (w', Raise e) => (w', Raise e)
  end.

Definition raise {A} (e : Exn) : M A := λ w, (w, Raise e).

(** A read of the tables. *)
Definition query {A} (q : Database → A) : M A := λ w, (w, Ok (q (db w))).

(** A committed write of the tables. *)
Definition execute (f : Database → Database) : M unit := λ w,
  (mkWorld (f (db w)) (user_data w) (outbox w), Ok tt).

(** A committed write that also returns a value. *)
Definition execute_returning {A} (f : Database → Database * A) : M A := λ w,
  let '(d, a) := f (db w) in
  (mkWorld d (user_data w) (outbox w), Ok a).

(** A call of the transport, recorded in the trace. The call returns
    normally: an error of the transport itself (network, a chat that
    blocked the bot) is modelled for the deliveries of a broadcast only,
    through [delivers]; what is proved of a handler is about the runs in
    which its own replies are accepted. *)
Definition emit (o : Outbound) : M unit := λ w,
  (mkWorld (db w) (user_data w) (outbox w ++ [o]), Ok tt).

(** [update.message.reply_text(payload, reply_markup=keyboard)] *)
Definition reply_text (user_id : Z) (payload : Payload) (keyboard : Keyboard)
    : M unit :=
  emit (ReplyText user_id payload keyboard).

(** [context.user_data] of a user: a dict, empty until first written. *)
Definition user_data_of (user_id : Z) (w : World) : gmap string bool :=
  default ∅ (user_data w !! user_id).

(** [context.user_data.get(key)], as a truth value. *)
Definition user_data_get (user_id : Z) (key : string) : M bool := λ w,
  (w, Ok (default false (user_data_of user_id w !! key))).

(** [context.user_data[key] = value] *)
Definition user_data_set (user_id : Z) (key : string) (value : bool)
    : M unit := λ w,
  (mkWorld (db w)
           (<[user_id := <[key := value]> (user_data_of user_id w)]> (user_data w))
           (outbox w),
   Ok tt).

(** [context.user_data.clear()] *)
Definition user_data_clear (user_id : Z) : M unit := λ w,
  (mkWorld (db w) (<[user_id := ∅]> (user_data w)) (outbox w), Ok tt).

Definition get_main_menu_keyboard (user_id : Z) : M Keyboard :=
  admin ← query (DatabaseManager.is_admin user_id);
  mret (MainMenuKeyboard admin).

(** ** Python's [int(text)] on ASCII text

    Surrounding whitespace (tab, line feed, vertical tab, form feed, carriage
    return, space), an optional sign, then decimal digits that single
    underscores may separate. In a text with non-ASCII characters Python
    accepts other digits and spaces as well, which this parser does not
    read; the handlers below take the parser as a parameter, and this one is
    used where a concrete text of ASCII digits is evaluated. *)

Definition ascii_space (c : ascii) : bool :=
  let n := nat_of_ascii c in
  ((9 <=? n) && (n <=? 13) || (n =? 32))%nat.

Fixpoint lstrip (s : list ascii) : list ascii :=
  match s with
  | c :: rest => if ascii_space c then lstrip rest else s
  | [] => []
  end.

Definition strip (s : list ascii) : list ascii :=
  rev (lstrip (rev (lstrip s))).

Definition digit_of (c : ascii) : option Z :=
  let n := Z.of_nat (nat_of_ascii c) in
  if (48 <=? n) && (n <=? 57) then Some (n - 48) else None.

Fixpoint digits_value (acc : Z) (after_digit : bool) (s : list ascii)
    : option Z :=
  match s with
  | [] => if after_digit then Some acc else None
  | c :: rest =>
      match digit_of c with
      | Some d => digits_value (10 * acc + d) true rest
      | None =>
          if Ascii.eqb c "_" && after_digit
          then digits_value acc false rest
          else None
      end
  end.

Definition ascii_int (text : string) : option Z :=
  match strip (list_ascii_of_string text) with
  | "+"%char :: rest => digits_value 0 false rest
  | "-"%char :: rest => Z.opp <$> digits_value 0 false rest
  | s => digits_value 0 false s
  end.

(** ** The labels [handle_message] routes on *)

Definition label_show_profile : string := "👤 حسابي".
Definition label_show_shop : string := "🛒 المتجر".
Definition label_show_wallet : string := "💰 المحفظة".
Definition label_show_games : string := "🎮 الألعاب والترفيه".
Definition label_show_news : string := "📢 الأخبار".
Definition label_show_referral : string := "🔗 الإحالات".
Definition label_show_settings : string := "⚙️ الإعدادات".
Definition label_show_support : string := "📞 الدعم الفني".
Definition label_show_help : string := "❓ المساعدة".
Definition label_show_admin_panel : string := "🔐 لوحة تحكم الأدمن".
Definition label_back_to_main : string := "🔙 العودة للقائمة الرئيسية".
Definition label_admin_stats : string := "📊 الإحصائيات".
Definition label_admin_users : string := "👥 إدارة المستخدمين".
Definition label_admin_broadcast_start : string := "📢 إذاعة".
Definition label_admin_settings : string := "⚙️ إعدادات البوت".
Definition label_admin_products : string := "🛍️ إدارة المنتجات".
Definition label_admin_tickets : string := "🎫 التذاكر".
Definition label_admin_add_start : string := "➕ إضافة أدمن".
Definition label_admin_remove_start : string := "➖ إزالة أدمن".
Definition label_show_category_digital : string := "🎮 منتجات رقمية".
Definition label_show_category_clothing : string := "👕 ملابس وأزياء".
Definition label_show_category_books : string := "📚 كتب ومراجع".
Definition label_show_category_gifts : string := "🎁 هدايا واكسسوارات".
Definition label_play_dice : string := "🎲 لعبة النرد".
Definition label_play_dart : string := "🎯 لعبة السهم".
Definition label_play_slots : string := "🎰 آلة الحظ".
Definition label_play_trivia : string := "❓ تحدي المعرفة".
Definition label_show_leaderboard : string := "🏆 المتصدرين".
Definition label_claim_daily : string := "🎁 مكافآت يومية".
Definition label_deposit_start : string := "💳 شحن الرصيد".
Definition label_withdraw_start : string := "💸 سحب الأموال".
Definition label_show_transactions : string := "📜 سجل العمليات".
Definition label_change_language : string := "🌐 تغيير اللغة".
Definition label_notification_settings : string := "🔔 إعدادات الإشعارات".
Definition label_edit_profile : string := "👤 تعديل الملف الشخصي".
Definition label_create_ticket_start : string := "📝 إنشاء تذكرة جديدة".
Definition label_show_my_tickets : string := "📋 عرض تذاكري السابقة".
Definition label_cancel_operation : string := "❌ إلغاء".

(** All of them, in the order of the [if]/[elif] chain. *)
Definition dispatch_labels : list string :=
  [ label_show_profile;
    label_show_shop;
    label_show_wallet;
    label_show_games;
    label_show_news;
    label_show_referral;
    label_show_settings;
    label_show_support;
    label_show_help;
    label_show_admin_panel;
    label_back_to_main;
    label_admin_stats;
    label_admin_users;
    label_admin_broadcast_start;
    label_admin_settings;
    label_admin_products;
    label_admin_tickets;
    label_admin_add_start;
    label_admin_remove_start;
    label_show_category_digital;
    label_show_category_clothing;
    label_show_category_books;
    label_show_category_gifts;
    label_play_dice;
    label_play_dart;
    label_play_slots;
    label_play_trivia;
    label_show_leaderboard;
    label_claim_daily;
    label_deposit_start;
    label_withdraw_start;
    label_show_transactions;
    label_change_language;
    label_notification_settings;
    label_edit_profile;
    label_create_ticket_start;
    label_show_my_tickets;
    label_cancel_operation ].

(** ** BOT HANDLERS *)

(** [for x in xs: body(x)] *)
Fixpoint for_each {A} (xs : list A) (body : A → M unit) : M unit :=
  match xs with
  | [] => mret tt
  | x :: rest => body x ;; for_each rest body
  end.

(** SQLite's [date(t)] of a timestamp in seconds: its day. *)
Definition date (t : Z) : Z := t `div` 86400.

Definition rank_of (points : Z) : Rank :=
  if 1000 <=? points then Diamond
  else if 500 <=? points then Gold
  else if 100 <=? points then Silver
  else Bronze.

Section Handlers.

(** Python's [int] on a [str]: [None] when it raises ValueError. *)
Variable py_int : string → option Z.

(** *** Menu handlers *)

Definition show_profile (user_id : Z) : M unit :=
  user ← query (DatabaseManager.get_user user_id);
  match user with
  | None => reply_text user_id MsgLoadError NoKeyboard
  | Some u =>
      reply_text user_id (MsgProfile user_id u (rank_of (u_points u)))
                 ProfileButtons
  end.

Definition show_shop (user_id : Z) : M unit :=
  reply_text user_id MsgShop ShopKeyboard.

(** [user['balance']] raises TypeError when the account does not exist. *)
Definition show_wallet (user_id : Z) : M unit :=
  user ← query (DatabaseManager.get_user user_id);
  recent ← query (DatabaseManager.get_transactions user_id 5);
  match user with
  | None => raise TypeError
  | Some u => reply_text user_id (MsgWallet u recent) WalletKeyboard
  end.

Definition show_games (user_id : Z) : M unit :=
  reply_text user_id MsgGames GamesKeyboard.

Definition show_news (user_id : Z) : M unit :=
  keyboard ← get_main_menu_keyboard user_id;
  reply_text user_id MsgNews keyboard.

(** The text is built left to right: [user['referral_code']] (TypeError
    without an account) comes before [int(bonus)] (ValueError). *)
Definition show_referral (user_id : Z) : M unit :=
  user ← query (DatabaseManager.get_user user_id);
  referral_count ←
    query (λ d, length (List.filter
                          (λ r : Z * User,
                             bool_decide (u_referred_by r.2 = Some user_id))
                          (map_to_list (users d))));
  bonus ← query (DatabaseManager.get_setting "referral_bonus");
  match user with
  | None => raise TypeError
  | Some u =>
      match py_int bonus with
      | None => raise ValueError
      | Some b =>
          reply_text user_id (MsgReferral u b referral_count)
                     (ShareLinkButton (u_referral_code u))
      end
  end.

Definition show_settings (user_id : Z) : M unit :=
  reply_text user_id MsgSettings SettingsKeyboard.

Definition show_support (user_id : Z) : M unit :=
  reply_text user_id MsgSupport SupportKeyboard.

Definition show_help (user_id : Z) : M unit :=
  keyboard ← get_main_menu_keyboard user_id;
  reply_text user_id MsgHelp keyboard.

Definition back_to_main (user_id : Z) : M unit :=
  keyboard ← get_main_menu_keyboard user_id;
  reply_text user_id MsgMainMenu keyboard.

(** *** Game handlers *)

Definition play_dice (env : Env) (user_id : Z) : M unit :=
  reply_text user_id (MsgRolling "🎲") NoKeyboard ;;
  emit (SendDice user_id "🎲") ;;
  let value := dice_value env in
  let points := value * 5 in
  emit (DeleteMessage user_id) ;;
  reply_text user_id (MsgDiceResult value points) GamesKeyboard ;;
  execute (DatabaseManager.add_points user_id points).

Definition play_dart (env : Env) (user_id : Z) : M unit :=
  reply_text user_id (MsgRolling "🎯") NoKeyboard ;;
  emit (SendDice user_id "🎯") ;;
  let value := dice_value env in
  let points := if value =? 6 then 100 else value * 10 in
  emit (DeleteMessage user_id) ;;
  reply_text user_id (MsgDartResult value points) GamesKeyboard ;;
  execute (DatabaseManager.add_points user_id points).

Definition play_slots (env : Env) (user_id : Z) : M unit :=
  reply_text user_id (MsgRolling "🎰") NoKeyboard ;;
  emit (SendDice user_id "🎰") ;;
  let value := dice_value env in
  let points :=
    if value =? 64 then 500
    else if (value =? 1) || (value =? 22) || (value =? 43) then 100
    else 10 in
  emit (DeleteMessage user_id) ;;
  reply_text user_id (MsgSlotsResult points) GamesKeyboard ;;
  execute (DatabaseManager.add_points user_id points).

Definition play_trivia (env : Env) (user_id : Z) : M unit :=
  let q := trivia_question env in
  reply_text user_id (MsgTrivia q) (TriviaButtons q).

Definition show_leaderboard (user_id : Z) : M unit :=
  top_users ←
    query (λ d, (λ r : Z * User, (u_first_name r.2, u_points r.2)) <$>
                limit_offset 10 0
                  (order_by_desc (λ r, u_points r.2)
                                 (map_to_list (users d))));
  reply_text user_id (MsgLeaderboard top_users) NoKeyboard.

Definition claim_daily (env : Env) (user_id : Z) : M unit :=
  let points := daily_points env in
  execute (DatabaseManager.add_points user_id points) ;;
  reply_text user_id (MsgDailyReward points) GamesKeyboard.

(** *** Shop handlers *)

Definition show_category (user_id : Z) (category : string) : M unit :=
  products ← query (DatabaseManager.get_products (Some category) true);
  match products with
  | [] => reply_text user_id MsgNoProducts ShopKeyboard
  | _ =>
      for_each products (λ product,
        reply_text user_id (MsgProduct product.1 product.2)
                   (AddToCartButton product.1))
  end.

(** *** Admin handlers *)

Definition show_admin_panel (user_id : Z) : M unit :=
  admin ← query (DatabaseManager.is_admin user_id);
  if negb admin then reply_text user_id MsgNoPermission NoKeyboard
  else reply_text user_id MsgAdminWelcome AdminKeyboard.

Definition admin_stats (env : Env) (user_id : Z) : M unit :=
  total_users ← query DatabaseManager.get_users_count;
  today_users ←
    query (λ d, length (List.filter
                          (λ r : Z * User,
                             date (u_join_date r.2) =? date (now env))
                          (map_to_list (users d))));
  total_orders ← query (λ d, length (orders d));
  open_tickets ←
    query (λ d, length (List.filter (λ t, String.eqb (t_status t) "open")
                                    (tickets d)));
  reply_text user_id
             (MsgStats total_users today_users total_orders open_tickets)
             NoKeyboard.

Definition admin_broadcast_start (user_id : Z) : M unit :=
  reply_text user_id MsgBroadcastPrompt CancelKeyboard ;;
  user_data_set user_id "awaiting_broadcast" true.

Definition admin_users (user_id : Z) : M unit :=
  reply_text user_id MsgUserManagement AdminKeyboard.

Definition admin_settings (user_id : Z) : M unit :=
  maintenance ← query (DatabaseManager.get_setting "maintenance_mode");
  reply_text user_id (MsgBotSettings (String.eqb maintenance "1"))
             AdminKeyboard.

Definition admin_products (user_id : Z) : M unit :=
  reply_text user_id MsgProductManagement AdminKeyboard.

Definition admin_tickets (user_id : Z) : M unit :=
  reply_text user_id MsgTicketManagement AdminKeyboard.

Definition admin_add_start (user_id : Z) : M unit :=
  reply_text user_id MsgAddAdminPrompt CancelKeyboard ;;
  user_data_set user_id "awaiting_admin_id" true.

Definition admin_remove_start (user_id : Z) : M unit :=
  reply_text user_id MsgRemoveAdminPrompt CancelKeyboard ;;
  user_data_set user_id "removing_admin" true.

(** *** Input handlers *)

(** The loop of [process_broadcast]: a [send_message] that raises is
    swallowed by the bare [except], one that returns adds to [sent]. *)
Fixpoint broadcast_loop (env : Env) (text : string)
    (recipients : list (Z * User)) (sent : Z) : M Z :=
  match recipients with
  | [] => mret sent
  | user :: rest =>
      let delivered := delivers env user.1 in
      emit (SendMessage user.1 (MsgBroadcast text) delivered) ;;
      broadcast_loop env text rest (if delivered then sent + 1 else sent)
  end.

(** The status reply and the final edit stand outside the [try]: the run
    is modelled for a transport that accepts both (see [emit]). *)
Definition process_broadcast (env : Env) (user_id : Z) (text : string)
    : M unit :=
  recipients ← query (DatabaseManager.get_all_users 5000 0);
  reply_text user_id MsgSending NoKeyboard ;;
  sent ← broadcast_loop env text recipients 0;
  emit (EditText user_id (MsgSentTo sent)).

(** The bare [except] of the admin-id branch answers with the invalid-id
    message whatever the [try] raised: ValueError by [int(text)], or
    OverflowError by [add_admin] binding an id that is no SQLite integer,
    before anything is written. *)
Definition handle_user_input (env : Env) (user_id : Z) (text : string)
    : M unit :=
  awaiting_broadcast ← user_data_get user_id "awaiting_broadcast";
  if (awaiting_broadcast : bool) then
    process_broadcast env user_id text ;;
    user_data_set user_id "awaiting_broadcast" false
  else
    awaiting_admin_id ← user_data_get user_id "awaiting_admin_id";
    if (awaiting_admin_id : bool) then
      match py_int text with
      | Some new_admin =>
          if sqlite_int new_admin then
            execute (DatabaseManager.add_admin (now env) new_admin
                                               user_id 1) ;;
            reply_text user_id (MsgPromoted new_admin) AdminKeyboard
          else reply_text user_id MsgInvalidId NoKeyboard
      | None => reply_text user_id MsgInvalidId NoKeyboard
      end ;;
      user_data_set user_id "awaiting_admin_id" false
    else
      creating_ticket ← user_data_get user_id "creating_ticket";
      if (creating_ticket : bool) then
        ticket_id ←
          execute_returning
            (DatabaseManager.create_ticket (now env) user_id "دعم فني" text);
        reply_text user_id (MsgTicketCreated ticket_id) SupportKeyboard ;;
        user_data_set user_id "creating_ticket" false
      else mret tt.

Definition cancel_operation (user_id : Z) : M unit :=
  user_data_clear user_id ;;
  keyboard ← get_main_menu_keyboard user_id;
  reply_text user_id MsgCancelled keyboard.

Definition create_ticket_start (user_id : Z) : M unit :=
  reply_text user_id MsgTicketPrompt CancelKeyboard ;;
  user_data_set user_id "creating_ticket" true.

Definition show_my_tickets (user_id : Z) : M unit :=
  tickets ← query (DatabaseManager.get_user_tickets user_id);
  match tickets with
  | [] => reply_text user_id MsgNoTickets NoKeyboard
  | _ => reply_text user_id (MsgTicketList tickets) NoKeyboard
  end.

(** *** The router

    [deposit_start], [withdraw_start], [show_transactions],
    [change_language], [notification_settings] and [edit_profile] are
    named by the chain but defined nowhere in the program: evaluating the
    name raises NameError. *)
Definition handle_message (env : Env) (user_id : Z) (text : string)
    : M unit :=
  execute (DatabaseManager.update_user_activity (now env) user_id) ;;
  user_row ← query (DatabaseManager.get_user user_id);
  if match user_row with Some u => u_is_banned u | None => false end then
    reply_text user_id MsgBanned NoKeyboard
  else if String.eqb text label_show_profile then show_profile user_id
  else if String.eqb text label_show_shop then show_shop user_id
  else if String.eqb text label_show_wallet then show_wallet user_id
  else if String.eqb text label_show_games then show_games user_id
  else if String.eqb text label_show_news then show_news user_id
  else if String.eqb text label_show_referral then show_referral user_id
  else if String.eqb text label_show_settings then show_settings user_id
  else if String.eqb text label_show_support then show_support user_id
  else if String.eqb text label_show_help then show_help user_id
  else if String.eqb text label_show_admin_panel then show_admin_panel user_id
  else if String.eqb text label_back_to_main then back_to_main user_id
  else if String.eqb text label_admin_stats then admin_stats env user_id
  else if String.eqb text label_admin_users then admin_users user_id
  else if String.eqb text label_admin_broadcast_start then admin_broadcast_start user_id
  else if String.eqb text label_admin_settings then admin_settings user_id
  else if String.eqb text label_admin_products then admin_products user_id
  else if String.eqb text label_admin_tickets then admin_tickets user_id
  else if String.eqb text label_admin_add_start then admin_add_start user_id
  else if String.eqb text label_admin_remove_start then admin_remove_start user_id
  else if String.eqb text label_show_category_digital then show_category user_id "digital"
  else if String.eqb text label_show_category_clothing then show_category user_id "clothing"
  else if String.eqb text label_show_category_books then show_category user_id "books"
  else if String.eqb text label_show_category_gifts then show_category user_id "gifts"
  else if String.eqb text label_play_dice then play_dice env user_id
  else if String.eqb text label_play_dart then play_dart env user_id
  else if String.eqb text label_play_slots then play_slots env user_id
  else if String.eqb text label_play_trivia then play_trivia env user_id
  else if String.eqb text label_show_leaderboard then show_leaderboard user_id
  else if String.eqb text label_claim_daily then claim_daily env user_id
  else if String.eqb text label_deposit_start then raise (NameError "deposit_start")
  else if String.eqb text label_withdraw_start then raise (NameError "withdraw_start")
  else if String.eqb text label_show_transactions then raise (NameError "show_transactions")
  else if String.eqb text label_change_language then raise (NameError "change_language")
  else if String.eqb text label_notification_settings then raise (NameError "notification_settings")
  else if String.eqb text label_edit_profile then raise (NameError "edit_profile")
  else if String.eqb text label_create_ticket_start then create_ticket_start user_id
  else if String.eqb text label_show_my_tickets then show_my_tickets user_id
  else if String.eqb text label_cancel_operation then cancel_operation user_id
  else
    awaiting_input ← user_data_get user_id "awaiting_input";
    if (awaiting_input : bool) then handle_user_input env user_id text
    else
      keyboard ← get_main_menu_keyboard user_id;
      reply_text user_id MsgNotUnderstood keyboard.

End Handlers.

(** ** Runs and observations the properties are stated on *)

(** The ledger entry [update_balance] logs for [amount]. *)
Definition ledger_entry (now : Z) (user_id : Z) (amount : float)
    (d : Database) : Transaction :=
  mkTransaction (next_id (transactions d)) user_id
                (if PrimFloat.ltb 0%float amount then "credit" else "debit")
                (PrimFloat.abs amount) "Balance update" now.

(** One call [create_order(user_id, product_id, quantity)] at time [rq_now]. *)
Record OrderRequest := mkOrderRequest {
  rq_now : Z;
  rq_user_id : Z;
  rq_product_id : Z;
  rq_quantity : Z
}.

(** The calls of a list made one after the other, with what each returned. *)
Fixpoint run_orders (requests : list OrderRequest) (d : Database)
    : Database * list (Res Z) :=
  match requests with
  | [] => (d, [])
  | r :: rest =>
      let step :=
        DatabaseManager.create_order (rq_now r) (rq_user_id r)
                                     (rq_product_id r) (rq_quantity r) d in
      let tail := run_orders rest step.1 in
      (tail.1, step.2 :: tail.2)
  end.


(** A call succeeded when it returned an order id, not [-1] or an exception. *)
Definition order_created (outcome : Res Z) : bool :=
  match outcome with
  | Ok order_id => negb (order_id =? -1)
  | Raise _ => false
  end.



(** The session flags a handler may leave for the next input. *)
Definition expectation_keys : list string :=
  [ "awaiting_broadcast"; "awaiting_admin_id"; "removing_admin";
    "creating_ticket" ].

Definition flag (user_id : Z) (key : string) (w : World) : bool :=
  default false (user_data_of user_id w !! key).

(** The expectations pending for a user. *)
Definition pending (user_id : Z) (w : World) : list string :=
  List.filter (λ key, flag user_id key w) expectation_keys.

Definition is_dispatch_label (text : string) : bool :=
  existsb (String.eqb text) dispatch_labels.

(** The ban test of [handle_message] and [start]. *)
Definition banned (user_id : Z) (d : Database) : bool :=
  match DatabaseManager.get_user user_id d with
  | Some u => u_is_banned u
  | None => false
  end.

(** The handlers that open a pending exchange, with the flag each sets and
    the prompt it sends. *)
Definition start_handlers : list ((Z → M unit) * string * Payload) :=
  [ (admin_broadcast_start, "awaiting_broadcast", MsgBroadcastPrompt);
    (admin_add_start, "awaiting_admin_id", MsgAddAdminPrompt);
    (admin_remove_start, "removing_admin", MsgRemoveAdminPrompt);
    (create_ticket_start, "creating_ticket", MsgTicketPrompt) ].

(** The handlers of the admin keyboard, the panel's own entry apart. *)
Definition admin_only_handlers (env : Env) : list (Z → M unit) :=
  [ admin_stats env; admin_users; admin_broadcast_start; admin_settings;
    admin_products; admin_tickets; admin_add_start; admin_remove_start ].

(** The labels of the admin keyboard, the panel's own entry apart. *)
Definition admin_only_labels : list string :=
  [ label_admin_stats; label_admin_users; label_admin_broadcast_start;
    label_admin_settings; label_admin_products; label_admin_tickets;
    label_admin_add_start; label_admin_remove_start ].

(** What a broadcast run leaves in the trace: the deliveries attempted, and
    the report shown to the sender (the edited status message). *)
Definition attempted (trace : list Outbound) : nat :=
  length (List.filter
            (λ o, match o with SendMessage _ _ _ => true | _ => false end)
            trace).

Definition report (trace : list Outbound) : list Payload :=
  omap (λ o, match o with EditText _ p => Some p | _ => None end) trace.

(** The trace of the loop of [process_broadcast] over [recipients]. *)
Definition deliveries (env : Env) (text : string)
    (recipients : list (Z * User)) : list Outbound :=
  (λ r : Z * User, SendMessage r.1 (MsgBroadcast text) (delivers env r.1))
    <$> recipients.

Definition delivered_count (env : Env) (recipients : list (Z * User)) : Z :=
  Z.of_nat (length (List.filter (λ r : Z * User, delivers env r.1) recipients)).

(** No user has the flag the router tests before [handle_user_input]. *)
Definition never_awaits_input (w : World) : Prop :=
  ∀ user_id, flag user_id "awaiting_input" w = false.

(** A computation that keeps it so. *)
Definition keeps_input_unset {A} (m : M A) : Prop :=
  ∀ w, never_awaits_input w → never_awaits_input (m w).1.

(** Every stored referral code is the one generated for its own account,
    with some six-character suffix. *)
Definition codes_generated (d : Database) : Prop :=
  ∀ user_id u,
    users d !! user_id = Some u →
    ∃ suffix,
      String.length suffix = 6%nat
      ∧ u_referral_code u
        = DatabaseManager.generate_referral_code user_id suffix.

(** ** Sample data *)

Definition sample_user (join_date : Z) (banned : bool) (points : Z)
    (balance : float) (referral_code : string) : User :=
  mkUser "" "" "" "ar" join_date join_date banned false balance points
         referral_code None 0 None.

(** Three accounts, the second banned and the third the only admin, and one
    product with a single unit in stock. *)
Definition sample_db : Database :=
  mkDatabase
    (<[1 := sample_user 10 false 5 30%float "REF1AAAAAA"]>
       (<[2 := sample_user 20 true 0 0%float "REF2BBBBBB"]>
          (<[3 := sample_user 30 false 0 0%float "REF3CCCCCC"]> ∅)))
    (<[3 := mkAdmin 3 0 3]> ∅)
    (<["referral_bonus" := "50"]> (<["maintenance_mode" := "0"]> ∅))
    (<[7 := mkProduct "book" "" 2.5%float 1 "books" None true 0]> ∅)
    [] [] [].

Definition sample_world : World := mkWorld sample_db ∅ [].

(** Deliveries reach every chat but that of account 2. *)
Definition sample_env : Env := mkEnv 100 3 50 0 (λ chat, negb (chat =? 2)).

(** The same store without account 2, where every delivery succeeds. *)
Definition sample_db_two : Database :=
  set_users (delete 2) sample_db.

(** ** Further runs and observations *)

(** One call [update_balance(user_id, amount)] at time [bq_now]. *)
Record BalanceRequest := mkBalanceRequest {
  bq_now : Z;
  bq_user_id : Z;
  bq_amount : float
}.

(** The calls of a list made one after the other, with what each returned. *)
Fixpoint run_balance (requests : list BalanceRequest) (d : Database)
    : Database * list bool :=
  match requests with
  | [] => (d, [])
  | r :: rest =>
      let step :=
        DatabaseManager.update_balance (bq_now r) (bq_user_id r)
                                       (bq_amount r) d in
      let tail := run_balance rest step.1 in
      (tail.1, step.2 :: tail.2)
  end.

(** No account holds a balance below zero. *)
Definition never_overdrawn (d : Database) : Prop :=
  ∀ user_id u,
    users d !! user_id = Some u →
    PrimFloat.ltb (u_balance u) 0%float = false.

(** The columns of a product that an order must not touch. *)
Definition product_listing (p : Product)
    : string * string * float * string * option string * bool * Z :=
  (p_name p, p_description p, p_price p, p_category p, p_image_url p,
   p_is_active p, p_created_at p).

(** Newest first, as [ORDER BY created_at DESC] lists products. *)
Definition newer_product (r1 r2 : Z * Product) : Prop :=
  p_created_at r2.2 ≤ p_created_at r1.2.

(** Newest first, as [ORDER BY join_date DESC] lists accounts. *)
Definition newer_account (r1 r2 : Z * User) : Prop :=
  u_join_date r2.2 ≤ u_join_date r1.2.

(** ** The [/start] command *)

(** What [update.effective_user] carries. *)
Record TelegramUser := mkTelegramUser {
  tg_id : Z;
  tg_username : option string;
  tg_first_name : option string;
  tg_last_name : option string;
  tg_language_code : option string
}.

(** [x or fallback] for a [str] that may be [None]: the fallback replaces
    [None] and the empty string. *)
Definition str_or (x : option string) (fallback : string) : string :=
  match x with
  | Some s => if String.eqb s "" then fallback else s
  | None => fallback
  end.

(** The messages [start] replies with, in order: the ban notice, the
    first-time greeting, the welcome text (with the bonus line for a new
    account) under the main menu. *)
Inductive StartReply :=
  | StartBanned
  | StartFirstTime
  | StartWelcome (bot_name : string) (bonus_line : bool) (keyboard : Keyboard).

(** [start]; [suffix] is what [random.choices] draws inside [add_user]. The
    replies are the value of the computation. *)
Definition start (env : Env) (suffix : string) (user : TelegramUser)
    : M (list StartReply) :=
  is_new ←
    execute_returning
      (DatabaseManager.add_user (now env) suffix (tg_id user)
         (str_or (tg_username user) "") (str_or (tg_first_name user) "")
         (str_or (tg_last_name user) "") (str_or (tg_language_code user) "ar")
         None);
  user_data ← query (DatabaseManager.get_user (tg_id user));
  if match user_data with Some u => u_is_banned u | None => false end then
    mret [StartBanned]
  else
    bot_name ← query (DatabaseManager.get_setting "bot_name");
    first_time ←
      (if (is_new : bool) then
         execute (DatabaseManager.add_points (tg_id user) 10) ;;
         mret [StartFirstTime]
       else mret []);
    keyboard ← get_main_menu_keyboard (tg_id user);
    mret (first_time ++ [StartWelcome bot_name is_new keyboard]).

(** ** Runs of the router *)

(** One inbound text, with what the outside supplies while it is handled. *)
Record Event := mkEvent {
  ev_env : Env;
  ev_user_id : Z;
  ev_text : string
}.

(** The events of a list handled one after the other; a handler that raises
    leaves the world as it was at that point, and the next event goes on
    from there. *)
Fixpoint run_events (py_int : string → option Z) (events : list Event)
    (w : World) : World :=
  match events with
  | [] => w
  | e :: rest =>
      run_events py_int rest
        (handle_message py_int (ev_env e) (ev_user_id e) (ev_text e) w).1
  end.

(** The columns of an account other than its points, message count and
    last-activity time. *)
Definition account_core (u : User)
    : string * string * string * string * Z * bool * bool * float * string
      * option Z * option string :=
  (u_username u, u_first_name u, u_last_name u, u_language_code u,
   u_join_date u, u_is_banned u, u_is_premium u, u_balance u,
   u_referral_code u, u_referred_by u, u_phone_number u).

(** The same accounts, with the same core columns. *)
Definition same_accounts (d d' : Database) : Prop :=
  ∀ user_id,
    account_core <$> users d' !! user_id = account_core <$> users d !! user_id.

(** [w'] differs from [w] at most in points, message counts, activity
    times, added admin grants, appended tickets, session data and trace. *)
Definition event_frame (w w' : World) : Prop :=
  same_accounts (db w) (db w')
  ∧ settings (db w') = settings (db w)
  ∧ products (db w') = products (db w)
  ∧ orders (db w') = orders (db w)
  ∧ transactions (db w') = transactions (db w)
  ∧ (∀ admin_id,
       DatabaseManager.is_admin admin_id (db w) = true →
       DatabaseManager.is_admin admin_id (db w') = true)
  ∧ tickets (db w) `prefix_of` tickets (db w').

(** Moreover no grant, no ticket, no broadcast delivery and no broadcast
    report were added. *)
Definition menu_frame (w w' : World) : Prop :=
  event_frame w w'
  ∧ admins (db w') = admins (db w)
  ∧ tickets (db w') = tickets (db w)
  ∧ attempted (outbox w') = attempted (outbox w)
  ∧ report (outbox w') = report (outbox w).

(** A computation that keeps [P] and relates the world before to the world
    after by [R]. *)
Definition keeps {A} (P : World → Prop) (R : World → World → Prop)
    (m : M A) : Prop :=
  ∀ w, P w → P (m w).1 ∧ R w (m w).1.

(** A transport call other than a broadcast delivery or report. *)
Definition plain_reply (o : Outbound) : bool :=
  match o with
  | SendMessage _ _ _ | EditText _ _ => false
  | _ => true
  end.

(** The flag [handle_user_input] acts on: the first one set, in the order
    of its [if]/[elif] chain. ["removing_admin"] is not among them. *)
Definition first_expectation (user_id : Z) (w : World) : option string :=
  if flag user_id "awaiting_broadcast" w then Some "awaiting_broadcast"
  else if flag user_id "awaiting_admin_id" w then Some "awaiting_admin_id"
  else if flag user_id "creating_ticket" w then Some "creating_ticket"
  else None.


(** The ranks of [show_profile] from the lowest to the highest. *)
Definition rank_level (r : Rank) : nat :=
  match r with
  | Bronze => 0
  | Silver => 1
  | Gold => 2
  | Diamond => 3
  end.

(** ** Start-up: [init_database] *)

Definition set_settings (f : gmap string string → gmap string string)
    (d : Database) : Database :=
  mkDatabase (users d) (admins d) (f (settings d)) (products d)
             (orders d) (tickets d) (transactions d).

(** [INSERT OR IGNORE]: the row is written unless its key is taken. *)
Definition insert_or_ignore {K A} `{Countable K} (key : K) (row : A)
    (table : gmap K A) : gmap K A :=
  match table !! key with
  | Some _ => table
  | None => <[key := row]> table
  end.

Definition default_settings : list (string * string) :=
  [ ("bot_name", "🤖 البوت الذكي");
    ("welcome_message", "أهلاً وسهلاً بك في بوتنا! 🌟");
    ("maintenance_mode", "0");
    ("referral_bonus", "50");
    ("min_withdrawal", "100");
    ("support_channel", "@support");
    ("bot_version", "2.0") ].

(** [init_database], run by every [DatabaseManager(...)]: the tables are
    created if they do not exist (here they always do), the default settings
    and the admins of [ADMIN_IDS] are inserted unless present. [ADMIN_IDS] is
    a placeholder in the source and a parameter here. *)
Definition init_database (admin_ids : list Z) (now : Z) (d : Database)
    : Database :=
  let seeded :=
    foldl (λ d (setting : string * string),
             set_settings (insert_or_ignore setting.1 setting.2) d)
          d default_settings in
  foldl (λ d admin_id,
           set_admins (insert_or_ignore admin_id (mkAdmin admin_id now 3)) d)
        seeded admin_ids.

(** ** Inline buttons: [button_handler] *)

(** [s.split(sep)] for a one-character separator. *)
Fixpoint split_on (sep : ascii) (s : string) : list string :=
  match s with
  | EmptyString => [""]
  | String c rest =>
      if Ascii.eqb c sep then "" :: split_on sep rest
      else
        match split_on sep rest with
        | head :: tail => String c head :: tail
        | [] => [String c ""]
        end
  end.

(** The two questions of [play_trivia]: the index of the right option and
    the points at stake; each has four options. *)
Definition trivia_questions : list (Z * Z) := [(1, 50); (1, 30)].

(** [f'trivia_{i}_{q["correct"]}_{q["points"]}'] *)
Definition trivia_callback_data (i correct points : Z) : string :=
  "trivia_" +:+ pretty i +:+ "_" +:+ pretty correct +:+ "_" +:+ pretty points.

(** The callback data behind [TriviaButtons question], one per option. *)
Definition trivia_buttons (question : nat) : list string :=
  match trivia_questions !! question with
  | Some (correct, points) =>
      (λ i, trivia_callback_data i correct points) <$> [0; 1; 2; 3]
  | None => []
  end.

(** How [button_handler] ends: with the press only acknowledged, with the
    message edited to the verdict, or with the exception a malformed
    ['trivia_'] payload raises: IndexError for a missing part, ValueError
    for a part that is no integer, OverflowError when [add_points] binds
    points that are no SQLite integer. An exception leaves the message as
    it was. *)
Inductive CallbackOutcome :=
  | CallbackIgnored
  | CallbackCorrect (points : Z)
  | CallbackWrong
  | CallbackIndexError
  | CallbackValueError
  | CallbackOverflowError.

(** [button_handler] for the data of a callback query; the parts are
    parsed in the order [parts[1]], [parts[2]], [parts[3]]. *)
Definition button_handler (py_int : string → option Z) (user_id : Z)
    (data : string) (d : Database) : Database * CallbackOutcome :=
  if String.prefix "trivia_" data then
    match split_on "_" data with
    | _ :: part1 :: rest1 =>
        match py_int part1 with
        | None => (d, CallbackValueError)
        | Some selected =>
            match rest1 with
            | [] => (d, CallbackIndexError)
            | part2 :: rest2 =>
                match py_int part2 with
                | None => (d, CallbackValueError)
                | Some correct =>
                    match rest2 with
                    | [] => (d, CallbackIndexError)
                    | part3 :: _ =>
                        match py_int part3 with
                        | None => (d, CallbackValueError)
                        | Some points =>
                            if selected =? correct then
                              if sqlite_int points then
                                (DatabaseManager.add_points user_id points d,
                                 CallbackCorrect points)
                              else (d, CallbackOverflowError)
                            else (d, CallbackWrong)
                        end
                    end
                end
            end
        end
    | _ => (d, CallbackIndexError)
    end
  else (d, CallbackIgnored).

(** No underscore in [s]. *)
Definition underscore_free (s : string) : Prop :=
  ∀ c, In c (list_ascii_of_string s) → c ≠ "_"%char.

(** ** Activity counters *)

(** The columns [update_user_activity] writes. *)
Definition activity_of (u : User) : Z * Z :=
  (u_message_count u, u_last_activity u).

(** [u'] is [u] with [points] added to its points and no other column
    changed. *)
Definition credited (points : Z) (u u' : User) : Prop :=
  u_points u' = u_points u + points
  ∧ account_core u' = account_core u
  ∧ activity_of u' = activity_of u.

(** No account's message count or last-activity time differs. *)
Definition same_activity (w w' : World) : Prop :=
  ∀ user_id,
    activity_of <$> users (db w') !! user_id
    = activity_of <$> users (db w) !! user_id.

(** The events of [events] that come from [user_id], in order. *)
Definition events_of (user_id : Z) (events : list Event) : list Event :=
  List.filter (λ e, ev_user_id e =? user_id) events.

(** ** Buttons without a handler *)

(** The labels whose branch of [handle_message] calls a function that no
    line of the program defines, with the name each branch uses. *)
Definition undefined_handlers : list (string * string) :=
  [ (label_deposit_start, "deposit_start");
    (label_withdraw_start, "withdraw_start");
    (label_show_transactions, "show_transactions");
    (label_change_language, "change_language");
    (label_notification_settings, "notification_settings");
    (label_edit_profile, "edit_profile") ].

(** * Properties *)

(** ** Account ledger *)

Section Ledger.

Import DatabaseManager.

Lemma alter_Some {A} (f : A → A) (m : gmap Z A) (k : Z) (x : A) :
  m !! k = Some x → alter f k m = <[k := f x]> m.
Proof.
  intros Hk. apply map_eq. intros j.
  destruct (decide (k = j)) as [<-|Hne].
  - by rewrite lookup_alter_eq, lookup_insert_eq, Hk.
  - by rewrite lookup_alter_ne, lookup_insert_ne.
Qed.

Lemma alter_None {A} (f : A → A) (m : gmap Z A) (k : Z) :
  m !! k = None → alter f k m = m.
Proof.
  intros Hk. apply map_eq. intros j.
  destruct (decide (k = j)) as [<-|Hne].
  - by rewrite lookup_alter_eq, Hk.
  - by rewrite lookup_alter_ne.
Qed.

Lemma update_balance_rejected
    (now user_id : Z) (amount : float) (d : Database) (current : User) :
  users d !! user_id = Some current →
  PrimFloat.ltb (PrimFloat.add (u_balance current) amount) 0%float = true →
  update_balance now user_id amount d = (d, false).
Proof. intros Hcur Hlt. unfold update_balance. by rewrite Hcur, Hlt. Qed.

Lemma update_balance_applied
    (now user_id : Z) (amount : float) (d : Database) (current : User) :
  users d !! user_id = Some current →
  PrimFloat.ltb (PrimFloat.add (u_balance current) amount) 0%float = false →
  update_balance now user_id amount d =
    (mkDatabase
       (<[user_id := with_balance (PrimFloat.add (u_balance current) amount)
                                  current]> (users d))
       (admins d) (settings d) (products d) (orders d) (tickets d)
       (transactions d ++ [ledger_entry now user_id amount d]),
     true).
Proof.
  intros Hcur Hlt. unfold update_balance. rewrite Hcur, Hlt.
  unfold set_transactions, set_users, ledger_entry; simpl.
  by rewrite (alter_Some _ _ _ _ Hcur).
Qed.

Lemma update_balance_missing
    (now user_id : Z) (amount : float) (d : Database) :
  users d !! user_id = None →
  update_balance now user_id amount d = (d, false).
Proof. intros Hnone. unfold update_balance. by rewrite Hnone. Qed.

(** C4. For an existing account, [update_balance] computes
    [new_balance = balance + amount]. When [new_balance < 0] it returns
    [False] and the store is exactly as before (balance kept, nothing
    logged). Otherwise, for a sum that is a number, it returns [True] and
    the one resulting store has the account's balance column set to
    [new_balance], every other column of the account as before, and exactly
    one entry appended to the ledger, of kind credit when [amount > 0] and
    debit otherwise, holding [abs(amount)]; every other row and table is as
    before. *)
Theorem update_balance_credit_or_debit
    (now user_id : Z) (amount : float) (d : Database) (current : User) :
  users d !! user_id = Some current →
  let new_balance := PrimFloat.add (u_balance current) amount in
  (PrimFloat.ltb new_balance 0%float = true →
     update_balance now user_id amount d = (d, false))
  ∧ (PrimFloat.ltb new_balance 0%float = false →
     PrimFloat.is_nan new_balance = false →
     update_balance now user_id amount d =
       (mkDatabase
          (<[user_id :=
               mkUser (u_username current) (u_first_name current)
                      (u_last_name current) (u_language_code current)
                      (u_join_date current) (u_last_activity current)
                      (u_is_banned current) (u_is_premium current)
                      new_balance (u_points current)
                      (u_referral_code current) (u_referred_by current)
                      (u_message_count current) (u_phone_number current)]>
             (users d))
          (admins d) (settings d) (products d) (orders d) (tickets d)
          (transactions d
           ++ [mkTransaction (next_id (transactions d)) user_id
                 (if PrimFloat.ltb 0%float amount then "credit" else "debit")
                 (PrimFloat.abs amount) "Balance update" now]),
        true)).
Proof.
  intros Hcur new_balance. split.
  - intros Hlt. by apply (update_balance_rejected _ _ _ _ current).
  - intros Hlt _. by rewrite (update_balance_applied _ _ _ _ current).
Qed.

(** Scenario A: balance 30, debit of 50, refused. A debit of 20 instead
    leaves a balance of 10 and one ledger entry, a debit holding 20. *)
Lemma update_balance_credit_or_debit_witness :
  users sample_db !! 1 = Some (sample_user 10 false 5 30%float "REF1AAAAAA")
  ∧ update_balance 100 1 (-50)%float sample_db = (sample_db, false)
  ∧ (update_balance 100 1 (-20)%float sample_db).2 = true
  ∧ users (update_balance 100 1 (-20)%float sample_db).1 !! 1
    = Some (sample_user 10 false 5 10%float "REF1AAAAAA")
  ∧ transactions (update_balance 100 1 (-20)%float sample_db).1
    = [mkTransaction 1 1 "debit" 20%float "Balance update" 100].
Proof.
  split; [reflexivity|]. split.
  - apply (update_balance_credit_or_debit 100 1 (-50)%float sample_db
             (sample_user 10 false 5 30%float "REF1AAAAAA")); reflexivity.
  - destruct (update_balance_credit_or_debit 100 1 (-20)%float sample_db
                (sample_user 10 false 5 30%float "REF1AAAAAA") eq_refl)
      as [_ Happlied].
    rewrite (Happlied eq_refl eq_refl). split_and!; reflexivity.
Defined.

(** C10. For a user id that is not in the users table, [update_balance]
    returns [False] and leaves the store as it was; this is the very value
    an insufficient-balance rejection returns, so the return value does not
    tell the two failures apart. *)
Theorem update_balance_unknown_user
    (now user_id : Z) (amount : float) (d : Database) :
  users d !! user_id = None →
  update_balance now user_id amount d = (d, false)
  ∧ ∀ now' user_id' amount' d' current,
      users d' !! user_id' = Some current →
      PrimFloat.ltb (PrimFloat.add (u_balance current) amount') 0%float = true →
      (update_balance now' user_id' amount' d').2
      = (update_balance now user_id amount d).2.
Proof.
  intros Hnone.
  pose proof (update_balance_missing now user_id amount d Hnone) as Hret.
  split; [exact Hret|].
  intros now' user_id' amount' d' current Hcur Hlt.
  by rewrite Hret, (update_balance_rejected _ _ _ _ current Hcur Hlt).
Qed.

Lemma update_balance_unknown_user_witness :
  update_balance 100 9 5%float sample_db = (sample_db, false).
Proof.
  apply (update_balance_unknown_user 100 9 5%float sample_db). reflexivity.
Defined.

(** A debit the balance covers, and a credit: balance 30 minus 20, plus 5. *)
Example update_balance_debit_then_credit :
  let d1 := (update_balance 100 1 (-20)%float sample_db).1 in
  let d2 := (update_balance 101 1 5%float d1).1 in
  (u_balance <$> users d2 !! 1) = Some 15%float
  ∧ transactions d2 =
      [ mkTransaction 1 1 "debit" 20%float "Balance update" 100;
        mkTransaction 2 1 "credit" 5%float "Balance update" 101 ].
Proof. split; vm_compute; reflexivity. Qed.

End Ledger.

(** ** Catalog and orders *)

Section Catalog.

Import DatabaseManager.

Lemma next_id_positive {A} (table : list A) : 1 ≤ next_id table.
Proof. unfold next_id. lia. Qed.

Lemma create_order_missing (now user_id product_id quantity : Z)
    (d : Database) :
  products d !! product_id = None →
  create_order now user_id product_id quantity d = (d, Ok (-1)).
Proof. intros Hp. unfold create_order, get_product. by rewrite Hp. Qed.

Lemma create_order_short (now user_id product_id quantity : Z)
    (d : Database) (product : Product) :
  products d !! product_id = Some product →
  p_stock product < quantity →
  create_order now user_id product_id quantity d = (d, Ok (-1)).
Proof.
  intros Hp Hlt. unfold create_order, get_product. rewrite Hp.
  by rewrite (proj2 (Z.ltb_lt _ _) Hlt).
Qed.

Lemma create_order_overflow (now user_id product_id quantity : Z)
    (d : Database) (product : Product) (e : Exn) :
  products d !! product_id = Some product →
  quantity ≤ p_stock product →
  float_mul_int (p_price product) quantity = Raise e →
  create_order now user_id product_id quantity d = (d, Raise e).
Proof.
  intros Hp Hle Hmul. unfold create_order, get_product. rewrite Hp.
  by rewrite (proj2 (Z.ltb_ge _ _) Hle), Hmul.
Qed.

Lemma create_order_unbound (now user_id product_id quantity : Z)
    (d : Database) (product : Product) (total_price : float) :
  products d !! product_id = Some product →
  quantity ≤ p_stock product →
  float_mul_int (p_price product) quantity = Ok total_price →
  sqlite_int quantity = false →
  create_order now user_id product_id quantity d = (d, Raise OverflowError).
Proof.
  intros Hp Hle Hmul Hint. unfold create_order, get_product. rewrite Hp.
  by rewrite (proj2 (Z.ltb_ge _ _) Hle), Hmul, Hint.
Qed.

Lemma create_order_created (now user_id product_id quantity : Z)
    (d : Database) (product : Product) (total_price : float) :
  products d !! product_id = Some product →
  quantity ≤ p_stock product →
  float_mul_int (p_price product) quantity = Ok total_price →
  sqlite_int quantity = true →
  create_order now user_id product_id quantity d =
    (mkDatabase
       (users d) (admins d) (settings d)
       (<[product_id := with_stock (λ stock, stock - quantity) product]>
          (products d))
       (orders d ++ [mkOrder (next_id (orders d)) user_id product_id
                             quantity total_price "pending" now])
       (tickets d) (transactions d),
     Ok (next_id (orders d))).
Proof.
  intros Hp Hle Hmul Hint. unfold create_order, get_product. rewrite Hp.
  rewrite (proj2 (Z.ltb_ge _ _) Hle), Hmul, Hint.
  unfold set_products, set_orders; simpl.
  by rewrite (alter_Some _ _ _ _ Hp).
Qed.








End Catalog.

(** ** Points and referral codes *)

Section Points.

Import DatabaseManager.

(** C6, as the program has it. [add_points] adds the delta without any
    check of sign or balance: for a delta within SQLite's integer range and
    an existing account whose sum [points + delta] is within that range
    too, the points column becomes [points + delta] whatever the signs,
    every other column of the account and everything else in the store is
    as before, and no such delta is rejected (an unknown id changes
    nothing). The points therefore stay non-negative exactly when
    [points + delta >= 0]. *)
Theorem add_points_unconditional
    (user_id delta : Z) (d : Database) :
  sqlite_int delta = true →
  (∀ u, users d !! user_id = Some u →
        sqlite_int (u_points u + delta) = true →
        add_points user_id delta d =
          mkDatabase
            (<[user_id :=
                 mkUser (u_username u) (u_first_name u) (u_last_name u)
                        (u_language_code u) (u_join_date u)
                        (u_last_activity u) (u_is_banned u)
                        (u_is_premium u) (u_balance u)
                        (u_points u + delta) (u_referral_code u)
                        (u_referred_by u) (u_message_count u)
                        (u_phone_number u)]> (users d))
            (admins d) (settings d) (products d) (orders d) (tickets d)
            (transactions d)
        ∧ (u_points <$> users (add_points user_id delta d) !! user_id)
          = Some (u_points u + delta)
        ∧ (0 ≤ u_points u + delta
           ↔ ∃ u', users (add_points user_id delta d) !! user_id = Some u'
                   ∧ 0 ≤ u_points u'))
  ∧ (users d !! user_id = None → add_points user_id delta d = d)
  ∧ (∀ other, other ≠ user_id →
        users (add_points user_id delta d) !! other = users d !! other).
Proof.
  intros _. split_and!.
  - intros u Hu _. unfold add_points, set_users; simpl.
    rewrite (alter_Some _ _ _ _ Hu). split_and!; [done| |].
    + by rewrite lookup_insert_eq.
    + rewrite lookup_insert_eq. split.
      * intros Hpos. by eexists.
      * by intros (u' & [= <-] & Hpos).
  - intros Hnone. unfold add_points, set_users.
    rewrite (alter_None _ _ _ Hnone). by destruct d.
  - intros other Hne. unfold add_points, set_users; simpl.
    by rewrite lookup_alter_ne.
Qed.

(** Account 1 holds 5 points: a delta of 20 leaves it with 25, a delta of
    -10 with -5. *)
Lemma add_points_unconditional_witness :
  (u_points <$> users (add_points 1 20 sample_db) !! 1) = Some 25
  ∧ (u_points <$> users (add_points 1 (-10) sample_db) !! 1) = Some (-5).
Proof.
  split.
  - destruct (add_points_unconditional 1 20 sample_db eq_refl)
      as [Hadd _].
    by destruct (Hadd (sample_user 10 false 5 30%float "REF1AAAAAA")
                   eq_refl eq_refl) as (_ & -> & _).
  - destruct (add_points_unconditional 1 (-10) sample_db eq_refl)
      as [Hadd _].
    by destruct (Hadd (sample_user 10 false 5 30%float "REF1AAAAAA")
                   eq_refl eq_refl) as (_ & -> & _).
Defined.

(** C6 as stated fails: account 1 holds 5 points, and a delta of -10 is
    accepted and leaves it with -5. *)
Lemma add_points_goes_negative :
  (u_points <$> users sample_db !! 1) = Some 5
  ∧ (u_points <$> users (add_points 1 (-10) sample_db) !! 1) = Some (-5).
Proof. split; reflexivity. Qed.

End Points.

Section ReferralCodes.

Import DatabaseManager.

Lemma append_cons (c : ascii) (a b : string) :
  String c a +:+ b = String c (a +:+ b).
Proof. reflexivity. Qed.

Lemma string_length_append (a b : string) :
  String.length (a +:+ b) = (String.length a + String.length b)%nat.
Proof.
  induction a as [|c a IH]; [done|].
  rewrite append_cons. simpl. by rewrite IH.
Qed.

(** Two concatenations with tails of one length agree on their heads. *)
Lemma append_same_tail_length (a b s1 s2 : string) :
  a +:+ s1 = b +:+ s2 →
  String.length s1 = String.length s2 →
  a = b.
Proof.
  revert b. induction a as [|c a IH]; intros [|c' b] Heq Hlen.
  - done.
  - apply (f_equal String.length) in Heq.
    rewrite !string_length_append in Heq. simpl in Heq. lia.
  - apply (f_equal String.length) in Heq.
    rewrite !string_length_append in Heq. simpl in Heq. lia.
  - rewrite !append_cons in Heq. injection Heq as -> Heq.
    f_equal. by apply IH.
Qed.

Lemma suffix_choice_length (s : string) :
  is_suffix_choice s = true → String.length s = 6%nat.
Proof.
  unfold is_suffix_choice. intros H.
  apply andb_true_iff in H as [H _]. by apply Nat.eqb_eq in H.
Qed.

(** The code determines the id, once the suffixes have one length. *)
Lemma generate_referral_code_inj (id1 id2 : Z) (s1 s2 : string) :
  String.length s1 = String.length s2 →
  generate_referral_code id1 s1 = generate_referral_code id2 s2 →
  id1 = id2.
Proof.
  unfold generate_referral_code. intros Hlen Heq.
  simpl in Heq. injection Heq as Heq.
  apply (inj pretty). by apply (append_same_tail_length _ _ s1 s2).
Qed.

(** C8. The codes generated for distinct account ids, each with any six
    characters [random.choices] may draw, are pairwise distinct (and there
    is one per account). *)
Theorem referral_codes_pairwise_distinct
    (ids : list Z) (suffixes : list string) :
  NoDup ids →
  length suffixes = length ids →
  Forall (λ s, is_suffix_choice s = true) suffixes →
  NoDup (zip_with generate_referral_code ids suffixes)
  ∧ length (zip_with generate_referral_code ids suffixes) = length ids.
Proof.
  intros Hids Hlen Hsuf. split.
  - apply NoDup_alt. intros i j code Hi Hj.
    apply lookup_zip_with_Some in Hi as (id1 & s1 & -> & Hid1 & Hs1).
    apply lookup_zip_with_Some in Hj as (id2 & s2 & Heq & Hid2 & Hs2).
    assert (Hl1 : String.length s1 = 6%nat).
    { apply suffix_choice_length.
      exact (proj1 (Forall_lookup _ _) Hsuf _ _ Hs1). }
    assert (Hl2 : String.length s2 = 6%nat).
    { apply suffix_choice_length.
      exact (proj1 (Forall_lookup _ _) Hsuf _ _ Hs2). }
    assert (id1 = id2) as ->.
    { apply (generate_referral_code_inj id1 id2 s1 s2); congruence. }
    by apply (proj1 (NoDup_alt ids) Hids i j id2).
  - rewrite length_zip_with_l_eq; [done|]. lia.
Qed.

(** Ids 1 and 12 with suffixes that start with each other's digits. *)
Lemma referral_codes_pairwise_distinct_witness :
  zip_with generate_referral_code [1; 12; -3] ["2ABCDE"; "ABCDE0"; "ZZZZZZ"]
  = ["REF12ABCDE"; "REF12ABCDE0"; "REF-3ZZZZZZ"]
  ∧ NoDup (zip_with generate_referral_code [1; 12; -3]
                    ["2ABCDE"; "ABCDE0"; "ZZZZZZ"]).
Proof.
  split; [reflexivity|].
  apply (referral_codes_pairwise_distinct
           [1; 12; -3] ["2ABCDE"; "ABCDE0"; "ZZZZZZ"]).
  - by apply (bool_decide_unpack (NoDup [1; 12; -3])).
  - reflexivity.
  - repeat constructor.
Defined.

(** In [add_user] the UNIQUE constraint on the code never fires for a new
    id: with generated codes in the table, the INSERT for an id that is not
    there goes through, and the codes stay generated. *)
Lemma add_user_fresh_inserts (now : Z) (suffix : string) (user_id : Z)
    (username first_name last_name language_code : string)
    (phone : option string) (d : Database) :
  codes_generated d →
  String.length suffix = 6%nat →
  users d !! user_id = None →
  (add_user now suffix user_id username first_name last_name language_code
            phone d).2 = true
  ∧ codes_generated
      (add_user now suffix user_id username first_name last_name
                language_code phone d).1.
Proof.
  intros Hgen Hlen Hfresh.
  assert (Hfree : insert_conflicts user_id
                    (generate_referral_code user_id suffix) d = false).
  { unfold insert_conflicts. rewrite Hfresh.
    apply orb_false_iff. split; [done|].
    apply not_true_is_false. intros Hex.
    apply existsb_exists in Hex as ([k u] & Hin & Heq). simpl in Heq.
    apply list_elem_of_In, elem_of_map_to_list in Hin.
    apply String.eqb_eq in Heq.
    destruct (Hgen k u Hin) as (s & Hs & Hcode).
    rewrite Hcode in Heq.
    assert (k = user_id) as ->
      by (apply (generate_referral_code_inj k user_id s suffix); congruence).
    congruence. }
  unfold add_user. rewrite Hfree. simpl. split; [done|].
  intros k u Hk. simpl in Hk.
  destruct (decide (k = user_id)) as [->|Hne].
  - rewrite lookup_insert_eq in Hk. injection Hk as <-. simpl. by exists suffix.
  - rewrite lookup_insert_ne in Hk by done. by apply Hgen.
Qed.

End ReferralCodes.

(** ** Inbound event router *)

(** Running a handler computation step by step. *)
Ltac run_handler :=
  unfold mbind, M_bind, mret, M_ret, execute, execute_returning, query,
         reply_text, emit, raise, user_data_get, user_data_set,
         user_data_clear, get_main_menu_keyboard;
  simpl.

Section Router.

Variable py_int : string → option Z.

(** The ban branch of [handle_message]: the activity update has already
    been committed when the ban is checked. *)
Lemma handle_message_banned (env : Env) (user_id : Z) (text : string)
    (w : World) (u : User) :
  users (db w) !! user_id = Some u →
  u_is_banned u = true →
  handle_message py_int env user_id text w =
    (mkWorld (set_users (insert user_id (with_activity (now env) u)) (db w))
             (user_data w)
             (outbox w ++ [ReplyText user_id MsgBanned NoKeyboard]),
     Ok tt).
Proof.
  intros Hu Hban. unfold handle_message. run_handler.
  unfold DatabaseManager.get_user, DatabaseManager.update_user_activity.
  simpl. rewrite lookup_alter_eq, Hu. simpl. rewrite Hban.
  unfold set_users. by rewrite (alter_Some _ _ _ _ Hu).
Qed.

(** C3, as the program has it. An inbound event from a banned account ends
    with a single rejection payload: no handler runs and the session data
    is untouched. The activity update runs before the ban check, so the
    account's message count has gone up by one and its last-activity
    timestamp is the time of the event; no other row or table changes. *)
Theorem banned_event_is_rejected_after_activity_update
    (env : Env) (user_id : Z) (text : string) (w : World) (u : User) :
  users (db w) !! user_id = Some u →
  u_is_banned u = true →
  let result := handle_message py_int env user_id text w in
  result.2 = Ok tt
  ∧ outbox result.1 = outbox w ++ [ReplyText user_id MsgBanned NoKeyboard]
  ∧ user_data result.1 = user_data w
  ∧ db result.1 =
      set_users (insert user_id (with_activity (now env) u)) (db w)
  ∧ (u_message_count <$> users (db result.1) !! user_id)
    = Some (u_message_count u + 1)
  ∧ (u_last_activity <$> users (db result.1) !! user_id) = Some (now env).
Proof.
  intros Hu Hban result. subst result.
  rewrite (handle_message_banned _ _ _ _ _ Hu Hban). simpl.
  rewrite lookup_insert_eq. by split_and!.
Qed.

End Router.

Lemma banned_event_is_rejected_after_activity_update_witness :
  outbox (handle_message ascii_int sample_env 2 "hi" sample_world).1
  = [ReplyText 2 MsgBanned NoKeyboard].
Proof.
  apply (banned_event_is_rejected_after_activity_update ascii_int sample_env 2
           "hi" sample_world (sample_user 20 true 0 0%float "REF2BBBBBB"));
    reflexivity.
Defined.

(** C3 as stated fails: account 2 is banned, has sent 0 messages and was
    last active at time 20; after its event at time 100 the store holds a
    message count of 1 and a last activity of 100. *)
Lemma banned_event_counts_as_activity :
  (u_is_banned <$> users sample_db !! 2) = Some true
  ∧ (u_message_count <$> users sample_db !! 2) = Some 0
  ∧ (u_last_activity <$> users sample_db !! 2) = Some 20
  ∧ (u_message_count <$>
       users (db (handle_message ascii_int sample_env 2 "hi" sample_world).1)
         !! 2) = Some 1
  ∧ (u_last_activity <$>
       users (db (handle_message ascii_int sample_env 2 "hi" sample_world).1)
         !! 2) = Some 100.
Proof. split_and!; vm_compute; reflexivity. Qed.

(** ** Session flags *)

Section Session.

Lemma flag_user_data_set_eq (user_id : Z) (key : string) (value : bool)
    (w : World) :
  flag user_id key (user_data_set user_id key value w).1 = value.
Proof.
  unfold flag, user_data_of, user_data_set; simpl.
  rewrite lookup_insert_eq. simpl. by rewrite lookup_insert_eq.
Qed.

Lemma flag_user_data_set_ne (user_id : Z) (key other : string)
    (value : bool) (w : World) :
  other ≠ key →
  flag user_id other (user_data_set user_id key value w).1
  = flag user_id other w.
Proof.
  intros Hne. unfold flag, user_data_of, user_data_set; simpl.
  rewrite lookup_insert_eq. simpl. by rewrite lookup_insert_ne.
Qed.

Lemma user_data_of_set_other (user_id other : Z) (key : string)
    (value : bool) (w : World) :
  other ≠ user_id →
  user_data_of other (user_data_set user_id key value w).1
  = user_data_of other w.
Proof.
  intros Hne. unfold user_data_of, user_data_set; simpl.
  by rewrite lookup_insert_ne.
Qed.

(** A start handler sends its prompt and writes its flag, nothing else. *)
Lemma start_handler_run (user_id : Z) (w : World) :
  Forall (λ '(handler, key, prompt),
            handler user_id w =
              user_data_set user_id key true
                (mkWorld (db w) (user_data w)
                         (outbox w ++ [ReplyText user_id prompt CancelKeyboard])))
         start_handlers.
Proof. repeat constructor. Qed.

(** C7, as the program has it. The session is a set of independent
    flags: each start handler switches its own flag on and leaves every
    other flag of the user, and every other user's data, as it was, so a
    second prompt adds a second pending expectation; [cancel_operation]
    switches all of the user's flags off. *)
Theorem start_handlers_accumulate_flags (user_id : Z) (w : World) :
  Forall (λ '(handler, key, prompt),
            flag user_id key (handler user_id w).1 = true
            ∧ (∀ other_key, other_key ≠ key →
                 flag user_id other_key (handler user_id w).1
                 = flag user_id other_key w)
            ∧ (∀ other_user, other_user ≠ user_id →
                 user_data_of other_user (handler user_id w).1
                 = user_data_of other_user w))
         start_handlers
  ∧ (∀ key, flag user_id key (cancel_operation user_id w).1 = false).
Proof.
  split.
  - eapply Forall_impl; [apply (start_handler_run user_id w)|].
    intros [[handler key] prompt] Hrun. simpl in Hrun. rewrite Hrun.
    split_and!.
    + apply flag_user_data_set_eq.
    + intros other Hne. by rewrite flag_user_data_set_ne.
    + intros other Hne. by rewrite user_data_of_set_other.
  - intros key. unfold cancel_operation. run_handler.
    unfold flag, user_data_of; simpl. by rewrite lookup_insert_eq.
Qed.

End Session.

(** C7 as stated fails: the admin (account 3) has nothing pending, presses
    add-admin and then remove-admin, and is left with two expectations
    pending at once. *)
Lemma two_expectations_pending :
  DatabaseManager.is_admin 3 sample_db = true
  ∧ pending 3 sample_world = []
  ∧ pending 3
      (handle_message ascii_int sample_env 3 label_admin_remove_start
         (handle_message ascii_int sample_env 3 label_admin_add_start
            sample_world).1).1
    = ["awaiting_admin_id"; "removing_admin"].
Proof. split_and!; vm_compute; reflexivity. Qed.

(** ** Broadcast *)

Section Broadcast.

Lemma delivered_count_cons (env : Env) (r : Z * User)
    (rest : list (Z * User)) :
  delivered_count env (r :: rest)
  = (if delivers env r.1 then 1 else 0) + delivered_count env rest.
Proof.
  unfold delivered_count. simpl. destruct (delivers env r.1); simpl; lia.
Qed.

Lemma broadcast_loop_run (env : Env) (text : string)
    (recipients : list (Z * User)) :
  ∀ (sent : Z) (w : World),
    broadcast_loop env text recipients sent w =
      (mkWorld (db w) (user_data w)
               (outbox w ++ deliveries env text recipients),
       Ok (sent + delivered_count env recipients)).
Proof.
  induction recipients as [|r rest IH]; intros sent w.
  - simpl. unfold mret, M_ret, deliveries, delivered_count. simpl.
    rewrite app_nil_r, Z.add_0_r. by destruct w.
  - simpl. run_handler. rewrite IH. simpl.
    rewrite delivered_count_cons, <- app_assoc. simpl.
    do 2 f_equal. destruct (delivers env r.1); lia.
Qed.

Lemma attempted_deliveries (env : Env) (text : string)
    (recipients : list (Z * User)) :
  attempted (deliveries env text recipients) = length recipients.
Proof.
  unfold attempted, deliveries.
  induction recipients as [|r rest IH]; simpl; [done|].
  f_equal. exact IH.
Qed.

Lemma report_deliveries (env : Env) (text : string)
    (recipients : list (Z * User)) :
  report (deliveries env text recipients) = [].
Proof.
  unfold report, deliveries.
  induction recipients as [|r rest IH]; simpl; [done|]. exact IH.
Qed.

Lemma attempted_app (t1 t2 : list Outbound) :
  attempted (t1 ++ t2) = (attempted t1 + attempted t2)%nat.
Proof. unfold attempted. by rewrite List.filter_app, length_app. Qed.

Lemma report_app (t1 t2 : list Outbound) :
  report (t1 ++ t2) = report t1 ++ report t2.
Proof. unfold report. apply omap_app. Qed.

(** The page [process_broadcast] reads: accounts of the table, each once,
    and 5000 of them at most. *)
Lemma broadcast_page (d : Database) :
  length (DatabaseManager.get_all_users 5000 0 d)
  = (5000 `min` size (users d))%nat
  ∧ ∃ rest,
      map_to_list (users d) ≡ₚ DatabaseManager.get_all_users 5000 0 d ++ rest.
Proof.
  unfold DatabaseManager.get_all_users, limit_offset, order_by_desc.
  rewrite drop_0. split.
  - rewrite length_take.
    by rewrite (Permutation_length (merge_sort_Permutation _ _)),
               length_map_to_list.
  - eexists. rewrite take_drop. symmetry. apply merge_sort_Permutation.
Qed.

(** C9, as the program has it. A broadcast run reads one page of at most
    5000 accounts, announces the run, attempts one delivery per account of
    the page in order, swallows a delivery that fails and goes on, counts
    the deliveries that succeed, and ends with a report that carries that
    count only: the number attempted is not in it. It never raises and
    leaves the store and the session data as they were. With three
    accounts and the second delivery failing, three deliveries are attempted
    and the report says 2. *)
Theorem process_broadcast_report (env : Env) (user_id : Z) (text : string)
    (w : World) :
  (let recipients := DatabaseManager.get_all_users 5000 0 (db w) in
   let trace :=
     [ReplyText user_id MsgSending NoKeyboard]
     ++ deliveries env text recipients
     ++ [EditText user_id (MsgSentTo (delivered_count env recipients))] in
   process_broadcast env user_id text w =
     (mkWorld (db w) (user_data w) (outbox w ++ trace), Ok tt)
   ∧ (length recipients ≤ 5000)%nat
   ∧ length recipients = (5000 `min` size (users (db w)))%nat
   ∧ (∃ rest, map_to_list (users (db w)) ≡ₚ recipients ++ rest)
   ∧ attempted trace = length recipients
   ∧ report trace = [MsgSentTo (delivered_count env recipients)])
  ∧ outbox (process_broadcast sample_env 3 "hello" sample_world).1 =
      [ ReplyText 3 MsgSending NoKeyboard;
        SendMessage 3 (MsgBroadcast "hello") true;
        SendMessage 2 (MsgBroadcast "hello") false;
        SendMessage 1 (MsgBroadcast "hello") true;
        EditText 3 (MsgSentTo 2) ].
Proof.
  split; [|vm_compute; reflexivity].
  intros recipients trace.
  destruct (broadcast_page (db w)) as [Hlen Hperm].
  fold recipients in Hlen, Hperm.
  split_and!.
  - unfold process_broadcast. run_handler.
    rewrite broadcast_loop_run. simpl. fold recipients.
    subst trace. by rewrite <- !app_assoc.
  - lia.
  - done.
  - done.
  - subst trace. rewrite !attempted_app, attempted_deliveries.
    unfold attempted; simpl. lia.
  - subst trace. by rewrite !report_app, report_deliveries.
Qed.

End Broadcast.

(** C9 as stated fails: a run over three accounts with one failed delivery
    and a run over two accounts with none end with the same report, so the
    report does not carry the number attempted. *)
Lemma broadcast_report_omits_attempted :
  attempted (outbox (process_broadcast sample_env 3 "hello" sample_world).1)
  = 3%nat
  ∧ attempted
      (outbox (process_broadcast sample_env 3 "hello"
                 (mkWorld sample_db_two ∅ [])).1)
    = 2%nat
  ∧ report (outbox (process_broadcast sample_env 3 "hello" sample_world).1)
    = [MsgSentTo 2]
  ∧ report
      (outbox (process_broadcast sample_env 3 "hello"
                 (mkWorld sample_db_two ∅ [])).1)
    = [MsgSentTo 2].
Proof. split_and!; vm_compute; reflexivity. Qed.

(** ** Free text and the input handlers *)

Create HintDb session discriminated.

Section KeepsInputUnset.

Lemma keeps_ret {A} (a : A) : keeps_input_unset (mret a : M A).
Proof. by intros w Hw. Qed.

Lemma keeps_bind {A B} (m : M A) (k : A → M B) :
  keeps_input_unset m → (∀ a, keeps_input_unset (k a)) →
  keeps_input_unset (m ≫= k).
Proof.
  intros Hm Hk w Hw. unfold mbind, M_bind.
  specialize (Hm w Hw). destruct (m w) as [w' [a|e]]; simpl in *.
  - by apply Hk.
  - done.
Qed.

Lemma keeps_raise {A} (e : Exn) : keeps_input_unset (raise e : M A).
Proof. by intros w Hw. Qed.

Lemma keeps_query {A} (q : Database → A) : keeps_input_unset (query q).
Proof. by intros w Hw. Qed.

Lemma keeps_execute (f : Database → Database) :
  keeps_input_unset (execute f).
Proof. by intros w Hw. Qed.

Lemma keeps_execute_returning {A} (f : Database → Database * A) :
  keeps_input_unset (execute_returning f).
Proof.
  intros w Hw. unfold execute_returning. by destruct (f (db w)).
Qed.

Lemma keeps_emit (o : Outbound) : keeps_input_unset (emit o).
Proof. by intros w Hw. Qed.

Lemma keeps_reply_text (user_id : Z) (p : Payload) (kb : Keyboard) :
  keeps_input_unset (reply_text user_id p kb).
Proof. apply keeps_emit. Qed.

Lemma keeps_user_data_get (user_id : Z) (key : string) :
  keeps_input_unset (user_data_get user_id key).
Proof. by intros w Hw. Qed.

Lemma keeps_user_data_set (user_id : Z) (key : string) (value : bool) :
  key ≠ "awaiting_input" →
  keeps_input_unset (user_data_set user_id key value).
Proof.
  intros Hne w Hw other.
  destruct (decide (other = user_id)) as [->|Hother].
  - rewrite flag_user_data_set_ne by done. apply Hw.
  - unfold flag. rewrite user_data_of_set_other by done. apply Hw.
Qed.

Lemma keeps_user_data_clear (user_id : Z) :
  keeps_input_unset (user_data_clear user_id).
Proof.
  intros w Hw other. unfold flag, user_data_of, user_data_clear; simpl.
  destruct (decide (other = user_id)) as [->|Hother].
  - by rewrite lookup_insert_eq.
  - rewrite lookup_insert_ne by done. apply Hw.
Qed.

Lemma keeps_get_main_menu_keyboard (user_id : Z) :
  keeps_input_unset (get_main_menu_keyboard user_id).
Proof. by intros w Hw. Qed.

Lemma keeps_for_each {A} (xs : list A) (body : A → M unit) :
  (∀ x, keeps_input_unset (body x)) → keeps_input_unset (for_each xs body).
Proof.
  intros Hbody. induction xs as [|x rest IH]; simpl.
  - apply keeps_ret.
  - apply keeps_bind; [apply Hbody|]. intros _. apply IH.
Qed.

Lemma keeps_broadcast_loop (env : Env) (text : string)
    (recipients : list (Z * User)) (sent : Z) :
  keeps_input_unset (broadcast_loop env text recipients sent).
Proof.
  intros w Hw. by rewrite broadcast_loop_run.
Qed.

End KeepsInputUnset.

#[local] Hint Resolve keeps_ret keeps_raise keeps_query keeps_execute
  keeps_execute_returning keeps_emit keeps_reply_text keeps_user_data_get
  keeps_user_data_clear keeps_get_main_menu_keyboard keeps_broadcast_loop
  : session.

(** Goes through a handler body: binds, branches, and the calls above. *)
Ltac keeps_step :=
  lazymatch goal with
  | |- keeps_input_unset (_ ≫= _) => apply keeps_bind; [|intros ?]
  | |- keeps_input_unset (if ?b then _ else _) => destruct b
  | |- keeps_input_unset (match ?x with _ => _ end) => destruct x
  | |- keeps_input_unset (user_data_set _ _ _) =>
      apply keeps_user_data_set; discriminate
  | |- keeps_input_unset (for_each _ _) => apply keeps_for_each; intros ?
  | |- keeps_input_unset _ => solve [auto with session]
  end.

Section FreeText.

Variable py_int : string → option Z.

Lemma handle_user_input_keeps (env : Env) (user_id : Z) (text : string) :
  keeps_input_unset (handle_user_input py_int env user_id text).
Proof.
  unfold handle_user_input, process_broadcast. repeat keeps_step.
Qed.

(** No handler behind the router ever sets ["awaiting_input"]. *)
Lemma handle_message_keeps (env : Env) (user_id : Z) (text : string) :
  keeps_input_unset (handle_message py_int env user_id text).
Proof.
  pose proof (handle_user_input_keeps env user_id text) as Hinput.
  unfold handle_message.
  unfold show_profile, show_shop, show_wallet, show_games, show_news,
    show_referral, show_settings, show_support, show_help,
    show_admin_panel, back_to_main, admin_stats, admin_users,
    admin_broadcast_start, admin_settings, admin_products, admin_tickets,
    admin_add_start, admin_remove_start, show_category, play_dice,
    play_dart, play_slots, play_trivia, show_leaderboard, claim_daily,
    create_ticket_start, show_my_tickets, cancel_operation.
  repeat first [ exact Hinput | keeps_step ].
Qed.

End FreeText.

Section Fallthrough.

Variable py_int : string → option Z.

Lemma banned_after_activity (now user_id : Z) (d : Database) :
  banned user_id (DatabaseManager.update_user_activity now user_id d)
  = banned user_id d.
Proof.
  unfold banned, DatabaseManager.get_user,
    DatabaseManager.update_user_activity; simpl.
  rewrite lookup_alter_eq. by destruct (users d !! user_id).
Qed.

(** A text that is none of the labels, from an account that is not
    banned and has no ["awaiting_input"] flag, gets the default reply and
    nothing else: [handle_user_input] is not called, whatever the other
    flags say. *)
Lemma handle_message_free_text (env : Env) (user_id : Z) (text : string)
    (w : World) :
  banned user_id (db w) = false →
  is_dispatch_label text = false →
  flag user_id "awaiting_input" w = false →
  handle_message py_int env user_id text w =
    (mkWorld
       (DatabaseManager.update_user_activity (now env) user_id (db w))
       (user_data w)
       (outbox w
        ++ [ReplyText user_id MsgNotUnderstood
              (MainMenuKeyboard (DatabaseManager.is_admin user_id (db w)))]),
     Ok tt).
Proof.
  intros Hban Hlabel Hflag.
  unfold is_dispatch_label, dispatch_labels in Hlabel.
  cbn [existsb] in Hlabel.
  repeat (apply orb_false_iff in Hlabel as [? Hlabel]).
  unfold handle_message.
  repeat match goal with
         | H : String.eqb text _ = false |- _ => rewrite H; clear H
         end.
  run_handler.
  pose proof (banned_after_activity (now env) user_id (db w)) as Hsame.
  unfold banned in Hsame, Hban. rewrite Hsame, Hban.
  unfold flag, user_data_of in Hflag. unfold user_data_of; simpl.
  by rewrite Hflag.
Qed.

(** In particular a pending ticket is never filed: from a world in which
    nobody has the ["awaiting_input"] flag (as in every world the router
    itself produces, by [handle_message_keeps]), a free text leaves the
    tickets and the session data as they were. *)
Lemma free_text_files_no_ticket (env : Env) (user_id : Z) (text : string)
    (w : World) :
  never_awaits_input w →
  banned user_id (db w) = false →
  is_dispatch_label text = false →
  tickets (db (handle_message py_int env user_id text w).1) = tickets (db w)
  ∧ user_data (handle_message py_int env user_id text w).1 = user_data w
  ∧ never_awaits_input (handle_message py_int env user_id text w).1.
Proof.
  intros Hnever Hban Hlabel.
  rewrite (handle_message_free_text env user_id text w Hban Hlabel
             (Hnever user_id)).
  by split_and!.
Qed.

(** What [handle_user_input] does with a pending ticket when it is
    called: the ticket is filed as open with the text as its message, and
    the flag is switched off. *)
Lemma handle_user_input_files_ticket (env : Env) (user_id : Z)
    (text : string) (w : World) :
  flag user_id "awaiting_broadcast" w = false →
  flag user_id "awaiting_admin_id" w = false →
  flag user_id "creating_ticket" w = true →
  handle_user_input py_int env user_id text w =
    (mkWorld
       (set_tickets
          (λ ts, ts ++ [mkTicket (next_id (tickets (db w))) user_id
                          "دعم فني" text "open" (now env) None])
          (db w))
       (<[user_id := <["creating_ticket" := false]> (user_data_of user_id w)]>
          (user_data w))
       (outbox w
        ++ [ReplyText user_id (MsgTicketCreated (next_id (tickets (db w))))
              SupportKeyboard]),
     Ok tt).
Proof.
  intros Hb Ha Ht. unfold flag, user_data_of in Hb, Ha, Ht.
  unfold handle_user_input. run_handler. unfold user_data_of; simpl.
  by rewrite Hb, Ha, Ht.
Qed.

(** What it does with a pending add-admin input that parses to an id
    SQLite can hold: the grant is
    written, with the caller as [added_by], without a look at the
    caller's own admin status. *)
Lemma handle_user_input_grants_admin (env : Env) (user_id new_admin : Z)
    (text : string) (w : World) :
  flag user_id "awaiting_broadcast" w = false →
  flag user_id "awaiting_admin_id" w = true →
  py_int text = Some new_admin →
  sqlite_int new_admin = true →
  handle_user_input py_int env user_id text w =
    (mkWorld
       (DatabaseManager.add_admin (now env) new_admin user_id 1 (db w))
       (<[user_id := <["awaiting_admin_id" := false]> (user_data_of user_id w)]>
          (user_data w))
       (outbox w ++ [ReplyText user_id (MsgPromoted new_admin) AdminKeyboard]),
     Ok tt).
Proof.
  intros Hb Ha Hint Hrange. unfold flag, user_data_of in Hb, Ha.
  unfold handle_user_input. run_handler. unfold user_data_of; simpl.
  by rewrite Hb, Ha, Hint, Hrange.
Qed.

(** The one handler of the admin keyboard that checks: the panel entry
    turns a caller who is not an admin away, and changes nothing. *)
Lemma show_admin_panel_rejects (user_id : Z) (w : World) :
  DatabaseManager.is_admin user_id (db w) = false →
  show_admin_panel user_id w =
    (mkWorld (db w) (user_data w)
             (outbox w ++ [ReplyText user_id MsgNoPermission NoKeyboard]),
     Ok tt).
Proof.
  intros Hadmin. unfold show_admin_panel. run_handler. by rewrite Hadmin.
Qed.

End Fallthrough.

(** ** Where the program departs from the specification *)

(** C1 fails on the program. Only the panel entry checks the caller: each of
    the eight handlers of the admin keyboard answers any caller with its own
    payload, never the permission-denied one, and the three start handlers
    among them leave their flag set. Account 1 is not an admin: the panel
    entry turns it away, yet each of the eight labels is served, add-admin
    and broadcast-start leave it with a pending expectation, and
    [handle_user_input] then grants admin to the id it sends, or broadcasts
    its text to all three accounts, without a check of its own. *)
Theorem admin_handlers_serve_non_admin :
  (∀ (env : Env) (user_id : Z) (w : World),
     Forall (λ handler : Z → M unit,
               (handler user_id w).2 = Ok tt
               ∧ ∃ payload keyboard,
                   payload ≠ MsgNoPermission
                   ∧ outbox (handler user_id w).1
                     = outbox w ++ [ReplyText user_id payload keyboard])
            (admin_only_handlers env))
  ∧ DatabaseManager.is_admin 1 sample_db = false
  ∧ outbox (handle_message ascii_int sample_env 1 label_show_admin_panel
              sample_world).1
    = [ReplyText 1 MsgNoPermission NoKeyboard]
  ∧ (λ label,
       outbox (handle_message ascii_int sample_env 1 label sample_world).1)
      <$> admin_only_labels
    = [ [ReplyText 1 (MsgStats 3 3 0 0) NoKeyboard];
        [ReplyText 1 MsgUserManagement AdminKeyboard];
        [ReplyText 1 MsgBroadcastPrompt CancelKeyboard];
        [ReplyText 1 (MsgBotSettings false) AdminKeyboard];
        [ReplyText 1 MsgProductManagement AdminKeyboard];
        [ReplyText 1 MsgTicketManagement AdminKeyboard];
        [ReplyText 1 MsgAddAdminPrompt CancelKeyboard];
        [ReplyText 1 MsgRemoveAdminPrompt CancelKeyboard] ]
  ∧ (λ label,
       pending 1 (handle_message ascii_int sample_env 1 label sample_world).1)
      <$> admin_only_labels
    = [ []; []; ["awaiting_broadcast"]; []; []; []; ["awaiting_admin_id"];
        ["removing_admin"] ]
  ∧ admins (db (handle_user_input ascii_int sample_env 1 "99"
                  (admin_add_start 1 sample_world).1).1) !! 99
    = Some (mkAdmin 1 100 1)
  ∧ outbox (handle_user_input ascii_int sample_env 1 "hello"
              (admin_broadcast_start 1 sample_world).1).1
    = [ ReplyText 1 MsgBroadcastPrompt CancelKeyboard;
        ReplyText 1 MsgSending NoKeyboard;
        SendMessage 3 (MsgBroadcast "hello") true;
        SendMessage 2 (MsgBroadcast "hello") false;
        SendMessage 1 (MsgBroadcast "hello") true;
        EditText 1 (MsgSentTo 2) ].
Proof.
  split; [|split_and!; vm_compute; reflexivity].
  intros env user_id w. unfold admin_only_handlers.
  repeat (apply Forall_cons; split); try (by apply Forall_nil).
  all: split; [reflexivity|].
  all: eexists _, _; split; [|reflexivity]; discriminate.
Qed.

(** C2 fails on the program. The router hands a free text to
    [handle_user_input] only under the flag ["awaiting_input"], which no
    handler sets; [create_ticket_start] sets ["creating_ticket"]. Account 1
    asks for a new ticket and sends "my item did not arrive", which is no
    label: the router answers that it did not understand, no ticket is filed
    and the expectation stays pending. Called directly on the same world,
    [handle_user_input] files the open ticket with that text and clears the
    expectation. *)
Theorem pending_ticket_text_is_not_understood :
  pending 1 (handle_message ascii_int sample_env 1 label_create_ticket_start
               sample_world).1
  = ["creating_ticket"]
  ∧ is_dispatch_label "my item did not arrive" = false
  ∧ handle_message ascii_int sample_env 1 "my item did not arrive"
      (create_ticket_start 1 sample_world).1
    = (mkWorld
         (DatabaseManager.update_user_activity 100 1 sample_db)
         (<[1 := <["creating_ticket" := true]> ∅]> ∅)
         [ ReplyText 1 MsgTicketPrompt CancelKeyboard;
           ReplyText 1 MsgNotUnderstood (MainMenuKeyboard false) ],
       Ok tt)
  ∧ tickets (db (handle_message ascii_int sample_env 1
                   "my item did not arrive"
                   (create_ticket_start 1 sample_world).1).1)
    = []
  ∧ pending 1 (handle_message ascii_int sample_env 1
                 "my item did not arrive"
                 (create_ticket_start 1 sample_world).1).1
    = ["creating_ticket"]
  ∧ tickets (db (handle_user_input ascii_int sample_env 1
                   "my item did not arrive"
                   (create_ticket_start 1 sample_world).1).1)
    = [mkTicket 1 1 "دعم فني" "my item did not arrive" "open" 100 None]
  ∧ pending 1 (handle_user_input ascii_int sample_env 1
                 "my item did not arrive"
                 (create_ticket_start 1 sample_world).1).1
    = [].
Proof.
  split_and!; vm_compute; reflexivity.
Qed.

(** * Further properties of the program *)

(** ** Admin grants *)

Section AdminGrants.

Import DatabaseManager.

(** X1. [add_admin] is an upsert: afterwards the id is an admin, its grant
    is exactly the one just written (so granting an id that is already an
    admin replaces its level and its granter), every other grant is as
    before, and a second grant of the same id leaves what the second alone
    would have left: one record, the last one. *)
Theorem add_admin_replaces (now admin_id added_by level : Z) (d : Database) :
  is_admin admin_id (add_admin now admin_id added_by level d) = true
  ∧ admins (add_admin now admin_id added_by level d) !! admin_id
    = Some (mkAdmin added_by now level)
  ∧ (∀ other, other ≠ admin_id →
       admins (add_admin now admin_id added_by level d) !! other
       = admins d !! other)
  ∧ (∀ now' added_by' level',
       add_admin now' admin_id added_by' level'
                 (add_admin now admin_id added_by level d)
       = add_admin now' admin_id added_by' level' d)
  ∧ (size (admins (add_admin now admin_id added_by level d))
     ≤ S (size (admins d)))%nat.
Proof.
  unfold add_admin, is_admin, set_admins; simpl. split_and!.
  - rewrite lookup_insert_eq. by apply bool_decide_eq_true_2.
  - by rewrite lookup_insert_eq.
  - intros other Hne. by rewrite lookup_insert_ne.
  - intros now' added_by' level'. by rewrite insert_insert_eq.
  - destruct (admins d !! admin_id) as [a|] eqn:Ha.
    + rewrite map_size_insert_Some by eauto. lia.
    + by rewrite map_size_insert_None.
Qed.

(** X2. [remove_admin] is an idempotent delete: afterwards the id is not an
    admin and every other grant is as before; removing an id that holds no
    grant changes nothing, so removing twice is removing once; and removing
    a grant just added to an id that held none restores the table. *)
Theorem remove_admin_idempotent (admin_id : Z) (d : Database) :
  is_admin admin_id (remove_admin admin_id d) = false
  ∧ (∀ other, other ≠ admin_id →
       is_admin other (remove_admin admin_id d) = is_admin other d)
  ∧ (is_admin admin_id d = false → remove_admin admin_id d = d)
  ∧ remove_admin admin_id (remove_admin admin_id d) = remove_admin admin_id d
  ∧ (∀ now added_by level,
       is_admin admin_id d = false →
       remove_admin admin_id (add_admin now admin_id added_by level d) = d).
Proof.
  unfold remove_admin, add_admin, is_admin, set_admins; simpl. split_and!.
  - rewrite lookup_delete_eq. by apply bool_decide_eq_false_2, is_Some_None.
  - intros other Hne. by rewrite lookup_delete_ne.
  - intros Hno. apply bool_decide_eq_false_1 in Hno.
    rewrite delete_id; [by destruct d|].
    by apply eq_None_not_Some.
  - by rewrite delete_delete_eq.
  - intros now added_by level Hno. apply bool_decide_eq_false_1 in Hno.
    rewrite delete_insert_eq, delete_id; [by destruct d|].
    by apply eq_None_not_Some.
Qed.

End AdminGrants.

(** ** Accounts: creation, [/start], bans *)

Section Accounts.

Import DatabaseManager.

Variable py_int : string → option Z.

Lemma set_users_id (d : Database) : set_users (λ m, m) d = d.
Proof. by destruct d. Qed.

Lemma insert_conflicts_existing (user_id : Z) (code : string) (d : Database)
    (u : User) :
  users d !! user_id = Some u → insert_conflicts user_id code d = true.
Proof.
  intros Hu. unfold insert_conflicts. rewrite Hu.
  by rewrite bool_decide_eq_true_2 by eauto.
Qed.

(** X3. For an account that exists, [add_user] inserts nothing and returns
    [False]: it refreshes the three names and the last-activity time and
    keeps everything else of the row (points, balance, referral code, ban
    flag, join date, message count, language); the suffix just drawn is
    thrown away and every other row is as before. *)
Theorem add_user_keeps_existing_account
    (now : Z) (suffix : string) (user_id : Z)
    (username first_name last_name language_code : string)
    (phone : option string) (d : Database) (u : User) :
  users d !! user_id = Some u →
  add_user now suffix user_id username first_name last_name language_code
           phone d
  = (set_users
       (insert user_id
          (mkUser username first_name last_name (u_language_code u)
                  (u_join_date u) now (u_is_banned u) (u_is_premium u)
                  (u_balance u) (u_points u) (u_referral_code u)
                  (u_referred_by u) (u_message_count u) (u_phone_number u)))
       d,
     false).
Proof.
  intros Hu. unfold add_user.
  rewrite (insert_conflicts_existing _ _ _ _ Hu).
  unfold set_users. by rewrite (alter_Some _ _ _ _ Hu).
Qed.

Lemma add_user_keeps_existing_account_witness :
  (add_user 100 "ZZZZZZ" 1 "neo" "Thomas" "Anderson" "en" None sample_db).2
  = false
  ∧ (u_referral_code <$>
       users (add_user 100 "ZZZZZZ" 1 "neo" "Thomas" "Anderson" "en" None
                       sample_db).1 !! 1)
    = Some "REF1AAAAAA".
Proof.
  rewrite (add_user_keeps_existing_account 100 "ZZZZZZ" 1 "neo" "Thomas"
             "Anderson" "en" None sample_db
             (sample_user 10 false 5 30%float "REF1AAAAAA") eq_refl).
  split; reflexivity.
Defined.

(** X4. For an id that is not in the table, and a table whose codes were
    all generated for their own accounts, [add_user] always inserts and
    returns [True] (the UNIQUE constraint on the code cannot fire): the new
    row has zero points, a zero balance, no ban, no referrer, the code
    generated from the id and the suffix, and both timestamps at the time of
    the call; every other row is as before and the codes stay generated. *)
Theorem add_user_creates_account
    (now : Z) (suffix : string) (user_id : Z)
    (username first_name last_name language_code : string)
    (phone : option string) (d : Database) :
  codes_generated d →
  String.length suffix = 6%nat →
  users d !! user_id = None →
  add_user now suffix user_id username first_name last_name language_code
           phone d
  = (set_users
       (insert user_id
          (mkUser username first_name last_name language_code now now
                  false false 0%float 0
                  (generate_referral_code user_id suffix) None 0 phone))
       d,
     true)
  ∧ codes_generated
      (add_user now suffix user_id username first_name last_name
                language_code phone d).1.
Proof.
  intros Hgen Hlen Hfresh.
  destruct (add_user_fresh_inserts now suffix user_id username first_name
              last_name language_code phone d Hgen Hlen Hfresh)
    as [Htrue Hgen'].
  split; [|exact Hgen'].
  unfold add_user in *.
  destruct (insert_conflicts user_id (generate_referral_code user_id suffix) d);
    [discriminate Htrue|done].
Qed.

Lemma sample_codes_generated : codes_generated sample_db.
Proof.
  intros user_id u Hu. unfold sample_db in Hu. simpl in Hu.
  destruct (decide (user_id = 1)) as [->|H1];
    [rewrite lookup_insert_eq in Hu; injection Hu as <-;
     by exists "AAAAAA"|rewrite lookup_insert_ne in Hu by done].
  destruct (decide (user_id = 2)) as [->|H2];
    [rewrite lookup_insert_eq in Hu; injection Hu as <-;
     by exists "BBBBBB"|rewrite lookup_insert_ne in Hu by done].
  destruct (decide (user_id = 3)) as [->|H3];
    [rewrite lookup_insert_eq in Hu; injection Hu as <-;
     by exists "CCCCCC"|rewrite lookup_insert_ne in Hu by done].
  by rewrite lookup_empty in Hu.
Qed.

Lemma add_user_creates_account_witness :
  (add_user 100 "ZZZZZZ" 9 "neo" "Thomas" "Anderson" "en" None sample_db).2
  = true.
Proof.
  pose proof (add_user_creates_account 100 "ZZZZZZ" 9 "neo" "Thomas"
                "Anderson" "en" None sample_db sample_codes_generated
                eq_refl eq_refl) as [Hrun _].
  by rewrite Hrun.
Defined.

(** The three ways through [start]. *)

Lemma start_new_account (env : Env) (suffix : string) (user : TelegramUser)
    (w : World) :
  codes_generated (db w) →
  String.length suffix = 6%nat →
  users (db w) !! tg_id user = None →
  start env suffix user w =
    (mkWorld
       (add_points (tg_id user) 10
          (set_users
             (insert (tg_id user)
                (mkUser (str_or (tg_username user) "")
                        (str_or (tg_first_name user) "")
                        (str_or (tg_last_name user) "")
                        (str_or (tg_language_code user) "ar")
                        (now env) (now env) false false 0%float 0
                        (generate_referral_code (tg_id user) suffix)
                        None 0 None))
             (db w)))
       (user_data w) (outbox w),
     Ok [ StartFirstTime;
          StartWelcome (get_setting "bot_name" (db w)) true
            (MainMenuKeyboard (is_admin (tg_id user) (db w))) ]).
Proof.
  intros Hgen Hlen Hfresh. unfold start. run_handler.
  destruct (add_user_fresh_inserts (now env) suffix (tg_id user)
              (str_or (tg_username user) "") (str_or (tg_first_name user) "")
              (str_or (tg_last_name user) "")
              (str_or (tg_language_code user) "ar") None (db w)
              Hgen Hlen Hfresh) as [Htrue _].
  unfold add_user in *.
  destruct (insert_conflicts (tg_id user)
              (generate_referral_code (tg_id user) suffix) (db w));
    [discriminate Htrue|].
  simpl. unfold get_user; simpl. by rewrite lookup_insert_eq.
Qed.

Lemma start_known_account (env : Env) (suffix : string) (user : TelegramUser)
    (w : World) (u : User) :
  users (db w) !! tg_id user = Some u →
  start env suffix user w =
    (mkWorld
       (set_users
          (insert (tg_id user)
             (with_names (now env) (str_or (tg_username user) "")
                         (str_or (tg_first_name user) "")
                         (str_or (tg_last_name user) "") u))
          (db w))
       (user_data w) (outbox w),
     Ok (if u_is_banned u then [StartBanned]
         else [ StartWelcome (get_setting "bot_name" (db w)) false
                  (MainMenuKeyboard (is_admin (tg_id user) (db w))) ])).
Proof.
  intros Hu. unfold start. run_handler. unfold add_user.
  rewrite (insert_conflicts_existing _ _ _ _ Hu). simpl.
  unfold get_user; simpl. rewrite lookup_alter_eq, Hu. simpl.
  unfold set_users. rewrite (alter_Some _ _ _ _ Hu).
  by destruct (u_is_banned u).
Qed.

(** X5. The welcome bonus is paid exactly once. A first [/start] from an id
    that has no account (in a table of generated codes) creates the account,
    greets it as new and leaves it with 10 points and its referral code; a
    later [/start] from the same id, whatever names and suffix come with it,
    only sends the plain welcome and leaves the points at 10 and the code
    as it was. *)
Theorem start_pays_bonus_once
    (env env' : Env) (suffix suffix' : string) (user user' : TelegramUser)
    (w : World) :
  codes_generated (db w) →
  String.length suffix = 6%nat →
  users (db w) !! tg_id user = None →
  tg_id user' = tg_id user →
  (start env suffix user w).2
  = Ok [ StartFirstTime;
         StartWelcome (get_setting "bot_name" (db w)) true
           (MainMenuKeyboard (is_admin (tg_id user) (db w))) ]
  ∧ (u_points <$> users (db (start env suffix user w).1) !! tg_id user)
    = Some 10
  ∧ (u_referral_code <$>
       users (db (start env suffix user w).1) !! tg_id user)
    = Some (generate_referral_code (tg_id user) suffix)
  ∧ (start env' suffix' user' (start env suffix user w).1).2
    = Ok [ StartWelcome (get_setting "bot_name" (db w)) false
             (MainMenuKeyboard (is_admin (tg_id user) (db w))) ]
  ∧ (u_points <$>
       users (db (start env' suffix' user' (start env suffix user w).1).1)
         !! tg_id user)
    = Some 10
  ∧ (u_referral_code <$>
       users (db (start env' suffix' user' (start env suffix user w).1).1)
         !! tg_id user)
    = Some (generate_referral_code (tg_id user) suffix).
Proof.
  intros Hgen Hlen Hfresh Hid.
  rewrite (start_new_account env suffix user w Hgen Hlen Hfresh).
  cbn [fst snd].
  set (row := with_points (λ p, p + 10)
                (mkUser (str_or (tg_username user) "")
                        (str_or (tg_first_name user) "")
                        (str_or (tg_last_name user) "")
                        (str_or (tg_language_code user) "ar")
                        (now env) (now env) false false 0%float 0
                        (generate_referral_code (tg_id user) suffix)
                        None 0 None)).
  assert (Hrow : ∀ d0, users (add_points (tg_id user) 10
                         (set_users (insert (tg_id user)
                            (mkUser (str_or (tg_username user) "")
                               (str_or (tg_first_name user) "")
                               (str_or (tg_last_name user) "")
                               (str_or (tg_language_code user) "ar")
                               (now env) (now env) false false 0%float 0
                               (generate_referral_code (tg_id user) suffix)
                               None 0 None)) d0)) !! tg_id user = Some row).
  { intros d0. unfold add_points, set_users; simpl.
    by rewrite lookup_alter_eq, lookup_insert_eq. }
  assert (Hrow' : users (db (mkWorld
                     (add_points (tg_id user) 10
                        (set_users (insert (tg_id user)
                           (mkUser (str_or (tg_username user) "")
                              (str_or (tg_first_name user) "")
                              (str_or (tg_last_name user) "")
                              (str_or (tg_language_code user) "ar")
                              (now env) (now env) false false 0%float 0
                              (generate_referral_code (tg_id user) suffix)
                              None 0 None)) (db w)))
                     (user_data w) (outbox w))) !! tg_id user' = Some row)
    by (rewrite Hid; apply Hrow).
  rewrite (start_known_account env' suffix' user' _ row Hrow').
  cbn [fst snd db]. rewrite Hrow. split_and!; try done.
  - simpl. by rewrite Hid.
  - unfold set_users; simpl. by rewrite Hid, lookup_insert_eq.
  - unfold set_users; simpl. by rewrite Hid, lookup_insert_eq.
Qed.

Lemma start_pays_bonus_once_witness :
  (u_points <$>
     users (db (start sample_env "QQQQQQ"
                  (mkTelegramUser 9 None (Some "Trinity") None (Some ""))
                  (start sample_env "ZZZZZZ"
                     (mkTelegramUser 9 (Some "neo") None None None)
                     sample_world).1).1) !! 9)
  = Some 10.
Proof.
  apply (start_pays_bonus_once sample_env sample_env "ZZZZZZ" "QQQQQQ"
           (mkTelegramUser 9 (Some "neo") None None None)
           (mkTelegramUser 9 None (Some "Trinity") None (Some ""))
           sample_world sample_codes_generated eq_refl eq_refl eq_refl).
Defined.

(** X6. A ban locks an existing account out of both entry points, and only
    an existing account. After [ban_user(id, True)] every text from the id
    gets the ban notice alone and its [/start] gets the ban notice, with
    no bonus; [ban_user(id, False)] lifts the ban, and the row is otherwise
    as it was. For an id with no account [ban_user] changes nothing, so the
    account the id creates later is not banned. *)
Theorem ban_user_locks_account_out
    (env : Env) (suffix text : string) (user : TelegramUser) (w : World)
    (u : User) :
  users (db w) !! tg_id user = Some u →
  let banned_world :=
    mkWorld (ban_user (tg_id user) true (db w)) (user_data w) (outbox w) in
  outbox (handle_message py_int env (tg_id user) text banned_world).1
  = outbox w ++ [ReplyText (tg_id user) MsgBanned NoKeyboard]
  ∧ (start env suffix user banned_world).2 = Ok [StartBanned]
  ∧ (u_points <$>
       users (db (start env suffix user banned_world).1) !! tg_id user)
    = Some (u_points u)
  ∧ users (ban_user (tg_id user) true (db w))
    = <[tg_id user := with_banned true u]> (users (db w))
  ∧ banned (tg_id user)
      (ban_user (tg_id user) false (ban_user (tg_id user) true (db w)))
    = false
  ∧ (∀ other ban,
       users (db w) !! other = None → ban_user other ban (db w) = db w).
Proof.
  intros Hu banned_world.
  assert (Hrow : users (db banned_world) !! tg_id user
                 = Some (with_banned true u)).
  { subst banned_world. unfold ban_user, set_users; simpl.
    by rewrite lookup_alter_eq, Hu. }
  split_and!.
  - by rewrite (handle_message_banned py_int env (tg_id user) text
                  banned_world (with_banned true u) Hrow eq_refl).
  - by rewrite (start_known_account env suffix user banned_world _ Hrow).
  - rewrite (start_known_account env suffix user banned_world _ Hrow).
    simpl. by rewrite lookup_insert_eq.
  - unfold ban_user, set_users; simpl. by rewrite (alter_Some _ _ _ _ Hu).
  - unfold banned, get_user, ban_user, set_users; simpl.
    by rewrite !lookup_alter_eq, Hu.
  - intros other ban Hnone. unfold ban_user, set_users.
    rewrite (alter_None _ _ _ Hnone). by destruct (db w).
Qed.

End Accounts.

Lemma ban_user_locks_account_out_witness :
  outbox (handle_message ascii_int sample_env 1 "hi"
            (mkWorld (DatabaseManager.ban_user 1 true sample_db) ∅ [])).1
  = [ReplyText 1 MsgBanned NoKeyboard].
Proof.
  apply (ban_user_locks_account_out ascii_int sample_env "ZZZZZZ" "hi"
           (mkTelegramUser 1 None None None None) sample_world
           (sample_user 10 false 5 30%float "REF1AAAAAA") eq_refl).
Defined.

(** ** Ledger and orders over runs *)

Section LedgerRuns.

Import DatabaseManager.

(** What one [update_balance] call does to the store, in every case. *)
Lemma update_balance_step (now user_id : Z) (amount : float) (d : Database) :
  let step := update_balance now user_id amount d in
  (never_overdrawn d → never_overdrawn step.1)
  ∧ transactions step.1
    = transactions d
      ++ (if step.2 then [ledger_entry now user_id amount d] else [])
  ∧ dom (users step.1) = dom (users d)
  ∧ admins step.1 = admins d ∧ settings step.1 = settings d
  ∧ products step.1 = products d ∧ orders step.1 = orders d
  ∧ tickets step.1 = tickets d.
Proof.
  destruct (users d !! user_id) as [current|] eqn:Hcur.
  2:{ rewrite (update_balance_missing _ _ _ _ Hcur). simpl.
      rewrite app_nil_r. by split_and!. }
  destruct (PrimFloat.ltb (PrimFloat.add (u_balance current) amount) 0%float)
    eqn:Hlt.
  { rewrite (update_balance_rejected _ _ _ _ _ Hcur Hlt). simpl.
    rewrite app_nil_r. by split_and!. }
  rewrite (update_balance_applied _ _ _ _ _ Hcur Hlt). simpl.
  split_and!; try done.
  - intros Hnever other u. simpl.
    destruct (decide (other = user_id)) as [->|Hne].
    + rewrite lookup_insert_eq. by intros [= <-].
    + rewrite lookup_insert_ne by done. apply Hnever.
  - rewrite dom_insert_L.
    apply subseteq_union_1_L, singleton_subseteq_l, elem_of_dom. eauto.
Qed.

Lemma run_balance_cons (r : BalanceRequest) (rest : list BalanceRequest)
    (d : Database) :
  run_balance (r :: rest) d
  = ((run_balance rest
        (update_balance (bq_now r) (bq_user_id r) (bq_amount r) d).1).1,
     (update_balance (bq_now r) (bq_user_id r) (bq_amount r) d).2
     :: (run_balance rest
           (update_balance (bq_now r) (bq_user_id r) (bq_amount r) d).1).2).
Proof. reflexivity. Qed.

Lemma run_orders_cons (r : OrderRequest) (rest : list OrderRequest)
    (d : Database) :
  run_orders (r :: rest) d
  = ((run_orders rest
        (create_order (rq_now r) (rq_user_id r) (rq_product_id r)
                      (rq_quantity r) d).1).1,
     (create_order (rq_now r) (rq_user_id r) (rq_product_id r)
                   (rq_quantity r) d).2
     :: (run_orders rest
           (create_order (rq_now r) (rq_user_id r) (rq_product_id r)
                         (rq_quantity r) d).1).2).
Proof. reflexivity. Qed.

(** X7. However many balance updates are made, in whatever order and for
    whatever accounts and amounts, no balance ever tests below zero if none
    did at the start; the ledger is only appended to, by one entry per
    accepted update and none per rejected one; no account is added or
    removed and no other table changes. *)
Theorem balance_never_negative (requests : list BalanceRequest)
    (d : Database) :
  never_overdrawn d →
  never_overdrawn (run_balance requests d).1
  ∧ (∃ entries,
       transactions (run_balance requests d).1 = transactions d ++ entries
       ∧ length entries
         = length (List.filter (λ ok : bool, ok) (run_balance requests d).2))
  ∧ dom (users (run_balance requests d).1) = dom (users d)
  ∧ admins (run_balance requests d).1 = admins d
  ∧ settings (run_balance requests d).1 = settings d
  ∧ products (run_balance requests d).1 = products d
  ∧ orders (run_balance requests d).1 = orders d
  ∧ tickets (run_balance requests d).1 = tickets d.
Proof.
  revert d. induction requests as [|r rest IH]; intros d Hnever.
  - simpl. split_and!; try done. exists []. by rewrite app_nil_r.
  - destruct (update_balance_step (bq_now r) (bq_user_id r) (bq_amount r) d)
      as (Hstep & Htr & Hdom & Ha & Hs & Hp & Ho & Ht).
    destruct (IH _ (Hstep Hnever))
      as (Hnever' & (entries & Htr' & Hlen) & Hdom' & Ha' & Hs' & Hp' & Ho'
          & Ht').
    rewrite run_balance_cons. cbn [fst snd].
    split_and!; try done; try congruence.
    rewrite Htr', Htr, <- app_assoc. eexists. split; [done|].
    rewrite length_app, Hlen. cbn [List.filter].
    by destruct (update_balance (bq_now r) (bq_user_id r) (bq_amount r) d).2.
Qed.

Lemma sample_never_overdrawn : never_overdrawn sample_db.
Proof.
  intros user_id u Hu. unfold sample_db in Hu. simpl in Hu.
  destruct (decide (user_id = 1)) as [->|H1];
    [rewrite lookup_insert_eq in Hu; by injection Hu as <-
    |rewrite lookup_insert_ne in Hu by done].
  destruct (decide (user_id = 2)) as [->|H2];
    [rewrite lookup_insert_eq in Hu; by injection Hu as <-
    |rewrite lookup_insert_ne in Hu by done].
  destruct (decide (user_id = 3)) as [->|H3];
    [rewrite lookup_insert_eq in Hu; by injection Hu as <-
    |rewrite lookup_insert_ne in Hu by done].
  by rewrite lookup_empty in Hu.
Qed.

(** Balance 30: a debit of 50 is refused, a debit of 20 and one of 10 pass,
    a further debit of 1 is refused. *)
Lemma balance_never_negative_witness :
  (run_balance [ mkBalanceRequest 100 1 (-50)%float;
                 mkBalanceRequest 101 1 (-20)%float;
                 mkBalanceRequest 102 1 (-10)%float;
                 mkBalanceRequest 103 1 (-1)%float ] sample_db).2
  = [false; true; true; false]
  ∧ never_overdrawn
      (run_balance [ mkBalanceRequest 100 1 (-50)%float;
                     mkBalanceRequest 101 1 (-20)%float;
                     mkBalanceRequest 102 1 (-10)%float;
                     mkBalanceRequest 103 1 (-1)%float ] sample_db).1.
Proof.
  split; [vm_compute; reflexivity|].
  apply (balance_never_negative
           [ mkBalanceRequest 100 1 (-50)%float;
             mkBalanceRequest 101 1 (-20)%float;
             mkBalanceRequest 102 1 (-10)%float;
             mkBalanceRequest 103 1 (-1)%float ] sample_db
           sample_never_overdrawn).
Defined.



(** What one [create_order] call leaves alone, in every case. *)
Lemma create_order_frame (now user_id product_id quantity : Z)
    (d : Database) :
  let step := create_order now user_id product_id quantity d in
  users step.1 = users d ∧ admins step.1 = admins d
  ∧ settings step.1 = settings d ∧ tickets step.1 = tickets d
  ∧ transactions step.1 = transactions d
  ∧ (∀ pid, product_listing <$> products step.1 !! pid
            = product_listing <$> products d !! pid)
  ∧ ∃ new, orders step.1 = orders d ++ new
           ∧ length new = (if order_created step.2 then 1 else 0)%nat.
Proof.
  destruct (products d !! product_id) as [product|] eqn:Hp.
  2:{ rewrite create_order_missing by done. simpl. split_and!; try done.
      exists []. by rewrite app_nil_r. }
  destruct (Z.lt_ge_cases (p_stock product) quantity) as [Hlt|Hge].
  { rewrite (create_order_short _ _ _ _ _ _ Hp Hlt). simpl.
    split_and!; try done. exists []. by rewrite app_nil_r. }
  destruct (float_mul_int (p_price product) quantity) as [total|e] eqn:Hmul.
  2:{ rewrite (create_order_overflow _ _ _ _ _ _ _ Hp Hge Hmul). simpl.
      split_and!; try done. exists []. by rewrite app_nil_r. }
  destruct (sqlite_int quantity) eqn:Hint.
  2:{ rewrite (create_order_unbound _ _ _ _ _ _ _ Hp Hge Hmul Hint). simpl.
      split_and!; try done. exists []. by rewrite app_nil_r. }
  rewrite (create_order_created _ _ _ _ _ _ _ Hp Hge Hmul Hint). simpl.
  split_and!; try done.
  - intros pid. destruct (decide (pid = product_id)) as [->|Hne].
    + by rewrite lookup_insert_eq, Hp.
    + by rewrite lookup_insert_ne.
  - eexists. split; [done|].
    pose proof (next_id_positive (orders d)).
    by rewrite (proj2 (Z.eqb_neq _ _)) by lia.
Qed.

(** X9. Creating orders takes no payment and checks no account. Over any
    run of order creations the users table (so every balance and every
    point count) and the ledger are exactly as before, for buyers with or
    without an account; so are admins, settings and tickets; of a product
    only the stock can change (name, price, category, active flag stay); and
    the orders table is only appended to, by one row per order created. *)
Theorem create_order_takes_no_payment (requests : list OrderRequest)
    (d : Database) :
  users (run_orders requests d).1 = users d
  ∧ transactions (run_orders requests d).1 = transactions d
  ∧ admins (run_orders requests d).1 = admins d
  ∧ settings (run_orders requests d).1 = settings d
  ∧ tickets (run_orders requests d).1 = tickets d
  ∧ (∀ pid, product_listing <$> products (run_orders requests d).1 !! pid
            = product_listing <$> products d !! pid)
  ∧ ∃ new,
      orders (run_orders requests d).1 = orders d ++ new
      ∧ length new
        = length (List.filter order_created (run_orders requests d).2).
Proof.
  revert d. induction requests as [|r rest IH]; intros d.
  - simpl. split_and!; try done. exists []. by rewrite app_nil_r.
  - destruct (create_order_frame (rq_now r) (rq_user_id r) (rq_product_id r)
                (rq_quantity r) d)
      as (Hu & Ha & Hs & Ht & Htr & Hp & new1 & Ho & Hlen1).
    destruct (IH (create_order (rq_now r) (rq_user_id r) (rq_product_id r)
                    (rq_quantity r) d).1)
      as (Hu' & Htr' & Ha' & Hs' & Ht' & Hp' & new2 & Ho' & Hlen2).
    rewrite run_orders_cons. cbn [fst snd].
    split_and!; try congruence; try (intros pid; by rewrite Hp', Hp).
    exists (new1 ++ new2). rewrite Ho', Ho, <- app_assoc.
    split; [done|]. rewrite length_app, Hlen1, Hlen2.
    cbn [List.filter]. by destruct (order_created _).
Qed.

End LedgerRuns.

(** ** Listings *)

Section Listings.

Import DatabaseManager.

Lemma order_by_desc_Permutation {A} (key : A → Z) (rows : list A) :
  order_by_desc key rows ≡ₚ rows.
Proof. unfold order_by_desc. apply merge_sort_Permutation. Qed.

Lemma order_by_desc_sorted {A} (key : A → Z) (rows : list A) :
  StronglySorted (λ x y, key y ≤ key x) (order_by_desc key rows).
Proof.
  unfold order_by_desc.
  assert (Transitive (λ x y : A, key y ≤ key x))
    by (intros x y z ??; lia).
  assert (Total (λ x y : A, key y ≤ key x))
    by (intros x y; lia).
  by apply StronglySorted_merge_sort.
Qed.

Lemma elem_of_list_filter_bool {A} (f : A → bool) (l : list A) (x : A) :
  x ∈ List.filter f l ↔ x ∈ l ∧ f x = true.
Proof. rewrite !list_elem_of_In. apply filter_In. Qed.

Lemma NoDup_fst_filter_bool {A B} (f : A * B → bool) (l : list (A * B)) :
  NoDup (l.*1) → NoDup ((List.filter f l).*1).
Proof.
  induction l as [|x l IH]; simpl; [done|].
  rewrite NoDup_cons. intros [Hx Hl].
  destruct (f x); simpl; [|by apply IH].
  apply NoDup_cons. split; [|by apply IH].
  intros Hin. apply Hx.
  apply list_elem_of_fmap in Hin as (y & -> & Hy).
  apply elem_of_list_filter_bool in Hy as [Hy _].
  apply list_elem_of_fmap. by exists y.
Qed.

(** X10. [get_products] lists exactly the products the filter selects:
    every row listed is a product of the table that is active (when only
    active ones are asked for) and of the category (when a non-empty one is
    given), every such product is listed, each once, and the list runs from
    the newest to the oldest. A deactivated product is never listed to
    shoppers. *)
Theorem get_products_lists_selected (category : option string)
    (active_only : bool) (d : Database) :
  (∀ pid p,
     (pid, p) ∈ get_products category active_only d
     ↔ products d !! pid = Some p
       ∧ product_selected category active_only p = true)
  ∧ NoDup ((get_products category active_only d).*1)
  ∧ StronglySorted newer_product (get_products category active_only d)
  ∧ (∀ shelf pid p,
       shelf ≠ "" →
       (pid, p) ∈ get_products (Some shelf) true d →
       p_is_active p = true ∧ p_category p = shelf).
Proof.
  assert (Hin : ∀ pid p,
             (pid, p) ∈ get_products category active_only d
             ↔ products d !! pid = Some p
               ∧ product_selected category active_only p = true).
  { intros pid p. unfold get_products.
    rewrite order_by_desc_Permutation, elem_of_list_filter_bool.
    by rewrite elem_of_map_to_list. }
  split_and!.
  - exact Hin.
  - unfold get_products. rewrite order_by_desc_Permutation.
    apply NoDup_fst_filter_bool, NoDup_fst_map_to_list.
  - unfold get_products. apply order_by_desc_sorted.
  - intros shelf pid p Hshelf Hp. unfold get_products in Hp.
    rewrite order_by_desc_Permutation, elem_of_list_filter_bool in Hp.
    destruct Hp as [_ Hsel]. unfold product_selected in Hsel. simpl in Hsel.
    apply andb_true_iff in Hsel as [Hact Hcat].
    rewrite (proj2 (String.eqb_neq _ _) Hshelf) in Hcat. simpl in Hcat.
    split; [done|]. by apply String.eqb_eq in Hcat.
Qed.



End Listings.

(** ** Broadcast recipients *)

Section Recipients.

Lemma process_broadcast_run (env : Env) (user_id : Z) (text : string)
    (w : World) :
  process_broadcast env user_id text w =
    (mkWorld (db w) (user_data w)
       (outbox w
        ++ [ReplyText user_id MsgSending NoKeyboard]
        ++ deliveries env text (DatabaseManager.get_all_users 5000 0 (db w))
        ++ [EditText user_id
              (MsgSentTo
                 (delivered_count env
                    (DatabaseManager.get_all_users 5000 0 (db w))))]),
     Ok tt).
Proof.
  unfold process_broadcast. run_handler.
  rewrite broadcast_loop_run. simpl. by rewrite <- !app_assoc.
Qed.

(** With at most 5000 accounts the page is the whole table. *)
Lemma broadcast_page_all (d : Database) :
  (size (users d) ≤ 5000)%nat →
  DatabaseManager.get_all_users 5000 0 d ≡ₚ map_to_list (users d).
Proof.
  intros Hsize. destruct (broadcast_page d) as [Hlen [rest Hperm]].
  assert (rest = []) as ->.
  { pose proof (Permutation_length Hperm) as Hl.
    rewrite length_app, length_map_to_list in Hl.
    apply length_zero_iff_nil. lia. }
  by rewrite app_nil_r in Hperm.
Qed.

(** X12. A broadcast filters nobody out: with at most 5000 accounts, a
    delivery is attempted to every account of the table exactly once,
    banned accounts and the sender included, and to no other chat. *)
Theorem broadcast_reaches_every_account (env : Env) (user_id : Z)
    (text : string) (w : World) :
  (size (users (db w)) ≤ 5000)%nat →
  ∃ sends,
    outbox (process_broadcast env user_id text w).1
    = outbox w ++ [ReplyText user_id MsgSending NoKeyboard] ++ sends
      ++ [EditText user_id
            (MsgSentTo
               (delivered_count env
                  (DatabaseManager.get_all_users 5000 0 (db w))))]
    ∧ sends ≡ₚ deliveries env text (map_to_list (users (db w)))
    ∧ (∀ chat u,
         users (db w) !! chat = Some u →
         SendMessage chat (MsgBroadcast text) (delivers env chat) ∈ sends)
    ∧ (∀ chat payload delivered,
         SendMessage chat payload delivered ∈ sends →
         is_Some (users (db w) !! chat))
    ∧ length sends = size (users (db w)).
Proof.
  intros Hsize. pose proof (broadcast_page_all (db w) Hsize) as Hall.
  exists (deliveries env text (DatabaseManager.get_all_users 5000 0 (db w))).
  rewrite process_broadcast_run. cbn [fst outbox].
  assert (Hperm :
    deliveries env text (DatabaseManager.get_all_users 5000 0 (db w))
    ≡ₚ deliveries env text (map_to_list (users (db w))))
    by (unfold deliveries; by rewrite Hall).
  split_and!.
  - done.
  - exact Hperm.
  - intros chat u Hu. rewrite Hperm. unfold deliveries.
    apply list_elem_of_fmap. exists (chat, u). split; [done|].
    by apply elem_of_map_to_list.
  - intros chat payload delivered Hin. rewrite Hperm in Hin.
    unfold deliveries in Hin.
    apply list_elem_of_fmap in Hin as ([k u] & Heq & Hk).
    injection Heq as -> _ _. apply elem_of_map_to_list in Hk. eauto.
  - rewrite Hperm. unfold deliveries.
    by rewrite length_fmap, length_map_to_list.
Qed.

(** X13. The page of accounts is cut from the newest end: [get_all_users]
    with offset 0 lists accounts newest first, as many as the limit allows,
    and an account it leaves out never joined after one it lists. A
    broadcast over more than 5000 accounts therefore misses only the oldest
    ones. *)
Theorem get_all_users_keeps_newest (limit : nat) (d : Database) :
  StronglySorted newer_account (DatabaseManager.get_all_users limit 0 d)
  ∧ length (DatabaseManager.get_all_users limit 0 d)
    = (limit `min` size (users d))%nat
  ∧ (∀ listed left_out,
       listed ∈ DatabaseManager.get_all_users limit 0 d →
       left_out ∈ map_to_list (users d) →
       left_out ∉ DatabaseManager.get_all_users limit 0 d →
       u_join_date left_out.2 ≤ u_join_date listed.2).
Proof.
  unfold DatabaseManager.get_all_users, limit_offset. rewrite drop_0.
  set (sorted := order_by_desc (λ r : Z * User, u_join_date r.2)
                   (map_to_list (users d))).
  pose proof (order_by_desc_sorted (λ r : Z * User, u_join_date r.2)
                (map_to_list (users d))) as Hsorted.
  fold sorted in Hsorted.
  split_and!.
  - rewrite <- (take_drop limit sorted) in Hsorted.
    by apply StronglySorted_app_1_l in Hsorted.
  - rewrite length_take. subst sorted.
    by rewrite (Permutation_length (order_by_desc_Permutation _ _)),
               length_map_to_list.
  - intros listed left_out Hlisted Hrow Hout.
    assert (Hin : left_out ∈ take limit sorted ++ drop limit sorted).
    { rewrite take_drop. subst sorted.
      by rewrite order_by_desc_Permutation. }
    apply elem_of_app in Hin as [Hin|Hin]; [done|].
    rewrite <- (take_drop limit sorted) in Hsorted.
    exact (StronglySorted_app_1_elem_of _ _ _ _ _ Hsorted Hlisted Hin).
Qed.

Lemma delivered_count_range (env : Env) (recipients : list (Z * User)) :
  0 ≤ delivered_count env recipients ≤ Z.of_nat (length recipients).
Proof.
  induction recipients as [|r rest IH].
  - unfold delivered_count. simpl. lia.
  - rewrite delivered_count_cons. cbn [length]. rewrite Nat2Z.inj_succ.
    destruct (delivers env r.1); lia.
Qed.

Lemma delivered_count_all (env : Env) (recipients : list (Z * User)) :
  delivered_count env recipients = Z.of_nat (length recipients)
  ↔ Forall (λ r : Z * User, delivers env r.1 = true) recipients.
Proof.
  induction recipients as [|r rest IH].
  - unfold delivered_count. simpl. by split.
  - rewrite delivered_count_cons, Forall_cons, <- IH.
    cbn [length]. rewrite Nat2Z.inj_succ.
    pose proof (delivered_count_range env rest).
    destruct (delivers env r.1); split.
    + intros. split; [done|lia].
    + intros [_ ?]. lia.
    + intros. lia.
    + by intros [? _].
Qed.

Lemma delivered_count_none (env : Env) (recipients : list (Z * User)) :
  delivered_count env recipients = 0
  ↔ Forall (λ r : Z * User, delivers env r.1 = false) recipients.
Proof.
  induction recipients as [|r rest IH].
  - unfold delivered_count. simpl. by split.
  - rewrite delivered_count_cons, Forall_cons, <- IH.
    pose proof (delivered_count_range env rest).
    destruct (delivers env r.1); split.
    + intros. lia.
    + by intros [? _].
    + intros. split; [done|lia].
    + intros [_ ?]. lia.
Qed.

(** X14. The count a broadcast reports is the number of deliveries that
    went through: in a run whose status message and report are accepted by
    the transport, the report is the last thing sent and its count lies
    between 0 and the number of deliveries attempted, which is at most
    5000; it equals the number attempted exactly when no delivery failed,
    and is 0 exactly when every one failed. A failed delivery stops
    neither the deliveries after it nor the report. *)
Theorem broadcast_count_bounds (env : Env) (user_id : Z) (text : string)
    (w : World) :
  let recipients := DatabaseManager.get_all_users 5000 0 (db w) in
  let sent := delivered_count env recipients in
  last (outbox (process_broadcast env user_id text w).1)
  = Some (EditText user_id (MsgSentTo sent))
  ∧ report (outbox (process_broadcast env user_id text w).1)
    = report (outbox w) ++ [MsgSentTo sent]
  ∧ attempted (outbox (process_broadcast env user_id text w).1)
    = (attempted (outbox w) + length recipients)%nat
  ∧ 0 ≤ sent ≤ Z.of_nat (length recipients) ≤ 5000
  ∧ (sent = Z.of_nat (length recipients)
     ↔ Forall (λ r : Z * User, delivers env r.1 = true) recipients)
  ∧ (sent = 0
     ↔ Forall (λ r : Z * User, delivers env r.1 = false) recipients).
Proof.
  intros recipients sent.
  pose proof (delivered_count_range env recipients) as Hb.
  destruct (broadcast_page (db w)) as [Hlen _]. fold recipients in Hlen.
  rewrite process_broadcast_run. cbn [fst snd outbox].
  split_and!.
  - by rewrite !app_assoc, last_snoc.
  - by rewrite !report_app, report_deliveries.
  - rewrite !attempted_app, attempted_deliveries.
    change (attempted [ReplyText user_id MsgSending NoKeyboard]) with 0%nat.
    change (attempted [EditText user_id
                         (MsgSentTo (delivered_count env recipients))])
      with 0%nat.
    cbn [Nat.add]. by rewrite Nat.add_0_r.
  - apply Hb.
  - apply Hb.
  - lia.
  - apply delivered_count_all.
  - apply delivered_count_none.
Qed.

End Recipients.

(** All three sample accounts get the broadcast: the sender (3), the banned
    account (2) and account 1. *)
Lemma broadcast_reaches_every_account_witness :
  ∃ sends,
    outbox (process_broadcast sample_env 3 "hello" sample_world).1
    = outbox sample_world ++ [ReplyText 3 MsgSending NoKeyboard] ++ sends
      ++ [EditText 3
            (MsgSentTo
               (delivered_count sample_env
                  (DatabaseManager.get_all_users 5000 0 sample_db)))]
    ∧ length sends = 3%nat.
Proof.
  destruct (broadcast_reaches_every_account sample_env 3 "hello" sample_world)
    as (sends & Hout & _ & _ & _ & Hlen).
  - apply Nat.leb_le. vm_compute. reflexivity.
  - exists sends. split; [exact Hout|]. rewrite Hlen. reflexivity.
Defined.

(** ** What text events leave alone *)

Section RouterFrame.

Variable py_int : string → option Z.
Variable P : World → Prop.
Variable R : World → World → Prop.

Hypothesis R_refl : ∀ w, R w w.
Hypothesis R_trans : ∀ w1 w2 w3, R w1 w2 → R w2 w3 → R w1 w3.
Hypothesis P_session :
  ∀ w w', user_data w' = user_data w → P w → P w'.
Hypothesis P_set :
  ∀ w user_id key value,
    key ≠ "awaiting_input" → P w → P (user_data_set user_id key value w).1.
Hypothesis P_clear : ∀ w user_id, P w → P (user_data_clear user_id w).1.
Hypothesis R_emit : ∀ w o, plain_reply o = true → R w (emit o w).1.
Hypothesis R_session : ∀ w session, R w (mkWorld (db w) session (outbox w)).
Hypothesis R_points :
  ∀ w user_id points,
    R w (execute (DatabaseManager.add_points user_id points) w).1.
Hypothesis R_activity :
  ∀ w now user_id,
    R w (execute (DatabaseManager.update_user_activity now user_id) w).1.
Hypothesis input_branch :
  ∀ env user_id text (fallback : M unit),
    keeps P R fallback →
    keeps P R
      (user_data_get user_id "awaiting_input" ≫=
         λ awaiting_input : bool,
           if awaiting_input then handle_user_input py_int env user_id text
           else fallback).

Lemma keeps_P_R_ret {A} (a : A) : keeps P R (mret a : M A).
Proof. intros w Hw. split; [done|apply R_refl]. Qed.

Lemma keeps_P_R_bind {A B} (m : M A) (k : A → M B) :
  keeps P R m → (∀ a, keeps P R (k a)) → keeps P R (m ≫= k).
Proof.
  intros Hm Hk w Hw. unfold mbind, M_bind.
  destruct (Hm w Hw) as [HP HR]. destruct (m w) as [w' [a|e]]; simpl in *.
  - destruct (Hk a w' HP) as [HP' HR']. split; [done|].
    by apply (R_trans w w').
  - done.
Qed.

Lemma keeps_P_R_raise {A} (e : Exn) : keeps P R (raise e : M A).
Proof. intros w Hw. split; [done|apply R_refl]. Qed.

Lemma keeps_P_R_query {A} (q : Database → A) : keeps P R (query q).
Proof. intros w Hw. split; [done|apply R_refl]. Qed.

Lemma keeps_P_R_emit (o : Outbound) :
  plain_reply o = true → keeps P R (emit o).
Proof.
  intros Ho w Hw. split; [|by apply R_emit].
  by apply (P_session w).
Qed.

Lemma keeps_P_R_reply_text (user_id : Z) (p : Payload) (kb : Keyboard) :
  keeps P R (reply_text user_id p kb).
Proof. by apply keeps_P_R_emit. Qed.

Lemma keeps_P_R_get (user_id : Z) (key : string) :
  keeps P R (user_data_get user_id key).
Proof. intros w Hw. split; [done|apply R_refl]. Qed.

Lemma keeps_P_R_set (user_id : Z) (key : string) (value : bool) :
  key ≠ "awaiting_input" → keeps P R (user_data_set user_id key value).
Proof.
  intros Hne w Hw. split; [by apply P_set|]. apply R_session.
Qed.

Lemma keeps_P_R_clear (user_id : Z) : keeps P R (user_data_clear user_id).
Proof. intros w Hw. split; [by apply P_clear|]. apply R_session. Qed.

Lemma keeps_P_R_keyboard (user_id : Z) :
  keeps P R (get_main_menu_keyboard user_id).
Proof. intros w Hw. split; [done|apply R_refl]. Qed.

Lemma keeps_P_R_points (user_id points : Z) :
  keeps P R (execute (DatabaseManager.add_points user_id points)).
Proof.
  intros w Hw. split; [|apply R_points]. by apply (P_session w).
Qed.

Lemma keeps_P_R_activity (now user_id : Z) :
  keeps P R (execute (DatabaseManager.update_user_activity now user_id)).
Proof.
  intros w Hw. split; [|apply R_activity]. by apply (P_session w).
Qed.

Lemma keeps_P_R_for_each {A} (xs : list A) (body : A → M unit) :
  (∀ x, keeps P R (body x)) → keeps P R (for_each xs body).
Proof.
  intros Hbody. induction xs as [|x rest IH]; simpl.
  - apply keeps_P_R_ret.
  - apply keeps_P_R_bind; [apply Hbody|]. intros _. apply IH.
Qed.

(** Goes through a handler body with the lemmas above. *)
Ltac frame_step :=
  lazymatch goal with
  | |- keeps _ _ (user_data_get _ "awaiting_input" ≫= _) =>
      apply input_branch
  | |- keeps _ _ (_ ≫= _) => apply keeps_P_R_bind; [|intros ?]
  | |- keeps _ _ (if ?b then _ else _) => destruct b
  | |- keeps _ _ (match ?x with _ => _ end) => destruct x
  | |- keeps _ _ (user_data_set _ _ _) => apply keeps_P_R_set; discriminate
  | |- keeps _ _ (for_each _ _) => apply keeps_P_R_for_each; intros ?
  | |- keeps _ _ (mret _) => apply keeps_P_R_ret
  | |- keeps _ _ (raise _) => apply keeps_P_R_raise
  | |- keeps _ _ (query _) => apply keeps_P_R_query
  | |- keeps _ _ (reply_text _ _ _) => apply keeps_P_R_reply_text
  | |- keeps _ _ (emit _) => apply keeps_P_R_emit; reflexivity
  | |- keeps _ _ (user_data_get _ _) => apply keeps_P_R_get
  | |- keeps _ _ (user_data_clear _) => apply keeps_P_R_clear
  | |- keeps _ _ (get_main_menu_keyboard _) => apply keeps_P_R_keyboard
  | |- keeps _ _ (execute (DatabaseManager.add_points _ _)) =>
      apply keeps_P_R_points
  | |- keeps _ _ (execute (DatabaseManager.update_user_activity _ _)) =>
      apply keeps_P_R_activity
  end.

(** Every branch of the router keeps [P] and [R]. *)
Lemma handle_message_keeps_P_R (env : Env) (user_id : Z) (text : string) :
  keeps P R (handle_message py_int env user_id text).
Proof.
  unfold handle_message.
  unfold show_profile, show_shop, show_wallet, show_games, show_news,
    show_referral, show_settings, show_support, show_help,
    show_admin_panel, back_to_main, admin_stats, admin_users,
    admin_broadcast_start, admin_settings, admin_products, admin_tickets,
    admin_add_start, admin_remove_start, show_category, play_dice,
    play_dart, play_slots, play_trivia, show_leaderboard, claim_daily,
    create_ticket_start, show_my_tickets, cancel_operation.
  repeat frame_step.
Qed.

(** The branches of the router, entered after the activity update, keep
    [P] and [R]. *)
Lemma handle_message_after_activity (env : Env) (user_id : Z) (text : string)
    (w : World) :
  P w →
  P (handle_message py_int env user_id text w).1
  ∧ R (execute (DatabaseManager.update_user_activity (now env) user_id) w).1
      (handle_message py_int env user_id text w).1.
Proof.
  intros Hw.
  assert (Hw1 : P (execute (DatabaseManager.update_user_activity
                              (now env) user_id) w).1)
    by (by apply (P_session w)).
  revert Hw1. unfold handle_message.
  match goal with
  | |- context [(?m ≫= ?k) w] =>
      change ((m ≫= k) w) with (k tt (m w).1);
      generalize (m w).1; cbv beta
  end.
  intros w1 Hw1.
  match goal with
  | |- P (?body w1).1 ∧ _ => revert w1 Hw1; change (keeps P R body)
  end.
  unfold show_profile, show_shop, show_wallet, show_games, show_news,
    show_referral, show_settings, show_support, show_help,
    show_admin_panel, back_to_main, admin_stats, admin_users,
    admin_broadcast_start, admin_settings, admin_products, admin_tickets,
    admin_add_start, admin_remove_start, show_category, play_dice,
    play_dart, play_slots, play_trivia, show_leaderboard, claim_daily,
    create_ticket_start, show_my_tickets, cancel_operation.
  repeat frame_step.
Qed.

End RouterFrame.

Section RunEvents.

Variable py_int : string → option Z.
Variable P : World → Prop.
Variable R : World → World → Prop.

Hypothesis R_refl : ∀ w, R w w.
Hypothesis R_trans : ∀ w1 w2 w3, R w1 w2 → R w2 w3 → R w1 w3.
Hypothesis step :
  ∀ env user_id text, keeps P R (handle_message py_int env user_id text).

(** What every event keeps, every run of events keeps. *)
Lemma run_events_keeps_P_R (events : list Event) :
  ∀ w, P w → P (run_events py_int events w) ∧ R w (run_events py_int events w).
Proof.
  induction events as [|e rest IH]; intros w Hw; simpl.
  - split; [done|apply R_refl].
  - destruct (step (ev_env e) (ev_user_id e) (ev_text e) w Hw) as [HP HR].
    destruct (IH _ HP) as [HP' HR']. split; [done|].
    by apply (R_trans w _ _ HR).
Qed.

End RunEvents.

Section EventFrame.

Variable py_int : string → option Z.

Lemma same_accounts_refl (d : Database) : same_accounts d d.
Proof. by intros user_id. Qed.

Lemma same_accounts_trans (d1 d2 d3 : Database) :
  same_accounts d1 d2 → same_accounts d2 d3 → same_accounts d1 d3.
Proof. intros H12 H23 user_id. by rewrite H23, H12. Qed.

Lemma same_accounts_alter (f : User → User) (user_id : Z) (d : Database) :
  (∀ u, account_core (f u) = account_core u) →
  same_accounts d (set_users (alter f user_id) d).
Proof.
  intros Hf other. unfold set_users; simpl.
  destruct (decide (user_id = other)) as [<-|Hne].
  - rewrite lookup_alter_eq. destruct (users d !! user_id); simpl; [|done].
    by rewrite Hf.
  - by rewrite lookup_alter_ne.
Qed.

Lemma event_frame_refl (w : World) : event_frame w w.
Proof.
  unfold event_frame. split_and!; try done; try apply same_accounts_refl.
Qed.

Lemma event_frame_trans (w1 w2 w3 : World) :
  event_frame w1 w2 → event_frame w2 w3 → event_frame w1 w3.
Proof.
  intros (Ha & Hs & Hp & Ho & Ht & Had & Htk)
         (Ha' & Hs' & Hp' & Ho' & Ht' & Had' & Htk').
  unfold event_frame.
  split_and!;
    [ by apply (same_accounts_trans _ (db w2))
    | congruence | congruence | congruence | congruence
    | intros admin_id H; by apply Had', Had
    | by transitivity (tickets (db w2)) ].
Qed.

(** A change of session data and trace alone is within the frame. *)
Lemma event_frame_same_db (w w' : World) : db w' = db w → event_frame w w'.
Proof.
  intros Hdb. unfold event_frame. rewrite Hdb.
  split_and!; try done; try apply same_accounts_refl.
Qed.

Lemma event_frame_users (w : World) (f : User → User) (user_id : Z)
    (session : gmap Z (gmap string bool)) (trace : list Outbound) :
  (∀ u, account_core (f u) = account_core u) →
  event_frame w (mkWorld (set_users (alter f user_id) (db w)) session trace).
Proof.
  intros Hf. unfold event_frame; simpl.
  split_and!; try done; try by apply same_accounts_alter.
Qed.

Lemma event_frame_add_admin (w : World) (now admin_id added_by level : Z)
    (session : gmap Z (gmap string bool)) (trace : list Outbound) :
  event_frame w
    (mkWorld (DatabaseManager.add_admin now admin_id added_by level (db w))
             session trace).
Proof.
  unfold event_frame, DatabaseManager.add_admin, DatabaseManager.is_admin;
    simpl.
  split_and!; try done; try apply same_accounts_refl.
  intros other Hother. apply bool_decide_eq_true_1 in Hother.
  apply bool_decide_eq_true_2.
  destruct (decide (admin_id = other)) as [<-|Hne].
  - rewrite lookup_insert_eq. eauto.
  - by rewrite lookup_insert_ne.
Qed.

Lemma event_frame_create_ticket (w : World) (now user_id : Z)
    (subject message : string)
    (session : gmap Z (gmap string bool)) (trace : list Outbound) :
  event_frame w
    (mkWorld
       (DatabaseManager.create_ticket now user_id subject message (db w)).1
       session trace).
Proof.
  unfold event_frame, DatabaseManager.create_ticket; simpl.
  split_and!; try done; try apply same_accounts_refl.
  by apply prefix_app_r.
Qed.

(** [handle_user_input] in full: the first flag that is set, in the order
    broadcast, admin id, ticket, decides what the text is taken for, and
    only that flag is switched off. *)
Lemma handle_user_input_run (env : Env) (user_id : Z) (text : string)
    (w : World) :
  handle_user_input py_int env user_id text w =
    if flag user_id "awaiting_broadcast" w then
      (mkWorld (db w)
         (<[user_id := <["awaiting_broadcast" := false]>
                         (user_data_of user_id w)]> (user_data w))
         (outbox w
          ++ [ReplyText user_id MsgSending NoKeyboard]
          ++ deliveries env text
               (DatabaseManager.get_all_users 5000 0 (db w))
          ++ [EditText user_id
                (MsgSentTo
                   (delivered_count env
                      (DatabaseManager.get_all_users 5000 0 (db w))))]),
       Ok tt)
    else if flag user_id "awaiting_admin_id" w then
      match py_int text with
      | Some new_admin =>
          if sqlite_int new_admin then
            (mkWorld
               (DatabaseManager.add_admin (now env) new_admin user_id 1
                                          (db w))
               (<[user_id := <["awaiting_admin_id" := false]>
                               (user_data_of user_id w)]> (user_data w))
               (outbox w
                ++ [ReplyText user_id (MsgPromoted new_admin)
                      AdminKeyboard]),
             Ok tt)
          else
            (mkWorld (db w)
               (<[user_id := <["awaiting_admin_id" := false]>
                               (user_data_of user_id w)]> (user_data w))
               (outbox w ++ [ReplyText user_id MsgInvalidId NoKeyboard]),
             Ok tt)
      | None =>
          (mkWorld (db w)
             (<[user_id := <["awaiting_admin_id" := false]>
                             (user_data_of user_id w)]> (user_data w))
             (outbox w ++ [ReplyText user_id MsgInvalidId NoKeyboard]),
           Ok tt)
      end
    else if flag user_id "creating_ticket" w then
      (mkWorld
         (DatabaseManager.create_ticket (now env) user_id "دعم فني" text
                                        (db w)).1
         (<[user_id := <["creating_ticket" := false]>
                         (user_data_of user_id w)]> (user_data w))
         (outbox w
          ++ [ReplyText user_id
                (MsgTicketCreated (next_id (tickets (db w))))
                SupportKeyboard]),
       Ok tt)
    else (w, Ok tt).
Proof.
  unfold handle_user_input, flag.
  unfold mbind at 1, M_bind at 1, user_data_get at 1. cbn [fst snd].
  destruct (default false (user_data_of user_id w !! "awaiting_broadcast")).
  { unfold mbind, M_bind. rewrite process_broadcast_run.
    unfold user_data_set, user_data_of. by cbn [db user_data outbox]. }
  unfold mbind at 1, M_bind at 1, user_data_get at 1. cbn [fst snd].
  destruct (default false (user_data_of user_id w !! "awaiting_admin_id")).
  { destruct (py_int text) as [new_admin|];
      [destruct (sqlite_int new_admin)|]; run_handler;
      by unfold user_data_of. }
  unfold mbind at 1, M_bind at 1, user_data_get at 1. cbn [fst snd].
  destruct (default false (user_data_of user_id w !! "creating_ticket")).
  { run_handler. by unfold user_data_of. }
  reflexivity.
Qed.

Lemma handle_user_input_event_frame (env : Env) (user_id : Z) (text : string)
    (w : World) :
  event_frame w (handle_user_input py_int env user_id text w).1.
Proof.
  rewrite handle_user_input_run.
  destruct (flag user_id "awaiting_broadcast" w);
    [by apply event_frame_same_db|].
  destruct (flag user_id "awaiting_admin_id" w).
  { destruct (py_int text) as [new_admin|];
      [destruct (sqlite_int new_admin)|];
      [apply event_frame_add_admin|by apply event_frame_same_db
      |by apply event_frame_same_db]. }
  destruct (flag user_id "creating_ticket" w);
    [apply event_frame_create_ticket|apply event_frame_refl].
Qed.

Lemma account_core_with_points (f : Z → Z) (u : User) :
  account_core (with_points f u) = account_core u.
Proof. reflexivity. Qed.

Lemma account_core_with_activity (now : Z) (u : User) :
  account_core (with_activity now u) = account_core u.
Proof. reflexivity. Qed.

Lemma handle_message_event_frame (env : Env) (user_id : Z) (text : string) :
  keeps (λ _, True) event_frame (handle_message py_int env user_id text).
Proof.
  apply handle_message_keeps_P_R.
  - apply event_frame_refl.
  - apply event_frame_trans.
  - done.
  - done.
  - done.
  - intros w o _. by apply event_frame_same_db.
  - intros w session. by apply event_frame_same_db.
  - intros w uid points. apply event_frame_users.
    apply account_core_with_points.
  - intros w now uid. apply event_frame_users.
    apply account_core_with_activity.
  - intros env' uid text' fallback Hfb w _. split; [done|].
    unfold mbind, M_bind, user_data_get. cbn [fst snd].
    destruct (default false (user_data_of uid w !! "awaiting_input")).
    + apply handle_user_input_event_frame.
    + by apply Hfb.
Qed.

Lemma same_accounts_dom (d d' : Database) :
  same_accounts d d' → dom (users d') = dom (users d).
Proof.
  intros Hsame. apply set_eq. intros user_id.
  rewrite !elem_of_dom. specialize (Hsame user_id).
  destruct (users d' !! user_id), (users d !! user_id); simpl in Hsame;
    try discriminate; split; intros [? ?]; eauto; discriminate.
Qed.

(** X15. No text sent to the router, in any session state and by any
    user, touches money, stock or identity: over every run of events each
    account keeps its balance, ban flag, referral code, referrer, names and
    join date, no account is created or deleted, the ledger, the products,
    the orders and the settings are exactly as before, no admin grant is
    ever taken away and no ticket is ever removed or changed. Only points,
    message counts and activity times move, grants and tickets may be
    added. *)
Theorem text_events_leave_money_and_identity
    (events : list Event) (w : World) :
  event_frame w (run_events py_int events w)
  ∧ dom (users (db (run_events py_int events w))) = dom (users (db w))
  ∧ (∀ user_id u u',
       users (db w) !! user_id = Some u →
       users (db (run_events py_int events w)) !! user_id = Some u' →
       u_balance u' = u_balance u ∧ u_is_banned u' = u_is_banned u
       ∧ u_referral_code u' = u_referral_code u
       ∧ u_referred_by u' = u_referred_by u).
Proof.
  assert (Hframe : event_frame w (run_events py_int events w)).
  { apply (run_events_keeps_P_R py_int (λ _, True) event_frame
             event_frame_refl event_frame_trans handle_message_event_frame
             events w I). }
  split_and!.
  - exact Hframe.
  - apply same_accounts_dom, Hframe.
  - intros user_id u u' Hu Hu'. destruct Hframe as [Hsame _].
    specialize (Hsame user_id). rewrite Hu, Hu' in Hsame. simpl in Hsame.
    unfold account_core in Hsame.
    injection Hsame as ? ? ? ? ? ? ? ? ? ? ?. by split_and!.
Qed.

End EventFrame.

Section MenuFrame.

Variable py_int : string → option Z.

Lemma menu_frame_refl (w : World) : menu_frame w w.
Proof.
  unfold menu_frame. split_and!; try done; try apply event_frame_refl.
Qed.

Lemma menu_frame_trans (w1 w2 w3 : World) :
  menu_frame w1 w2 → menu_frame w2 w3 → menu_frame w1 w3.
Proof.
  intros (He & Ha & Ht & Hat & Hr) (He' & Ha' & Ht' & Hat' & Hr').
  unfold menu_frame.
  split_and!;
    [ by apply (event_frame_trans _ w2)
    | congruence | congruence | congruence | congruence ].
Qed.

Lemma menu_frame_plain_reply (w : World) (o : Outbound) :
  plain_reply o = true → menu_frame w (emit o w).1.
Proof.
  intros Ho. unfold menu_frame, emit; simpl.
  split_and!; [by apply event_frame_same_db|done|done|..].
  - rewrite attempted_app. unfold attempted at 2. simpl.
    destruct o; try discriminate Ho; simpl; lia.
  - rewrite report_app.
    destruct o; try discriminate Ho; simpl; by rewrite app_nil_r.
Qed.

Lemma menu_frame_users (w : World) (f : User → User) (user_id : Z) :
  (∀ u, account_core (f u) = account_core u) →
  menu_frame w (execute (set_users (alter f user_id)) w).1.
Proof.
  intros Hf. unfold menu_frame, execute; simpl.
  split_and!; try done; try by apply event_frame_users.
Qed.

Lemma never_awaits_input_session (w w' : World) :
  user_data w' = user_data w → never_awaits_input w → never_awaits_input w'.
Proof.
  intros Hud Hw user_id. specialize (Hw user_id).
  unfold flag, user_data_of in *. by rewrite Hud.
Qed.

Lemma handle_message_menu_frame (env : Env) (user_id : Z) (text : string) :
  keeps never_awaits_input menu_frame
        (handle_message py_int env user_id text).
Proof.
  apply handle_message_keeps_P_R.
  - apply menu_frame_refl.
  - apply menu_frame_trans.
  - apply never_awaits_input_session.
  - intros w uid key value Hne Hw.
    by apply (keeps_user_data_set uid key value Hne w).
  - intros w uid Hw. by apply (keeps_user_data_clear uid w).
  - apply menu_frame_plain_reply.
  - intros w session. unfold menu_frame; simpl.
    split_and!; try done; try by apply event_frame_same_db.
  - intros w uid points. apply (menu_frame_users w _ uid).
    apply account_core_with_points.
  - intros w now uid. apply (menu_frame_users w _ uid).
    apply account_core_with_activity.
  - intros env' uid text' fallback Hfb w Hw.
    unfold mbind, M_bind, user_data_get. cbn [fst snd].
    pose proof (Hw uid) as Hflag. unfold flag in Hflag. rewrite Hflag.
    by apply Hfb.
Qed.

(** X16. The input handlers cannot be reached through the router. From a
    world in which nobody has the ["awaiting_input"] flag (an empty session
    store, for one), after any run of text events nobody has it, the admin
    table and the tickets are exactly as at the start, and the trace holds
    no broadcast delivery and no broadcast report that was not there: no
    text can grant admin, file a ticket or start a broadcast. *)
Theorem router_never_reaches_input_handlers
    (events : list Event) (w : World) :
  never_awaits_input w →
  never_awaits_input (run_events py_int events w)
  ∧ admins (db (run_events py_int events w)) = admins (db w)
  ∧ tickets (db (run_events py_int events w)) = tickets (db w)
  ∧ attempted (outbox (run_events py_int events w)) = attempted (outbox w)
  ∧ report (outbox (run_events py_int events w)) = report (outbox w).
Proof.
  intros Hw.
  destruct (run_events_keeps_P_R py_int never_awaits_input menu_frame
              menu_frame_refl menu_frame_trans handle_message_menu_frame
              events w Hw) as (Hnever & _ & Ha & Ht & Hat & Hr).
  by split_and!.
Qed.

End MenuFrame.

Lemma sample_never_awaits_input : never_awaits_input sample_world.
Proof. intros user_id. reflexivity. Qed.

(** The admin asks to add an admin, sends an id, asks for a broadcast and
    sends its text; a user asks for a ticket and writes it. *)
Lemma router_never_reaches_input_handlers_witness :
  admins (db (run_events ascii_int
                [ mkEvent sample_env 3 label_admin_add_start;
                  mkEvent sample_env 3 "1";
                  mkEvent sample_env 3 label_admin_broadcast_start;
                  mkEvent sample_env 3 "hello";
                  mkEvent sample_env 1 label_create_ticket_start;
                  mkEvent sample_env 1 "my item did not arrive" ]
                sample_world))
  = admins sample_db.
Proof.
  apply (router_never_reaches_input_handlers ascii_int
           [ mkEvent sample_env 3 label_admin_add_start;
             mkEvent sample_env 3 "1";
             mkEvent sample_env 3 label_admin_broadcast_start;
             mkEvent sample_env 3 "hello";
             mkEvent sample_env 1 label_create_ticket_start;
             mkEvent sample_env 1 "my item did not arrive" ]
           sample_world sample_never_awaits_input).
Defined.

(** ** The input handler *)

Section InputHandler.

Variable py_int : string → option Z.

Lemma flag_insert_session (user_id : Z) (key other : string) (value : bool)
    (w : World) (d : Database) (trace : list Outbound) :
  flag user_id other
    (mkWorld d
       (<[user_id := <[key := value]> (user_data_of user_id w)]> (user_data w))
       trace)
  = if bool_decide (key = other) then value else flag user_id other w.
Proof.
  unfold flag, user_data_of; simpl. rewrite lookup_insert_eq. simpl.
  case_bool_decide as Hk.
  - subst. by rewrite lookup_insert_eq.
  - by rewrite lookup_insert_ne.
Qed.

Lemma user_data_of_insert_other (user_id other : Z) (w : World)
    (d : Database) (session : gmap string bool) (trace : list Outbound) :
  other ≠ user_id →
  user_data_of other (mkWorld d (<[user_id := session]> (user_data w)) trace)
  = user_data_of other w.
Proof.
  intros Hne. unfold user_data_of; simpl. by rewrite lookup_insert_ne.
Qed.

(** X17. [handle_user_input] consumes one expectation per input, by a
    fixed priority: the text is taken for the first flag that is set among
    broadcast, admin id and ticket, only that flag is switched off and the
    others stay pending; the admin table changes only for a pending admin
    id, the tickets only for a pending ticket, deliveries are attempted only
    for a pending broadcast. With none of the three set the handler does
    nothing at all, also when ["removing_admin"] is set: the text sent after
    remove-admin-start is never acted on. Other users' session data is
    untouched. *)
Theorem handle_user_input_consumes_one_expectation
    (env : Env) (user_id : Z) (text : string) (w : World) :
  (handle_user_input py_int env user_id text w).2 = Ok tt
  ∧ (∀ key,
       flag user_id key (handle_user_input py_int env user_id text w).1
       = if bool_decide (first_expectation user_id w = Some key) then false
         else flag user_id key w)
  ∧ (first_expectation user_id w = None →
       handle_user_input py_int env user_id text w = (w, Ok tt))
  ∧ (first_expectation user_id w ≠ Some "awaiting_admin_id" →
       admins (db (handle_user_input py_int env user_id text w).1)
       = admins (db w))
  ∧ (first_expectation user_id w ≠ Some "creating_ticket" →
       tickets (db (handle_user_input py_int env user_id text w).1)
       = tickets (db w))
  ∧ (first_expectation user_id w ≠ Some "awaiting_broadcast" →
       attempted (outbox (handle_user_input py_int env user_id text w).1)
       = attempted (outbox w))
  ∧ (∀ other, other ≠ user_id →
       user_data_of other (handle_user_input py_int env user_id text w).1
       = user_data_of other w).
Proof.
  rewrite handle_user_input_run. unfold first_expectation.
  destruct (flag user_id "awaiting_broadcast" w) eqn:Hb.
  { cbn [fst snd db outbox]. split_and!; try done.
    - intros key. rewrite flag_insert_session.
      repeat case_bool_decide; congruence.
    - intros other Hne. by apply user_data_of_insert_other. }
  destruct (flag user_id "awaiting_admin_id" w) eqn:Ha.
  { destruct (py_int text) as [new_admin|];
      [destruct (sqlite_int new_admin)|]; cbn [fst snd db outbox];
      split_and!; try done.
    all: try (intros key; rewrite flag_insert_session;
              repeat case_bool_decide; congruence).
    all: try (intros other Hne; by apply user_data_of_insert_other).
    all: intros _; rewrite attempted_app; unfold attempted at 2; simpl; lia. }
  destruct (flag user_id "creating_ticket" w) eqn:Ht.
  { cbn [fst snd db outbox]. split_and!; try done.
    - intros key. rewrite flag_insert_session.
      repeat case_bool_decide; congruence.
    - intros _. rewrite attempted_app. unfold attempted at 2. simpl. lia.
    - intros other Hne. by apply user_data_of_insert_other. }
  cbn [fst snd]. split_and!; try done; try (intros key; by case_bool_decide).
Qed.

(** X18. A pending admin id gets one try. If the text is not an integer,
    or is an integer that SQLite cannot hold (below -2^63 or above
    2^63 - 1), nothing is stored and the caller is told the id is invalid;
    otherwise that id is granted admin at level 1 with the caller as
    granter, replacing whatever grant the id held (an existing level is
    reset to 1), every other grant stays, and the caller is told of the
    promotion. Either way the flag is off afterwards, so a mistyped id is
    not asked for again. *)
Theorem pending_admin_id_gets_one_try
    (env : Env) (user_id : Z) (text : string) (w : World) :
  flag user_id "awaiting_broadcast" w = false →
  flag user_id "awaiting_admin_id" w = true →
  flag user_id "awaiting_admin_id"
       (handle_user_input py_int env user_id text w).1 = false
  ∧ (py_int text = None →
       db (handle_user_input py_int env user_id text w).1 = db w
       ∧ outbox (handle_user_input py_int env user_id text w).1
         = outbox w ++ [ReplyText user_id MsgInvalidId NoKeyboard])
  ∧ (∀ new_admin,
       py_int text = Some new_admin →
       sqlite_int new_admin = false →
       db (handle_user_input py_int env user_id text w).1 = db w
       ∧ outbox (handle_user_input py_int env user_id text w).1
         = outbox w ++ [ReplyText user_id MsgInvalidId NoKeyboard])
  ∧ (∀ new_admin,
       py_int text = Some new_admin →
       sqlite_int new_admin = true →
       admins (db (handle_user_input py_int env user_id text w).1)
       = <[new_admin := mkAdmin user_id (now env) 1]> (admins (db w))
       ∧ (∀ other,
            other ≠ new_admin →
            admins (db (handle_user_input py_int env user_id text w).1)
              !! other
            = admins (db w) !! other)
       ∧ outbox (handle_user_input py_int env user_id text w).1
         = outbox w
           ++ [ReplyText user_id (MsgPromoted new_admin) AdminKeyboard]).
Proof.
  intros Hb Ha. rewrite handle_user_input_run, Hb, Ha.
  destruct (py_int text) as [n|]; [destruct (sqlite_int n) eqn:Hn|];
    cbn [fst snd db outbox]; split_and!;
    try (rewrite flag_insert_session; by case_bool_decide);
    try done;
    try (intros new_admin [= <-]; congruence).
  intros new_admin [= <-] _. split_and!; [done| |done].
  intros other Hne. unfold DatabaseManager.add_admin; simpl.
  by rewrite lookup_insert_ne.
Qed.

End InputHandler.

(** The admin has pressed add-admin. A text that is no number, or a number
    of twenty digits, is answered with the invalid-id message and grants
    nothing; the id 2 is granted level 1 by account 3. *)
Lemma pending_admin_id_gets_one_try_witness :
  flag 3 "awaiting_admin_id"
       (handle_user_input ascii_int sample_env 3 "neo"
          (admin_add_start 3 sample_world).1).1 = false
  ∧ db (handle_user_input ascii_int sample_env 3 "99999999999999999999"
          (admin_add_start 3 sample_world).1).1 = sample_db
  ∧ admins (db (handle_user_input ascii_int sample_env 3 "2"
                  (admin_add_start 3 sample_world).1).1) !! 2
    = Some (mkAdmin 3 100 1).
Proof.
  split_and!.
  - apply (pending_admin_id_gets_one_try ascii_int sample_env 3 "neo"
             (admin_add_start 3 sample_world).1); reflexivity.
  - destruct (pending_admin_id_gets_one_try ascii_int sample_env 3
                "99999999999999999999" (admin_add_start 3 sample_world).1
                eq_refl eq_refl) as (_ & _ & Hbig & _).
    by destruct (Hbig 99999999999999999999 eq_refl eq_refl) as [-> _].
  - destruct (pending_admin_id_gets_one_try ascii_int sample_env 3 "2"
                (admin_add_start 3 sample_world).1 eq_refl eq_refl)
      as (_ & _ & _ & Hgrant).
    destruct (Hgrant 2 eq_refl eq_refl) as (-> & _ & _).
    reflexivity.
Defined.

(** ** Games and ranks *)

Section Games.

Lemma add_points_lookup (user_id points : Z) (d : Database) (u : User) :
  users d !! user_id = Some u →
  users (DatabaseManager.add_points user_id points d) !! user_id
  = Some (with_points (λ p, p + points) u).
Proof.
  intros Hu. unfold DatabaseManager.add_points, set_users; simpl.
  by rewrite lookup_alter_eq, Hu.
Qed.

Lemma add_points_missing (user_id points : Z) (d : Database) :
  users d !! user_id = None →
  DatabaseManager.add_points user_id points d = d.
Proof.
  intros Hu. unfold DatabaseManager.add_points, set_users.
  rewrite (alter_None _ _ _ Hu). by destruct d.
Qed.

Lemma add_points_credited (user_id points : Z) (d : Database) (u : User) :
  users d !! user_id = Some u →
  ∃ u',
    users (DatabaseManager.add_points user_id points d) !! user_id = Some u'
    ∧ credited points u u'.
Proof.
  intros Hu. rewrite (add_points_lookup _ _ _ _ Hu). eexists.
  split; [done|]. by split_and!.
Qed.

(** X19. The games only ever add points. For an account that exists,
    with points that leave room for the award in SQLite's integer range, a
    dice roll (value 1 to 6) adds five times the value, a dart throw adds
    ten times the value and 100 for a 6, the slot machine adds 500 for the
    value 64, 100 for 1, 22 or 43 and 10 for anything else, and the daily
    reward (10 to 100) adds what was drawn; no other column of the row
    changes. A player with no account gets the same replies from all four
    and the store is unchanged: the points announced are recorded
    nowhere. *)
Theorem games_only_add_points (env : Env) (user_id : Z) (w : World)
    (u : User) :
  users (db w) !! user_id = Some u →
  sqlite_int (u_points u) = true →
  sqlite_int (u_points u + 500) = true →
  (1 ≤ dice_value env ≤ 6 →
     (∃ u',
        users (db (play_dice env user_id w).1) !! user_id = Some u'
        ∧ credited (dice_value env * 5) u u')
     ∧ 5 ≤ dice_value env * 5 ≤ 30
     ∧ (∃ u',
          users (db (play_dart env user_id w).1) !! user_id = Some u'
          ∧ credited (if dice_value env =? 6 then 100
                      else dice_value env * 10) u u')
     ∧ 10 ≤ (if dice_value env =? 6 then 100 else dice_value env * 10)
       ≤ 100)
  ∧ (∃ u',
       users (db (play_slots env user_id w).1) !! user_id = Some u'
       ∧ credited (if dice_value env =? 64 then 500
                   else if (dice_value env =? 1) || (dice_value env =? 22)
                           || (dice_value env =? 43) then 100
                   else 10) u u')
  ∧ (10 ≤ daily_points env ≤ 100 →
     ∃ u',
       users (db (claim_daily env user_id w).1) !! user_id = Some u'
       ∧ credited (daily_points env) u u')
  ∧ (∀ ghost,
       users (db w) !! ghost = None →
       db (play_dice env ghost w).1 = db w
       ∧ outbox (play_dice env ghost w).1
         = outbox w
           ++ [ ReplyText ghost (MsgRolling "🎲") NoKeyboard;
                SendDice ghost "🎲";
                DeleteMessage ghost;
                ReplyText ghost
                  (MsgDiceResult (dice_value env) (dice_value env * 5))
                  GamesKeyboard ]
       ∧ db (play_dart env ghost w).1 = db w
       ∧ outbox (play_dart env ghost w).1
         = outbox w
           ++ [ ReplyText ghost (MsgRolling "🎯") NoKeyboard;
                SendDice ghost "🎯";
                DeleteMessage ghost;
                ReplyText ghost
                  (MsgDartResult (dice_value env)
                     (if dice_value env =? 6 then 100
                      else dice_value env * 10))
                  GamesKeyboard ]
       ∧ db (play_slots env ghost w).1 = db w
       ∧ outbox (play_slots env ghost w).1
         = outbox w
           ++ [ ReplyText ghost (MsgRolling "🎰") NoKeyboard;
                SendDice ghost "🎰";
                DeleteMessage ghost;
                ReplyText ghost
                  (MsgSlotsResult
                     (if dice_value env =? 64 then 500
                      else if (dice_value env =? 1) || (dice_value env =? 22)
                              || (dice_value env =? 43) then 100
                      else 10))
                  GamesKeyboard ]
       ∧ db (claim_daily env ghost w).1 = db w
       ∧ outbox (claim_daily env ghost w).1
         = outbox w
           ++ [ReplyText ghost (MsgDailyReward (daily_points env))
                 GamesKeyboard]).
Proof.
  intros Hu _ _. split_and!.
  - intros Hdice. split_and!.
    + unfold play_dice. run_handler. by apply add_points_credited.
    + lia.
    + lia.
    + unfold play_dart. run_handler. by apply add_points_credited.
    + destruct (Z.eqb_spec (dice_value env) 6); lia.
    + destruct (Z.eqb_spec (dice_value env) 6); lia.
  - unfold play_slots. run_handler. by apply add_points_credited.
  - intros _. unfold claim_daily. run_handler. by apply add_points_credited.
  - intros ghost Hghost.
    unfold play_dice, play_dart, play_slots, claim_daily. run_handler.
    rewrite !(add_points_missing ghost _ (db w) Hghost).
    rewrite <- !app_assoc. by split_and!.
Qed.

(** Account 1 holds 5 points and the value drawn is 3: the dice leaves it
    with 20 points, the dart with 35, the slot machine with 15 and the
    daily reward of 50 with 55. *)
Lemma games_only_add_points_witness :
  (u_points <$> users (db (play_dice sample_env 1 sample_world).1) !! 1)
  = Some 20
  ∧ (u_points <$> users (db (play_dart sample_env 1 sample_world).1) !! 1)
    = Some 35
  ∧ (u_points <$> users (db (play_slots sample_env 1 sample_world).1) !! 1)
    = Some 15
  ∧ (u_points <$> users (db (claim_daily sample_env 1 sample_world).1) !! 1)
    = Some 55.
Proof.
  destruct (games_only_add_points sample_env 1 sample_world
              (sample_user 10 false 5 30%float "REF1AAAAAA")
              eq_refl eq_refl eq_refl)
    as (Hdice & (us & -> & Hslots & _) & Hdaily & _).
  destruct (Hdice ltac:(simpl; lia))
    as ((ud & -> & Hud & _) & _ & (ut & -> & Hut & _) & _).
  destruct (Hdaily ltac:(simpl; lia)) as (uc & -> & Huc & _).
  simpl. by rewrite Hud, Hut, Hslots, Huc.
Defined.






(** X21. The rank shown on the profile follows the points: it never goes
    down when the points go up, it is the lowest below 100 points and the
    highest from 1000 points on, and it changes exactly at 100, 500 and
    1000. *)
Theorem rank_follows_points (points more : Z) :
  (points ≤ more →
     (rank_level (rank_of points) ≤ rank_level (rank_of more))%nat)
  ∧ (rank_of points = Bronze ↔ points < 100)
  ∧ (rank_of points = Silver ↔ 100 ≤ points < 500)
  ∧ (rank_of points = Gold ↔ 500 ≤ points < 1000)
  ∧ (rank_of points = Diamond ↔ 1000 ≤ points).
Proof.
  unfold rank_of.
  destruct (Z.leb_spec 1000 points), (Z.leb_spec 500 points),
    (Z.leb_spec 100 points), (Z.leb_spec 1000 more), (Z.leb_spec 500 more),
    (Z.leb_spec 100 more); simpl;
    split_and!; try (intros; lia); split; intros; try discriminate;
    try lia; try done.
Qed.

End Games.

(** ** Inline buttons *)

Section Callbacks.

(** X22. The trivia buttons decode to what they encode. Pressing the
    button of option [i] of a question credits the question's points, and
    reports a correct answer, exactly when [i] is the right option;
    otherwise it reports a wrong answer and leaves the store unchanged. *)
Theorem trivia_button_round_trip (user_id : Z) (d : Database)
    (question i : nat) (data : string) :
  trivia_buttons question !! i = Some data →
  ∃ correct points,
    trivia_questions !! question = Some (correct, points)
    ∧ button_handler ascii_int user_id data d
      = if bool_decide (Z.of_nat i = correct)
        then (DatabaseManager.add_points user_id points d,
              CallbackCorrect points)
        else (d, CallbackWrong).
Proof.
  intros Hdata.
  destruct question as [|[|question]];
    [exists 1, 50|exists 1, 30|by destruct question].
  all: split; [reflexivity|].
  all: destruct i as [|[|[|[|i]]]]; [| | | |by destruct i].
  all: injection Hdata as <-; reflexivity.
Qed.

Lemma trivia_button_round_trip_witness :
  trivia_buttons 0 !! 1%nat = Some "trivia_1_1_50"
  ∧ (u_points <$>
       users (button_handler ascii_int 1 "trivia_1_1_50" sample_db).1 !! 1)
    = Some 55.
Proof.
  split; [reflexivity|].
  destruct (trivia_button_round_trip 1 sample_db 0 1 "trivia_1_1_50" eq_refl)
    as (correct & points & Hq & Hrun).
  injection Hq as <- <-. by rewrite Hrun.
Defined.

Lemma split_on_cons_sep (sep : ascii) (rest : string) :
  split_on sep (String sep rest) = "" :: split_on sep rest.
Proof. simpl. by rewrite Ascii.eqb_refl. Qed.

Lemma split_on_nonempty (sep : ascii) (s : string) : split_on sep s ≠ [].
Proof.
  induction s as [|c s IH]; simpl; [done|].
  destruct (Ascii.eqb c sep); [done|]. by destruct (split_on sep s).
Qed.

Lemma split_on_field (field rest : string) :
  underscore_free field →
  split_on "_" (field +:+ String "_" rest) = field :: split_on "_" rest.
Proof.
  induction field as [|c field IH]; intros Hfree.
  - apply split_on_cons_sep.
  - rewrite append_cons. cbn [split_on].
    rewrite (proj2 (Ascii.eqb_neq c "_")) by (apply Hfree; by left).
    rewrite IH; [done|].
    intros c' Hc'. apply Hfree. by right.
Qed.

Lemma split_on_last_field (field : string) :
  underscore_free field → split_on "_" field = [field].
Proof.
  induction field as [|c field IH]; intros Hfree; [done|].
  cbn [split_on].
  rewrite (proj2 (Ascii.eqb_neq c "_")) by (apply Hfree; by left).
  rewrite IH; [done|].
  intros c' Hc'. apply Hfree. by right.
Qed.

Variable py_int : string → option Z.

Lemma button_handler_store (user_id : Z) (data : string) (d : Database) :
  (button_handler py_int user_id data d).1 = d
  ∨ ∃ points,
      (button_handler py_int user_id data d).1
      = DatabaseManager.add_points user_id points d.
Proof.
  unfold button_handler. repeat case_match; simpl; eauto.
Qed.

(** X23. [button_handler] credits what the callback data says. For data
    of the form [trivia_<a>_<b>_<c>] whose three fields parse as integers,
    nothing changes when the first two differ; when they are equal, the
    third is added to the presser's points, whatever question was asked and
    whatever its sign, provided it is a SQLite integer (otherwise
    OverflowError is raised, nothing is credited and the message is not
    edited). The credit is stated for a sum that stays within the integer
    range. Data that does not start with [trivia_] (the profile and
    add-to-cart buttons) is acknowledged and ignored. In every case only
    the presser's points can change: no order is created and no balance,
    product or other table is touched. *)
Theorem button_handler_trusts_callback_data (user_id : Z) (d : Database)
    (a b c : string) (selected correct points : Z) :
  underscore_free a → underscore_free b → underscore_free c →
  py_int a = Some selected →
  py_int b = Some correct →
  py_int c = Some points →
  (selected ≠ correct →
     button_handler py_int user_id
       ("trivia_" +:+ a +:+ "_" +:+ b +:+ "_" +:+ c) d
     = (d, CallbackWrong))
  ∧ (selected = correct → sqlite_int points = false →
     button_handler py_int user_id
       ("trivia_" +:+ a +:+ "_" +:+ b +:+ "_" +:+ c) d
     = (d, CallbackOverflowError))
  ∧ (selected = correct → sqlite_int points = true →
     (button_handler py_int user_id
        ("trivia_" +:+ a +:+ "_" +:+ b +:+ "_" +:+ c) d).2
     = CallbackCorrect points
     ∧ (users d !! user_id = None →
        (button_handler py_int user_id
           ("trivia_" +:+ a +:+ "_" +:+ b +:+ "_" +:+ c) d).1 = d)
     ∧ (∀ u,
          users d !! user_id = Some u →
          sqlite_int (u_points u + points) = true →
          ∃ u',
            users (button_handler py_int user_id
                     ("trivia_" +:+ a +:+ "_" +:+ b +:+ "_" +:+ c) d).1
              !! user_id = Some u'
            ∧ credited points u u'))
  ∧ (∀ data,
       String.prefix "trivia_" data = false →
       button_handler py_int user_id data d = (d, CallbackIgnored))
  ∧ (∀ data,
       same_accounts d (button_handler py_int user_id data d).1
       ∧ (∀ other,
            other ≠ user_id →
            users (button_handler py_int user_id data d).1 !! other
            = users d !! other)
       ∧ orders (button_handler py_int user_id data d).1 = orders d
       ∧ products (button_handler py_int user_id data d).1 = products d
       ∧ transactions (button_handler py_int user_id data d).1
         = transactions d
       ∧ admins (button_handler py_int user_id data d).1 = admins d
       ∧ tickets (button_handler py_int user_id data d).1 = tickets d
       ∧ settings (button_handler py_int user_id data d).1 = settings d).
Proof.
  intros Ha Hb Hc Hsel Hcor Hpts.
  assert (Hrun :
    button_handler py_int user_id
      ("trivia_" +:+ a +:+ "_" +:+ b +:+ "_" +:+ c) d
    = if selected =? correct then
        if sqlite_int points
        then (DatabaseManager.add_points user_id points d,
              CallbackCorrect points)
        else (d, CallbackOverflowError)
      else (d, CallbackWrong)).
  { unfold button_handler.
    change ("trivia_" +:+ a +:+ "_" +:+ b +:+ "_" +:+ c)
      with ("trivia" +:+ String "_" (a +:+ String "_" (b +:+ String "_" c))).
    assert (Hpre : String.prefix "trivia_"
                     ("trivia" +:+ String "_"
                        (a +:+ String "_" (b +:+ String "_" c))) = true)
      by (by destruct a).
    rewrite Hpre.
    rewrite (split_on_field "trivia")
      by (intros ch Hch; simpl in Hch;
          repeat (destruct Hch as [<-|Hch]; [discriminate|]); done).
    rewrite (split_on_field a), (split_on_field b), (split_on_last_field c)
      by done.
    by rewrite Hsel, Hcor, Hpts. }
  split_and!.
  - intros Hne. by rewrite Hrun, (proj2 (Z.eqb_neq _ _) Hne).
  - intros Heq Hint. by rewrite Hrun, (proj2 (Z.eqb_eq _ _) Heq), Hint.
  - intros Heq Hint. rewrite Hrun, (proj2 (Z.eqb_eq _ _) Heq), Hint.
    cbn [fst snd]. split_and!; [done| |].
    + intros Hnone. unfold DatabaseManager.add_points, set_users.
      rewrite (alter_None _ _ _ Hnone). by destruct d.
    + intros u Hu _. unfold DatabaseManager.add_points, set_users; simpl.
      rewrite lookup_alter_eq, Hu. eexists. split; [done|]. by split_and!.
  - intros data Hdata. unfold button_handler. by rewrite Hdata.
  - intros data.
    destruct (button_handler_store user_id data d) as [->|[pts ->]].
    + split_and!; done.
    + unfold DatabaseManager.add_points. split_and!; try done.
      * intros id. simpl. destruct (decide (id = user_id)) as [->|Hne].
        -- rewrite lookup_alter_eq. by destruct (users d !! user_id).
        -- by rewrite lookup_alter_ne.
      * intros other Hne. simpl. by rewrite lookup_alter_ne.
Qed.

End Callbacks.

(** Data no button carries. Equal first fields and a large negative third:
    account 1 goes from 5 points to -999995. A third field of twenty
    digits: OverflowError, and the store is as before. *)
Lemma button_handler_trusts_callback_data_witness :
  (u_points <$>
     users (button_handler ascii_int 1 "trivia_7_7_-1000000" sample_db).1
       !! 1)
  = Some (-999995)
  ∧ button_handler ascii_int 1 "trivia_1_1_99999999999999999999" sample_db
    = (sample_db, CallbackOverflowError).
Proof.
  assert (Hfree : ∀ s, forallb (λ ch, negb (Ascii.eqb ch "_"))
                         (list_ascii_of_string s) = true →
                       underscore_free s).
  { intros s Hs ch Hch Heq. rewrite forallb_forall in Hs.
    specialize (Hs ch Hch). subst ch. discriminate Hs. }
  split.
  - destruct (button_handler_trusts_callback_data ascii_int 1 sample_db
                "7" "7" "-1000000" 7 7 (-1000000)
                (Hfree "7" eq_refl) (Hfree "7" eq_refl)
                (Hfree "-1000000" eq_refl) eq_refl eq_refl eq_refl)
      as (_ & _ & Hcredit & _).
    destruct (Hcredit eq_refl eq_refl) as (_ & _ & Hrow).
    destruct (Hrow (sample_user 10 false 5 30%float "REF1AAAAAA")
                eq_refl eq_refl) as (u' & Hu' & Hpoints & _).
    change ("trivia_" +:+ "7" +:+ "_" +:+ "7" +:+ "_" +:+ "-1000000")
      with "trivia_7_7_-1000000" in Hu'.
    rewrite Hu'. simpl. by rewrite Hpoints.
  - destruct (button_handler_trusts_callback_data ascii_int 1 sample_db
                "1" "1" "99999999999999999999" 1 1 99999999999999999999
                (Hfree "1" eq_refl) (Hfree "1" eq_refl)
                (Hfree "99999999999999999999" eq_refl)
                eq_refl eq_refl eq_refl)
      as (_ & Hover & _).
    exact (Hover eq_refl eq_refl).
Defined.

(** ** Start-up *)

Section Startup.

Lemma insert_or_ignore_union {K A} `{Countable K} (key : K) (row : A)
    (table : gmap K A) :
  insert_or_ignore key row table = table ∪ {[key := row]}.
Proof.
  unfold insert_or_ignore. apply map_eq. intros k.
  rewrite lookup_union.
  destruct (table !! key) as [old|] eqn:Hkey.
  - destruct (decide (k = key)) as [->|Hne].
    + by rewrite Hkey, lookup_singleton_eq.
    + rewrite lookup_singleton_ne by done. by destruct (table !! k).
  - destruct (decide (k = key)) as [->|Hne].
    + by rewrite lookup_insert_eq, Hkey, lookup_singleton_eq.
    + rewrite lookup_insert_ne, lookup_singleton_ne by done.
      by destruct (table !! k).
Qed.

Lemma seed_settings (rows : list (string * string)) (d : Database) :
  foldl (λ d (setting : string * string),
           set_settings (insert_or_ignore setting.1 setting.2) d) d rows
  = set_settings (λ table, table ∪ list_to_map rows) d.
Proof.
  revert d. induction rows as [|[key value] rows IH]; intros d; simpl.
  - unfold set_settings. rewrite (right_id_L ∅ (∪)). by destruct d.
  - rewrite IH. unfold set_settings. simpl. f_equal.
    rewrite insert_or_ignore_union, <- (assoc_L (∪)).
    by rewrite <- insert_union_singleton_l.
Qed.

Lemma seed_admins (now : Z) (ids : list Z) (d : Database) :
  foldl (λ d admin_id,
           set_admins (insert_or_ignore admin_id (mkAdmin admin_id now 3)) d)
        d ids
  = set_admins
      (λ table,
         table ∪ list_to_map ((λ id, (id, mkAdmin id now 3)) <$> ids)) d.
Proof.
  revert d. induction ids as [|id ids IH]; intros d; simpl.
  - unfold set_admins. rewrite (right_id_L ∅ (∪)). by destruct d.
  - rewrite IH. unfold set_admins. simpl. f_equal.
    rewrite insert_or_ignore_union, <- (assoc_L (∪)).
    by rewrite <- insert_union_singleton_l.
Qed.

Lemma init_database_tables (admin_ids : list Z) (now : Z) (d : Database) :
  init_database admin_ids now d
  = mkDatabase (users d)
      (admins d ∪ list_to_map ((λ id, (id, mkAdmin id now 3)) <$> admin_ids))
      (settings d ∪ list_to_map default_settings)
      (products d) (orders d) (tickets d) (transactions d).
Proof. unfold init_database. by rewrite seed_settings, seed_admins. Qed.

Lemma seeded_admin_lookup (now : Z) (ids : list Z) (id : Z) :
  (list_to_map ((λ id, (id, mkAdmin id now 3)) <$> ids) : gmap Z Admin) !! id
  = if bool_decide (id ∈ ids) then Some (mkAdmin id now 3) else None.
Proof.
  induction ids as [|id' ids IH]; [done|].
  rewrite fmap_cons, list_to_map_cons.
  destruct (decide (id = id')) as [->|Hne].
  - rewrite lookup_insert_eq, bool_decide_eq_true_2; [done|]. by left.
  - rewrite lookup_insert_ne, IH by done.
    rewrite (bool_decide_ext (id ∈ ids) (id ∈ id' :: ids)); [done|].
    rewrite elem_of_cons. split; [by right|]. by intros [?|?].
Qed.

Lemma union_keeps_covered {K A} `{Countable K} (table rows : gmap K A) :
  (∀ key, is_Some (rows !! key) → is_Some (table !! key)) →
  table ∪ rows = table.
Proof.
  intros Hcovered. apply map_eq. intros key. rewrite lookup_union.
  destruct (table !! key) as [row|] eqn:Htable.
  - by destruct (rows !! key).
  - destruct (rows !! key) as [row|] eqn:Hrows; [|done].
    destruct (Hcovered key) as [row' Hrow']; [by eexists|]. congruence.
Qed.

(** X24. Restarting the bot is safe for what is stored, and restores the
    configured admins. [init_database] never changes a setting or an admin
    grant that exists, writes each default setting that is missing, makes
    every id of [ADMIN_IDS] that has no grant an admin of level 3 added by
    itself (so a configured admin removed with [remove_admin] is an admin
    again after the next start), grants nothing to anybody else, leaves the
    other tables alone, and running it again, at any later time, changes
    nothing. *)
Theorem init_database_is_restart_safe (admin_ids : list Z) (now : Z)
    (d : Database) :
  (∀ key value,
     settings d !! key = Some value →
     settings (init_database admin_ids now d) !! key = Some value)
  ∧ (∀ key value,
       (key, value) ∈ default_settings →
       settings d !! key = None →
       settings (init_database admin_ids now d) !! key = Some value)
  ∧ (∀ key,
       key ∉ default_settings.*1 →
       settings (init_database admin_ids now d) !! key = settings d !! key)
  ∧ (∀ id grant,
       admins d !! id = Some grant →
       admins (init_database admin_ids now d) !! id = Some grant)
  ∧ (∀ id,
       id ∈ admin_ids →
       admins d !! id = None →
       admins (init_database admin_ids now d) !! id
       = Some (mkAdmin id now 3))
  ∧ (∀ id,
       id ∈ admin_ids →
       DatabaseManager.is_admin id
         (init_database admin_ids now (DatabaseManager.remove_admin id d))
       = true)
  ∧ (∀ id,
       id ∉ admin_ids →
       admins (init_database admin_ids now d) !! id = admins d !! id)
  ∧ users (init_database admin_ids now d) = users d
  ∧ products (init_database admin_ids now d) = products d
  ∧ orders (init_database admin_ids now d) = orders d
  ∧ tickets (init_database admin_ids now d) = tickets d
  ∧ transactions (init_database admin_ids now d) = transactions d
  ∧ (∀ later,
       init_database admin_ids later (init_database admin_ids now d)
       = init_database admin_ids now d).
Proof.
  assert (Hkeys : NoDup default_settings.*1)
    by (apply (bool_decide_unpack (NoDup default_settings.*1));
        vm_compute; reflexivity).
  split_and!; try (by rewrite init_database_tables).
  - intros key value Hkey. rewrite init_database_tables. cbn [settings admins].
    by apply lookup_union_Some_l.
  - intros key value Hin Hkey. rewrite init_database_tables. cbn [settings admins].
    rewrite lookup_union_r by done.
    by apply elem_of_list_to_map_1.
  - intros key Hkey. rewrite init_database_tables. cbn [settings admins].
    rewrite lookup_union_l; [done|].
    by apply not_elem_of_list_to_map_1.
  - intros id grant Hid. rewrite init_database_tables. cbn [settings admins].
    by apply lookup_union_Some_l.
  - intros id Hin Hid. rewrite init_database_tables. cbn [settings admins].
    rewrite lookup_union_r, seeded_admin_lookup by done.
    by rewrite bool_decide_eq_true_2.
  - intros id Hin. unfold DatabaseManager.is_admin.
    rewrite init_database_tables. cbn [settings admins].
    rewrite lookup_union_r by apply lookup_delete_eq.
    rewrite seeded_admin_lookup.
    rewrite (bool_decide_eq_true_2 (id ∈ admin_ids)) by done.
    by apply bool_decide_eq_true_2.
  - intros id Hin. rewrite init_database_tables. cbn [settings admins].
    rewrite lookup_union_l; [done|].
    rewrite seeded_admin_lookup. by rewrite bool_decide_eq_false_2.
  - intros later. rewrite (init_database_tables _ later).
    rewrite init_database_tables. cbn [settings admins]. f_equal.
    + apply union_keeps_covered. intros id.
      rewrite lookup_union, !seeded_admin_lookup.
      case_bool_decide; [|by intros [? ?]].
      intros _. destruct (admins d !! id); by eexists.
    + apply union_keeps_covered. intros key [value Hvalue].
      rewrite lookup_union, Hvalue.
      destruct (settings d !! key); by eexists.
Qed.

End Startup.

(** ** Activity counters *)

Section Activity.

Variable py_int : string → option Z.

Lemma same_activity_refl (w : World) : same_activity w w.
Proof. by intros user_id. Qed.

Lemma same_activity_trans (w1 w2 w3 : World) :
  same_activity w1 w2 → same_activity w2 w3 → same_activity w1 w3.
Proof. intros H12 H23 user_id. by rewrite H23, H12. Qed.

Lemma same_activity_same_users (w w' : World) :
  users (db w') = users (db w) → same_activity w w'.
Proof. intros Husers user_id. by rewrite Husers. Qed.

Lemma handle_user_input_same_users (env : Env) (user_id : Z) (text : string)
    (w : World) :
  users (db (handle_user_input py_int env user_id text w).1) = users (db w).
Proof.
  rewrite handle_user_input_run.
  destruct (flag user_id "awaiting_broadcast" w); [done|].
  destruct (flag user_id "awaiting_admin_id" w);
    [destruct (py_int text) as [new_admin|];
     [by destruct (sqlite_int new_admin)|done]|].
  by destruct (flag user_id "creating_ticket" w).
Qed.

(** After the activity update, no branch of the router writes a message
    count or an activity time. *)
Lemma handle_message_same_activity (env : Env) (user_id : Z) (text : string)
    (w : World) :
  same_activity
    (execute (DatabaseManager.update_user_activity (now env) user_id) w).1
    (handle_message py_int env user_id text w).1.
Proof.
  refine (proj2 (handle_message_after_activity py_int (λ _, True)
                   same_activity _ _ _ _ _ _ _ _ _ env user_id text w I)).
  - apply same_activity_refl.
  - apply same_activity_trans.
  - done.
  - done.
  - done.
  - intros w0 o _. by apply same_activity_same_users.
  - intros w0 session. by apply same_activity_same_users.
  - intros w0 uid points other.
    unfold execute, DatabaseManager.add_points, set_users.
    cbn [fst db users].
    destruct (decide (uid = other)) as [<-|Hne].
    + rewrite lookup_alter_eq. by destruct (users (db w0) !! uid).
    + by rewrite lookup_alter_ne.
  - intros env' uid text' fallback Hfb w0 _. split; [done|].
    unfold mbind, M_bind, user_data_get. cbn [fst snd].
    destruct (default false (user_data_of uid w0 !! "awaiting_input")).
    + apply same_activity_same_users, handle_user_input_same_users.
    + by apply Hfb.
Qed.

Lemma handle_message_activity (env : Env) (user_id other : Z) (text : string)
    (w : World) :
  activity_of <$> users (db (handle_message py_int env user_id text w).1)
                    !! other
  = (λ u, if bool_decide (user_id = other)
          then (u_message_count u + 1, now env)
          else activity_of u) <$> users (db w) !! other.
Proof.
  rewrite (handle_message_same_activity env user_id text w other).
  unfold execute, DatabaseManager.update_user_activity, set_users.
  cbn [fst db users].
  destruct (decide (user_id = other)) as [<-|Hne].
  - rewrite lookup_alter_eq, bool_decide_eq_true_2 by done.
    by destruct (users (db w) !! user_id).
  - rewrite lookup_alter_ne, bool_decide_eq_false_2 by done.
    by destruct (users (db w) !! other).
Qed.

(** X27. Every text message is counted, once, for the account that sent
    it. Over any run of events, in any session state, the message count of
    an account has gone up by exactly the number of events it sent (banned
    or not, understood or not, handler raising or not) and its
    last-activity time is that of its last event, or unchanged when it sent
    none; an id without an account still has none. *)
Theorem every_message_is_counted (events : list Event) (w : World)
    (user_id : Z) :
  activity_of <$> users (db (run_events py_int events w)) !! user_id
  = (λ u,
       (u_message_count u + Z.of_nat (length (events_of user_id events)),
        default (u_last_activity u)
                (last ((λ e, now (ev_env e)) <$> events_of user_id events))))
      <$> users (db w) !! user_id.
Proof.
  revert w. induction events as [|e rest IH]; intros w.
  - cbn [run_events events_of List.filter length fmap list_fmap last default].
    destruct (users (db w) !! user_id) as [u|]; [|done].
    unfold activity_of. simpl. f_equal. f_equal. lia.
  - cbn [run_events]. rewrite IH.
    pose proof (handle_message_activity (ev_env e) (ev_user_id e) user_id
                  (ev_text e) w) as Hstep.
    destruct (users (db (handle_message py_int (ev_env e) (ev_user_id e)
                           (ev_text e) w).1) !! user_id) as [u1|] eqn:Hu1;
      destruct (users (db w) !! user_id) as [u|] eqn:Hu;
      try discriminate Hstep; [|done].
    cbn [fmap option_fmap option_map] in Hstep |- *.
    unfold activity_of in Hstep |- *.
    unfold events_of. cbn [List.filter].
    fold (events_of user_id rest).
    case_bool_decide as Hsame.
    + injection Hstep as Hcount Htime.
      rewrite (proj2 (Z.eqb_eq _ _) Hsame). cbn [length fmap list_fmap].
      f_equal. f_equal; [lia|].
      rewrite Htime.
      destruct (events_of user_id rest) as [|e' rest']; [done|].
      rewrite !fmap_cons, (last_cons_cons (now (ev_env e))).
      destruct (proj2 (last_is_Some
                         (now (ev_env e')
                          :: ((λ e0, now (ev_env e0)) <$> rest')))) as [t Ht];
        [done|]. by rewrite Ht.
    + injection Hstep as Hcount Htime.
      rewrite (proj2 (Z.eqb_neq _ _) Hsame).
      f_equal. f_equal; [lia|]. by rewrite Htime.
Qed.

End Activity.

(** ** Edge cases of the menu *)

Section MenuEdges.

Variable py_int : string → option Z.

Lemma update_user_activity_missing (now user_id : Z) (d : Database) :
  users d !! user_id = None →
  DatabaseManager.update_user_activity now user_id d = d.
Proof.
  intros Hu. unfold DatabaseManager.update_user_activity, set_users.
  rewrite (alter_None _ _ _ Hu). by destruct d.
Qed.

(** X25. What a user who never sent [/start] gets from the main menu.
    Nothing is stored for such an id: the activity update and the points of
    the daily reward change no row. The profile button answers that the
    data could not be loaded; the wallet and the referral buttons raise
    TypeError on the missing row before any reply is sent; the daily reward
    is announced although no points are recorded. *)
Theorem menu_without_account (env : Env) (user_id : Z) (w : World) :
  users (db w) !! user_id = None →
  handle_message py_int env user_id label_show_profile w
  = (mkWorld (db w) (user_data w)
       (outbox w ++ [ReplyText user_id MsgLoadError NoKeyboard]), Ok tt)
  ∧ handle_message py_int env user_id label_show_wallet w
    = (w, Raise TypeError)
  ∧ handle_message py_int env user_id label_show_referral w
    = (w, Raise TypeError)
  ∧ handle_message py_int env user_id label_claim_daily w
    = (mkWorld (db w) (user_data w)
         (outbox w
          ++ [ReplyText user_id (MsgDailyReward (daily_points env))
                GamesKeyboard]), Ok tt).
Proof.
  intros Hu.
  assert (Hget : DatabaseManager.get_user user_id (db w) = None) by done.
  split_and!; unfold handle_message; run_handler;
    rewrite update_user_activity_missing by done; rewrite Hget;
    unfold show_profile, show_wallet, show_referral, claim_daily;
    run_handler; rewrite ?Hget, ?add_points_missing by done;
    by destruct w.
Qed.


(** X26. Six buttons of the wallet and settings keyboards have no
    handler. For a caller that is not banned, each of their labels makes
    the router raise NameError for the function its branch names: the
    message has been counted as activity, nothing is sent back and the
    session data is as before. *)
Theorem undefined_handlers_raise (env : Env) (user_id : Z) (w : World)
    (text name : string) :
  (text, name) ∈ undefined_handlers →
  banned user_id (db w) = false →
  handle_message py_int env user_id text w
  = (mkWorld
       (DatabaseManager.update_user_activity (now env) user_id (db w))
       (user_data w) (outbox w),
     Raise (NameError name)).
Proof.
  intros Hin Hban.
  rewrite <- (banned_after_activity (now env)) in Hban.
  unfold banned in Hban.
  unfold undefined_handlers in Hin.
  repeat (apply elem_of_cons in Hin as [Heq|Hin];
          [injection Heq as -> ->; unfold handle_message; run_handler;
           by rewrite Hban|]).
  by apply elem_of_nil in Hin.
Qed.


End MenuEdges.

Lemma menu_without_account_witness :
  (handle_message ascii_int sample_env 99 label_show_wallet sample_world).2
  = Raise TypeError
  ∧ outbox
      (handle_message ascii_int sample_env 99 label_claim_daily
         sample_world).1
    = [ReplyText 99 (MsgDailyReward 50) GamesKeyboard]
  ∧ db (handle_message ascii_int sample_env 99 label_claim_daily
          sample_world).1
    = sample_db.
Proof.
  destruct (menu_without_account ascii_int sample_env 99 sample_world eq_refl)
    as (_ & Hwallet & _ & Hdaily).
  rewrite Hwallet, Hdaily. by split_and!.
Defined.

Lemma undefined_handlers_raise_witness :
  (handle_message ascii_int sample_env 1 label_deposit_start sample_world).2
  = Raise (NameError "deposit_start")
  ∧ outbox
      (handle_message ascii_int sample_env 1 label_deposit_start
         sample_world).1
    = [].
Proof.
  assert (Hin : (label_deposit_start, "deposit_start") ∈ undefined_handlers)
    by (apply elem_of_cons; by left).
  by rewrite (undefined_handlers_raise ascii_int sample_env 1 sample_world
                label_deposit_start "deposit_start" Hin eq_refl).
Defined.

(** ** Shop and leaderboard pages *)

Section Pages.

Lemma for_each_reply_run {A} (user_id : Z) (card : A → Payload)
    (buttons : A → Keyboard) (rows : list A) (w : World) :
  for_each rows (λ row, reply_text user_id (card row) (buttons row)) w
  = (mkWorld (db w) (user_data w)
       (outbox w
        ++ ((λ row, ReplyText user_id (card row) (buttons row)) <$> rows)),
     Ok tt).
Proof.
  revert w. induction rows as [|row rows IH]; intros w.
  - simpl. rewrite app_nil_r. by destruct w.
  - cbn [for_each]. unfold mbind, M_bind, reply_text, emit. cbn [fst snd].
    rewrite IH. cbn [db user_data outbox].
    by rewrite fmap_cons, <- app_assoc.
Qed.

(** X28. A shop category shows exactly what is on sale in it. The handler
    answers with one card for each product the category filter of
    [get_products] selects, newest first, each with the add-to-cart button
    of that product, or with the single no-products notice when there is
    none; a product that is inactive, or of another category, gets no card.
    Nothing is stored. *)
Theorem show_category_lists_what_is_on_sale (user_id : Z) (category : string)
    (w : World) :
  ∃ sent,
    show_category user_id category w
    = (mkWorld (db w) (user_data w) (outbox w ++ sent), Ok tt)
    ∧ (∀ pid p,
         ReplyText user_id (MsgProduct pid p) (AddToCartButton pid) ∈ sent
         ↔ products (db w) !! pid = Some p
           ∧ DatabaseManager.product_selected (Some category) true p = true)
    ∧ (ReplyText user_id MsgNoProducts ShopKeyboard ∈ sent
       ↔ ∀ pid p,
           products (db w) !! pid = Some p →
           DatabaseManager.product_selected (Some category) true p = false)
    ∧ length sent
      = (1 `max` length (DatabaseManager.get_products (Some category) true
                           (db w)))%nat.
Proof.
  assert (Hin : ∀ pid p,
             (pid, p) ∈ DatabaseManager.get_products (Some category) true
                          (db w)
             ↔ products (db w) !! pid = Some p
               ∧ DatabaseManager.product_selected (Some category) true p = true).
  { intros pid p. unfold DatabaseManager.get_products.
    rewrite order_by_desc_Permutation, elem_of_list_filter_bool.
    by rewrite elem_of_map_to_list. }
  unfold show_category, mbind, M_bind, query. cbn [fst snd].
  destruct (DatabaseManager.get_products (Some category) true (db w))
    as [|row rows] eqn:Hrows.
  - exists [ReplyText user_id MsgNoProducts ShopKeyboard].
    split_and!; [done| | |done].
    + intros pid p. rewrite <- Hin, elem_of_nil.
      rewrite list_elem_of_singleton. split; [discriminate|done].
    + rewrite list_elem_of_singleton. split; [|done].
      intros _ pid p Hp.
      destruct (DatabaseManager.product_selected (Some category) true p) eqn:Hsel; [|done].
      pose proof (proj2 (Hin pid p) (conj Hp Hsel)) as Hrow.
      by apply elem_of_nil in Hrow.
  - rewrite for_each_reply_run.
    eexists. split_and!; [reflexivity| | |].
    + intros pid p. rewrite <- Hin, list_elem_of_fmap. split.
      * intros ([pid' p'] & Heq & Hrow). by injection Heq as -> ->.
      * intros Hrow. by exists (pid, p).
    + rewrite list_elem_of_fmap. split.
      * intros (? & Heq & _). discriminate Heq.
      * intros Hnone. destruct row as [pid p].
        destruct (proj1 (Hin pid p)) as [Hp Hsel]; [by left|].
        by rewrite (Hnone pid p Hp) in Hsel.
    + rewrite length_fmap. cbn [length]. lia.
Qed.

(** X29. The leaderboard is the top ten by points. [show_leaderboard]
    answers with the names and points of accounts of the table, at most ten
    and all of them when there are fewer, in descending order of points; an
    account whose row is not shown has no more points than any row shown.
    Banned accounts are ranked like any other. Nothing is stored. *)
Theorem show_leaderboard_ranks_top_ten (user_id : Z) (w : World) :
  ∃ board,
    show_leaderboard user_id w
    = (mkWorld (db w) (user_data w)
         (outbox w ++ [ReplyText user_id (MsgLeaderboard board) NoKeyboard]),
       Ok tt)
    ∧ length board = (10 `min` size (users (db w)))%nat
    ∧ StronglySorted (λ r1 r2 : string * Z, r2.2 ≤ r1.2) board
    ∧ (∀ row,
         row ∈ board →
         ∃ id u,
           users (db w) !! id = Some u
           ∧ row = (u_first_name u, u_points u))
    ∧ (∀ id u row,
         users (db w) !! id = Some u →
         (u_first_name u, u_points u) ∉ board →
         row ∈ board →
         u_points u ≤ row.2).
Proof.
  unfold show_leaderboard, mbind, M_bind, query, reply_text, emit.
  cbn [fst snd]. eexists. split; [reflexivity|].
  unfold limit_offset. rewrite drop_0.
  set (sorted := order_by_desc (λ r : Z * User, u_points r.2)
                   (map_to_list (users (db w)))).
  pose proof (order_by_desc_sorted (λ r : Z * User, u_points r.2)
                (map_to_list (users (db w)))) as Hsorted.
  fold sorted in Hsorted.
  rewrite <- (take_drop 10 sorted) in Hsorted.
  split_and!.
  - rewrite length_fmap, length_take. subst sorted.
    by rewrite (Permutation_length (order_by_desc_Permutation _ _)),
               length_map_to_list.
  - apply StronglySorted_app_1_l in Hsorted.
    apply (StronglySorted_fmap _
             (λ x y : Z * User, u_points y.2 ≤ u_points x.2));
      [by intros|done].
  - intros row Hrow. apply list_elem_of_fmap in Hrow as ([id u] & -> & Hin).
    exists id, u. split; [|done].
    apply elem_of_map_to_list.
    assert (Hall : (id, u) ∈ take 10 sorted ++ drop 10 sorted)
      by (apply elem_of_app; by left).
    rewrite take_drop in Hall. subst sorted.
    by rewrite order_by_desc_Permutation in Hall.
  - intros id u row Hu Hout Hrow.
    apply list_elem_of_fmap in Hrow as ([id' u'] & -> & Hlisted).
    assert (Hall : (id, u) ∈ take 10 sorted ++ drop 10 sorted).
    { rewrite take_drop. subst sorted.
      rewrite order_by_desc_Permutation. by apply elem_of_map_to_list. }
    apply elem_of_app in Hall as [Hin|Hin].
    + destruct Hout. apply list_elem_of_fmap. by exists (id, u).
    + exact (StronglySorted_app_1_elem_of _ _ _ _ _ Hsorted Hlisted Hin).
Qed.

End Pages.
